(** * ai-brain: the knowledge-graph manager of [src/enhanced-memory.js]

    A shallow embedding of [EnhancedKnowledgeGraphManager]: the line store
    ([loadGraph], [saveGraph]), the decay engine ([applyEmotionalDecay]),
    the metadata defaults ([createDefaultEmotionalMetadata]), the mutations
    [createEntities] and [addObservations], and the ranked search
    ([searchNodes]); then the rest of the manager ([createRelations],
    [deleteEntities], [deleteObservations], [deleteRelations], [openNodes],
    [getUserProfile], [generateRecommendations], [readGraph]),
    [createEmotionalMetadata] of [types.js] and the tool handler of
    [index.js].  Three refinements follow: the search with the numbers and
    strings of the engine ([searchNodes_as_computed]), the bootstrap
    content as an object that the calls of one process share
    ([addObservations_shared]), and the handler on arguments that may lack
    a key ([callTool_raw]).

    Conventions of the embedding.
    - A JavaScript number is the rational it denotes ([Q]), and the
      arithmetic is exact.  Where scores are compared, in the search, the
      rounding of doubles decides the order: [score_as_computed] rounds
      every operation as the engine does.
    - A timestamp is the epoch time in milliseconds ([Z]); the source keeps
      ISO-8601 strings and converts them with [Date].  Every [new Date()]
      evaluated during one call reads the same instant, the [now] argument.
    - A string is a byte string; [toLowerCase] folds the ASCII letters and
      [trim] strips the ASCII white space.  The search as computed takes
      [toLowerCase] from the engine.
    - Objects are records with the fields the manager reads and writes.
    - Reading a file that exists and writing the file succeed.
    - [Math.pow], [JSON.parse] and [JSON.stringify] belong to the platform:
      they are the fields of the class [Host].  [reference_host] is a
      concrete instance used to evaluate the model on examples. *)

From Stdlib Require Import List String Ascii Bool Arith ZArith QArith Qminmax.
From Stdlib Require Import Qround Qpower DecimalString.
From Stdlib Require Import Lia Lqa Permutation Sorted.
Import ListNotations.

Set Warnings "-register-all".
Local Open Scope list_scope.
Local Open Scope string_scope.

(** ** Strings *)

Module Str.

Definition lower_ascii (c : ascii) : ascii :=
  let n := nat_of_ascii c in
  if andb (65 <=? n)%nat (n <=? 90)%nat then ascii_of_nat (n + 32) else c.

(** [String.prototype.toLowerCase], on ASCII. *)
Fixpoint toLowerCase (s : string) : string :=
  match s with
  | EmptyString => EmptyString
  | String c s' => String (lower_ascii c) (toLowerCase s')
  end.

(** [s.includes(needle)]. *)
Fixpoint includes (s needle : string) : bool :=
  if String.prefix needle s then true
  else match s with
       | EmptyString => false
       | String _ s' => includes s' needle
       end.

(** [xs.join(sep)]. *)
Definition join (sep : string) (xs : list string) : string :=
  String.concat sep xs.

Definition cons_head (c : ascii) (ps : list string) : list string :=
  match ps with
  | [] => [String c EmptyString]
  | p :: ps' => String c p :: ps'
  end.

(** [s.split(sep)] for a non-empty [sep]: [skip] counts the characters of
    a separator just matched that are still to be dropped. *)
Fixpoint split_from (sep : string) (skip : nat) (s : string) : list string :=
  match s with
  | EmptyString => [EmptyString]
  | String c s' =>
      match skip with
      | S k => split_from sep k s'
      | O =>
          if String.prefix sep s
          then EmptyString :: split_from sep (String.length sep - 1) s'
          else cons_head c (split_from sep 0 s')
      end
  end.

Definition split (sep s : string) : list string := split_from sep 0 s.

Definition is_space (c : ascii) : bool :=
  let n := nat_of_ascii c in
  orb (andb (9 <=? n)%nat (n <=? 13)%nat) (n =? 32)%nat.

(** [s.trim() === ""]. *)
Fixpoint blank (s : string) : bool :=
  match s with
  | EmptyString => true
  | String c s' => andb (is_space c) (blank s')
  end.

(** [xs.includes(x)] on an array of strings. *)
Definition mem (x : string) (xs : list string) : bool :=
  existsb (String.eqb x) xs.

(** The line feed character, U+000A. *)
Definition LF : ascii := ascii_of_nat 10.

End Str.

(** ** Numbers *)

Definition Qlt_bool (x y : Q) : bool := negb (Qle_bool y x).

(** [Math.min(a, b)] and [Math.max(a, b)]. *)
Definition Math_min (a b : Q) : Q := if Qle_bool a b then a else b.
Definition Math_max (a b : Q) : Q := if Qle_bool a b then b else a.

(** [x || d] on an optional number: [undefined] and [0] are falsy. *)
Definition num_or (x : option Q) (d : Q) : Q :=
  match x with
  | Some v => if Qeq_bool v 0 then d else v
  | None => d
  end.

(** ** Data model *)

Record EmotionalMetadata := {
  trustLevel : Q;
  importancePattern : string;
  emotionalResonance : Q;
  lastUpdated : Z;
  isUserPreference : bool;
  accessibilityFlag : bool;
  createdAt : Z;
  decayRate : option Q;
  lastAccessed : option Z
}.

Record Entity := {
  name : string;
  entityType : string;
  observations : list string;
  emotionalMetadata : option EmotionalMetadata
}.

Record Relation := {
  from : string;
  to : string;
  relationType : string;
  strength : option Q
}.

Record UserProfile := {
  up_trustLevel : Q;
  preferredShell : string;
  workingStyle : string;
  accessibilityNeeds : list string;
  communicationPrefs : list string;
  panicTriggers : list string;
  successPatterns : list string
}.

(** The metadata envelope of a graph; a key of the object may be absent. *)
Record GraphMetadata := {
  gm_version : option string;
  gm_createdAt : option Z;
  gm_lastUpdated : option Z;
  gm_totalInteractions : option Z;
  gm_language : option string;
  gm_userProfile : option UserProfile
}.

Record KnowledgeGraph := {
  entities : list Entity;
  relations : list Relation;
  metadata : GraphMetadata
}.

(** One parsed record of the store, by its [type] discriminator. *)
Inductive Item :=
| entity_item (e : Entity)
| relation_item (r : Relation)
| metadata_item (m : GraphMetadata)
| other_item.

(** The platform functions the manager calls. *)
Class Host := {
  Math_pow : Q -> Q -> Q;
  JSON_parse : string -> option Item;
  JSON_stringify : Item -> string
}.

(** The errors of [types.js]: their constructor arguments, [name] and
    [code]. *)
Inductive Error :=
| MemoryError (message code : string)
| UserPreferenceError (message : string).

Definition error_name (e : Error) : string :=
  match e with
  | MemoryError _ _ => "MemoryError"
  | UserPreferenceError _ => "UserPreferenceError"
  end.

Definition error_code (e : Error) : string :=
  match e with
  | MemoryError _ c => c
  | UserPreferenceError _ => "USER_PREFERENCE_ERROR"
  end.

(** The store: the text of the memory file, [None] when it does not exist. *)
Definition Disk := option string.

(** The manager's own state. *)
Record Manager := { lastDecayCheck : Z }.

(** Field updates. *)
Definition set_metadata (e : Entity) (m : option EmotionalMetadata) : Entity :=
  {| name := name e; entityType := entityType e;
     observations := observations e; emotionalMetadata := m |}.

Definition set_observations (e : Entity) (obs : list string) : Entity :=
  {| name := name e; entityType := entityType e;
     observations := obs; emotionalMetadata := emotionalMetadata e |}.

Definition set_trustLevel (m : EmotionalMetadata) (v : Q) : EmotionalMetadata :=
  {| trustLevel := v; importancePattern := importancePattern m;
     emotionalResonance := emotionalResonance m; lastUpdated := lastUpdated m;
     isUserPreference := isUserPreference m;
     accessibilityFlag := accessibilityFlag m; createdAt := createdAt m;
     decayRate := decayRate m; lastAccessed := lastAccessed m |}.

Definition set_emotionalResonance (m : EmotionalMetadata) (v : Q)
  : EmotionalMetadata :=
  {| trustLevel := trustLevel m; importancePattern := importancePattern m;
     emotionalResonance := v; lastUpdated := lastUpdated m;
     isUserPreference := isUserPreference m;
     accessibilityFlag := accessibilityFlag m; createdAt := createdAt m;
     decayRate := decayRate m; lastAccessed := lastAccessed m |}.

Definition set_lastUpdated (m : EmotionalMetadata) (t : Z) : EmotionalMetadata :=
  {| trustLevel := trustLevel m; importancePattern := importancePattern m;
     emotionalResonance := emotionalResonance m; lastUpdated := t;
     isUserPreference := isUserPreference m;
     accessibilityFlag := accessibilityFlag m; createdAt := createdAt m;
     decayRate := decayRate m; lastAccessed := lastAccessed m |}.

Definition set_lastAccessed (m : EmotionalMetadata) (t : Z) : EmotionalMetadata :=
  {| trustLevel := trustLevel m; importancePattern := importancePattern m;
     emotionalResonance := emotionalResonance m; lastUpdated := lastUpdated m;
     isUserPreference := isUserPreference m;
     accessibilityFlag := accessibilityFlag m; createdAt := createdAt m;
     decayRate := decayRate m; lastAccessed := Some t |}.

(** ** Metadata defaults *)

(** The text the keyword detectors scan:
    [`${name} ${entityType} ${observations.join(' ')}`.toLowerCase()]. *)
Definition content_of (e : Entity) : string :=
  Str.toLowerCase
    (name e ++ " " ++ entityType e ++ " " ++ Str.join " " (observations e)).

Definition preferenceKeywords : list string :=
  ["uses zsh"; "uses bash"; "prefers"; "likes"; "dislikes";
   "working style"; "communication style"; "needs"; "requires"]%string.

Definition accessibilityKeywords : list string :=
  ["screen reader"; "vision impaired"; "slow pace"; "accessibility";
   "visual impairment"; "hearing"; "motor"; "cognitive"; "disability"]%string.

Definition relationshipKeywords : list string :=
  ["bond"; "relationship"; "collaboration"; "team"; "partnership";
   "trust"; "working together"; "connection"; "rapport"]%string.

Definition relationshipTypes : list string :=
  ["relationship"; "bond"; "collaboration"; "team"; "partnership"]%string.

(** [isUserPreference(entity)]; the plain name is the field of the
    metadata. *)
Definition isUserPreference_of (e : Entity) : bool :=
  existsb (Str.includes (content_of e)) preferenceKeywords.

Definition isAccessibilityRelated (e : Entity) : bool :=
  existsb (Str.includes (content_of e)) accessibilityKeywords.

Definition isRelationshipEntity (e : Entity) : bool :=
  let keywordMatch := existsb (Str.includes (content_of e)) relationshipKeywords in
  let typeMatch :=
    existsb (Str.includes (Str.toLowerCase (entityType e))) relationshipTypes in
  orb keywordMatch typeMatch.

Definition createDefaultEmotionalMetadata (now : Z) (e : Entity)
  : EmotionalMetadata :=
  let isPreference := isUserPreference_of e in
  let isAccessibility := isAccessibilityRelated e in
  let isRelationship := isRelationshipEntity e in
  let pattern :=
    if isPreference then "preference"
    else if isRelationship then "strengthen" else "time-based" in
  {| trustLevel := 0.5%Q;
     importancePattern := pattern;
     emotionalResonance :=
       (if isPreference then 0.9 else if isRelationship then 0.7 else 0.5)%Q;
     lastUpdated := now;
     isUserPreference := isPreference;
     accessibilityFlag := isAccessibility;
     createdAt := now;
     decayRate := None;
     lastAccessed := None |}.

(** ** The store *)

(** The separator of [loadGraph] and [saveGraph], written ["\\n"] in the
    source: the two characters backslash and [n]. *)
Definition record_separator : string := "\n".

(** [{...a, ...b}]: the keys of [b] override those of [a]. *)
Definition or_else {A : Type} (x y : option A) : option A :=
  match x with Some _ => x | None => y end.

Definition merge_metadata (a b : GraphMetadata) : GraphMetadata :=
  {| gm_version := or_else (gm_version b) (gm_version a);
     gm_createdAt := or_else (gm_createdAt b) (gm_createdAt a);
     gm_lastUpdated := or_else (gm_lastUpdated b) (gm_lastUpdated a);
     gm_totalInteractions :=
       or_else (gm_totalInteractions b) (gm_totalInteractions a);
     gm_language := or_else (gm_language b) (gm_language a);
     gm_userProfile := or_else (gm_userProfile b) (gm_userProfile a) |}.

Definition default_userProfile : UserProfile :=
  {| up_trustLevel := 0.5%Q;
     preferredShell := "unknown";
     workingStyle := "unknown";
     accessibilityNeeds := [];
     communicationPrefs := [];
     panicTriggers := [];
     successPatterns := [] |}.

(** [BOOTSTRAP_CONTENT]: per language, the observations of the identity
    entity and of the user profile entity. *)
Definition BOOTSTRAP_CONTENT (language : string)
  : option (list string * list string) :=
  if language =? "en" then
    Some (["I am a considerate AI teammate designed to be helpful without being overwhelming";
           "I learn and adapt to individual working styles and accessibility needs";
           "I build trust through consistent, reliable behavior rather than speed";
           "I remember important preferences and never force users to repeat them";
           "I am patient and thoughtful, especially with accessibility considerations"],
          ["Learning about user preferences and working style";
           "Will adapt based on observed patterns and explicit feedback"])
  else if language =? "de" then
    Some (["Ich bin ein rücksichtsvoller KI-Teamkollege, der hilfsbereit ist, ohne zu überfordern";
           "Ich lerne und passe mich an individuelle Arbeitsstile und Barrierefreiheitsbedürfnisse an";
           "Ich baue Vertrauen durch konsistentes, zuverlässiges Verhalten auf, nicht durch Geschwindigkeit";
           "Ich merke mir wichtige Präferenzen und zwinge Benutzer nie dazu, sie zu wiederholen";
           "Ich bin geduldig und durchdacht, besonders bei Barrierefreiheitsüberlegungen"],
          ["Lerne über Benutzerpräferenzen und Arbeitsstil";
           "Werde mich basierend auf beobachteten Mustern und explizitem Feedback anpassen"])
  else None.

(** [createBootstrapGraph] in a process that has not yet pushed onto the
    arrays of [BOOTSTRAP_CONTENT]; [bootstrap_graph] takes the arrays as
    they are. *)
Definition createBootstrapGraph (now : Z) (language : string) : KnowledgeGraph :=
  let content :=
    match BOOTSTRAP_CONTENT language with
    | Some c => c
    | None => match BOOTSTRAP_CONTENT "en" with Some c => c | None => ([], []) end
    end in
  {| entities :=
       [ {| name := "AI_Assistant_Identity";
            entityType := "core_identity";
            observations := fst content;
            emotionalMetadata := Some
              {| trustLevel := 0.8%Q; importancePattern := "self-managed";
                 emotionalResonance := 0.95%Q; lastUpdated := now;
                 isUserPreference := false; accessibilityFlag := false;
                 createdAt := now; decayRate := None; lastAccessed := None |} |};
         {| name := "User_Profile";
            entityType := "user_profile";
            observations := snd content;
            emotionalMetadata := Some
              {| trustLevel := 0.6%Q; importancePattern := "strengthen";
                 emotionalResonance := 0.8%Q; lastUpdated := now;
                 isUserPreference := true; accessibilityFlag := false;
                 createdAt := now; decayRate := None; lastAccessed := None |} |} ];
     relations :=
       [ {| from := "AI_Assistant_Identity"; to := "User_Profile";
            relationType := "serves_and_adapts_to"; strength := Some 0.9%Q |} ];
     metadata :=
       {| gm_version := Some "1.0.0"; gm_createdAt := Some now;
          gm_lastUpdated := Some now; gm_totalInteractions := Some 0%Z;
          gm_language := Some language;
          gm_userProfile := Some default_userProfile |} |}.

(** [data.split("\\n").filter(line => line.trim() !== "")]. *)
Definition store_lines (data : string) : list string :=
  filter (fun line => negb (Str.blank line)) (Str.split record_separator data).

(** What [saveGraph] produced, besides the file. *)
Record Saved := {
  saved_disk : Disk;
  saved_manager : Manager;
  saved_graph : KnowledgeGraph
}.

Record ObservationRequest := { entityName : string; contents : list string }.
Record ObservationResult := {
  result_entityName : string;
  addedObservations : list string
}.

(** [hours] between two instants: [(now - t) / (1000 * 60 * 60)]. *)
Definition hours_between (now t : Z) : Q := (inject_Z (now - t) / 3600000)%Q.

Section Manager.

Context {host : Host}.
(** [process.env.AI_BRAIN_LANGUAGE]. *)
Variable AI_BRAIN_LANGUAGE : option string.

(** The body of the [forEach] of [loadGraph] on a parsed record. *)
Definition load_item (now : Z) (graph : KnowledgeGraph) (item : Item)
  : KnowledgeGraph :=
  match item with
  | entity_item item =>
      let item' :=
        match emotionalMetadata item with
        | None =>
            set_metadata item (Some (createDefaultEmotionalMetadata now item))
        | Some _ => item
        end in
      {| entities := entities graph ++ [item'];
         relations := relations graph; metadata := metadata graph |}
  | relation_item item =>
      {| entities := entities graph;
         relations := relations graph ++ [item]; metadata := metadata graph |}
  | metadata_item item =>
      {| entities := entities graph; relations := relations graph;
         metadata := merge_metadata (metadata graph) item |}
  | other_item => graph
  end.

(** A line that does not parse is skipped. *)
Definition load_line (now : Z) (graph : KnowledgeGraph) (line : string)
  : KnowledgeGraph :=
  match JSON_parse line with
  | Some item => load_item now graph item
  | None => graph
  end.

Definition empty_graph (now : Z) : KnowledgeGraph :=
  {| entities := []; relations := [];
     metadata :=
       {| gm_version := Some "1.0.0"; gm_createdAt := Some now;
          gm_lastUpdated := Some now; gm_totalInteractions := Some 0%Z;
          gm_language := None; gm_userProfile := None |} |}.

Definition loadGraph (now : Z) (disk : Disk) : KnowledgeGraph :=
  match disk with
  | Some data => fold_left (load_line now) (store_lines data) (empty_graph now)
  | None =>
      createBootstrapGraph now
        (match AI_BRAIN_LANGUAGE with
         | Some l => if l =? "" then "en" else l
         | None => "en"
         end)
  end.

(** ** The decay engine *)

(** The body of the [forEach] of [applyEmotionalDecay]. *)
Definition decay_metadata (now : Z) (m : EmotionalMetadata) : EmotionalMetadata :=
  let hoursSinceUpdate := hours_between now (lastUpdated m) in
  let p := importancePattern m in
  let m1 :=
    if p =? "preference" then
      set_emotionalResonance m (Math_min 1 (emotionalResonance m * 1.001))%Q
    else if p =? "strengthen" then
      let m' := set_trustLevel m (Math_min 1 (trustLevel m * 1.002))%Q in
      set_emotionalResonance m' (Math_min 1 (emotionalResonance m' * 1.001))%Q
    else if p =? "time-based" then
      let rate := num_or (decayRate m) 0.5%Q in
      let decayFactor := Math_pow rate (hoursSinceUpdate / 168)%Q in
      set_emotionalResonance m
        (Math_max 0.1 (emotionalResonance m * decayFactor))%Q
    else if p =? "self-managed" then m
    else m in
  set_lastUpdated m1 now.

Definition decay_entity (now : Z) (e : Entity) : Entity :=
  match emotionalMetadata e with
  | None => e
  | Some m => set_metadata e (Some (decay_metadata now m))
  end.

Definition applyEmotionalDecay (now : Z) (mgr : Manager) (graph : KnowledgeGraph)
  : KnowledgeGraph * Manager :=
  let hoursSinceLastDecay := hours_between now (lastDecayCheck mgr) in
  if Qlt_bool hoursSinceLastDecay 1 then (graph, mgr)
  else
    ({| entities := map (decay_entity now) (entities graph);
        relations := relations graph; metadata := metadata graph |},
     {| lastDecayCheck := now |}).

(** ** Saving *)

Definition touch_metadata (now : Z) (m : GraphMetadata) : GraphMetadata :=
  {| gm_version := gm_version m; gm_createdAt := gm_createdAt m;
     gm_lastUpdated := Some now;
     gm_totalInteractions :=
       Some (match gm_totalInteractions m with Some n => n | None => 0 end + 1)%Z;
     gm_language := gm_language m; gm_userProfile := gm_userProfile m |}.

Definition store_records (graph : KnowledgeGraph) : list Item :=
  metadata_item (metadata graph)
    :: map entity_item (entities graph) ++ map relation_item (relations graph).

Definition saveGraph (now : Z) (mgr : Manager) (graph : KnowledgeGraph) : Saved :=
  let graph1 :=
    {| entities := entities graph; relations := relations graph;
       metadata := touch_metadata now (metadata graph) |} in
  let '(graph2, mgr') := applyEmotionalDecay now mgr graph1 in
  let lines := map JSON_stringify (store_records graph2) in
  {| saved_disk := Some (Str.join record_separator lines);
     saved_manager := mgr';
     saved_graph := graph2 |}.

End Manager.

(** ** Profile inference *)

Definition push_unique (tag : string) (tags : list string) : list string :=
  if Str.mem tag tags then tags else tags ++ [tag].

Definition set_preferredShell (p : UserProfile) (s : string) : UserProfile :=
  {| up_trustLevel := up_trustLevel p; preferredShell := s;
     workingStyle := workingStyle p; accessibilityNeeds := accessibilityNeeds p;
     communicationPrefs := communicationPrefs p;
     panicTriggers := panicTriggers p; successPatterns := successPatterns p |}.

Definition set_accessibilityNeeds (p : UserProfile) (l : list string) : UserProfile :=
  {| up_trustLevel := up_trustLevel p; preferredShell := preferredShell p;
     workingStyle := workingStyle p; accessibilityNeeds := l;
     communicationPrefs := communicationPrefs p;
     panicTriggers := panicTriggers p; successPatterns := successPatterns p |}.

Definition set_communicationPrefs (p : UserProfile) (l : list string) : UserProfile :=
  {| up_trustLevel := up_trustLevel p; preferredShell := preferredShell p;
     workingStyle := workingStyle p; accessibilityNeeds := accessibilityNeeds p;
     communicationPrefs := l;
     panicTriggers := panicTriggers p; successPatterns := successPatterns p |}.

(** The body of the [forEach] of [updateUserProfileFromEntities]. *)
Definition infer_profile (p : UserProfile) (e : Entity) : UserProfile :=
  let content :=
    Str.toLowerCase (name e ++ " " ++ Str.join " " (observations e)) in
  let has := Str.includes content in
  let p1 :=
    if has "zsh" then set_preferredShell p "zsh"
    else if has "bash" then set_preferredShell p "bash"
    else if has "fish" then set_preferredShell p "fish"
    else if has "powershell" then set_preferredShell p "powershell"
    else p in
  let p2 :=
    if orb (has "screen reader") (has "vision impaired")
    then set_accessibilityNeeds p1 (push_unique "screen-reader" (accessibilityNeeds p1))
    else p1 in
  let p3 :=
    if orb (has "slow pace") (has "patient")
    then set_accessibilityNeeds p2 (push_unique "slow-pace" (accessibilityNeeds p2))
    else p2 in
  let p4 :=
    if orb (has "detailed") (has "thorough")
    then set_communicationPrefs p3 (push_unique "detailed" (communicationPrefs p3))
    else p3 in
  if orb (has "concise") (has "brief")
  then set_communicationPrefs p4 (push_unique "concise" (communicationPrefs p4))
  else p4.

Definition updateUserProfileFromEntities (graph : KnowledgeGraph)
  (newEntities : list Entity) : KnowledgeGraph :=
  let m := metadata graph in
  let profile0 :=
    match gm_userProfile m with Some p => p | None => default_userProfile end in
  {| entities := entities graph; relations := relations graph;
     metadata :=
       {| gm_version := gm_version m; gm_createdAt := gm_createdAt m;
          gm_lastUpdated := gm_lastUpdated m;
          gm_totalInteractions := gm_totalInteractions m;
          gm_language := gm_language m;
          gm_userProfile := Some (fold_left infer_profile newEntities profile0) |} |}.

(** ** Mutations and search *)

(** The result of a call that may throw. *)
Inductive Outcome (A : Type) :=
| Returned (a : A)
| Thrown (e : Error).
Arguments Returned {A} a.
Arguments Thrown {A} e.

(** What a call that saves leaves behind. *)
Record Effect := { disk_after : Disk; manager_after : Manager }.

(** [graph.entities.some(existing => existing.name === n)]. *)
Definition has_entity (graph : KnowledgeGraph) (n : string) : bool :=
  existsb (fun existingEntity => name existingEntity =? n) (entities graph).

(** One element of the [map] of [addObservations], on the entity found. *)
Definition add_to_entity (now : Z) (o : ObservationRequest) (entity : Entity)
  : Entity * ObservationResult :=
  let newObservations :=
    filter (fun content => negb (Str.mem content (observations entity)))
           (contents o) in
  let entity1 := set_observations entity (observations entity ++ newObservations) in
  let entity2 :=
    match emotionalMetadata entity1 with
    | Some m =>
        let m1 := set_lastAccessed (set_lastUpdated m now) now in
        let m2 :=
          match newObservations with
          | [] => m1
          | _ :: _ => set_trustLevel m1 (Math_min 1 (trustLevel m1 + 0.01))%Q
          end in
        set_metadata entity1 (Some m2)
    | None => entity1
    end in
  (entity2,
   {| result_entityName := entityName o; addedObservations := newObservations |}).

(** [graph.entities.find(e => e.name === o.entityName)], then the update of
    the entity found, in place. *)
Fixpoint add_to_first (now : Z) (o : ObservationRequest) (es : list Entity)
  : option (list Entity * ObservationResult) :=
  match es with
  | [] => None
  | e :: es' =>
      if name e =? entityName o then
        let '(e', r) := add_to_entity now o e in Some (e' :: es', r)
      else
        match add_to_first now o es' with
        | Some (es'', r) => Some (e :: es'', r)
        | None => None
        end
  end.

(** The [map] over the requests: the first miss throws. *)
Fixpoint add_all (now : Z) (batch : list ObservationRequest) (es : list Entity)
  : Outcome (list Entity * list ObservationResult) :=
  match batch with
  | [] => Returned (es, [])
  | o :: batch' =>
      match add_to_first now o es with
      | None =>
          Thrown (UserPreferenceError
                    ("Entity with name " ++ entityName o ++ " not found"))
      | Some (es1, r) =>
          match add_all now batch' es1 with
          | Returned (es2, rs) => Returned (es2, r :: rs)
          | Thrown err => Thrown err
          end
      end
  end.

(** [Array.prototype.sort] with the comparator [(a, b) => b.score - a.score]:
    a stable sort, highest score first. *)
Fixpoint insert_scored (x : Entity * Q) (l : list (Entity * Q)) : list (Entity * Q) :=
  match l with
  | [] => [x]
  | y :: l' =>
      if Qlt_bool (snd x) (snd y) then y :: insert_scored x l' else x :: l
  end.

Definition sort_scored (l : list (Entity * Q)) : list (Entity * Q) :=
  fold_right insert_scored [] l.

(** The score [searchNodes] gives an entity, built up as the source does,
    in exact arithmetic; [score_as_computed] is the score in doubles. *)
Definition score_of (query : string) (entity : Entity) : Q :=
  let queryLower := Str.toLowerCase query in
  let score := 0%Q in
  let score :=
    if Str.includes (Str.toLowerCase (name entity)) queryLower
    then (score + 10)%Q else score in
  let score :=
    if Str.includes (Str.toLowerCase (entityType entity)) queryLower
    then (score + 5)%Q else score in
  let score :=
    if existsb (fun o => Str.includes (Str.toLowerCase o) queryLower)
               (observations entity)
    then (score + 3)%Q else score in
  match emotionalMetadata entity with
  | Some m =>
      let score := (score + emotionalResonance m * 2)%Q in
      let score := if isUserPreference m then (score + 5)%Q else score in
      let score := if accessibilityFlag m then (score + 3)%Q else score in
      (score + trustLevel m * 2)%Q
  | None => score
  end.

Section Operations.

Context {host : Host}.
Variable AI_BRAIN_LANGUAGE : option string.

(** The entities [createEntities] builds from its argument. *)
Definition new_entities (now : Z) (graph : KnowledgeGraph) (batch : list Entity)
  : list Entity :=
  map (fun entity =>
         set_metadata entity
           (Some (match emotionalMetadata entity with
                  | Some m => m
                  | None => createDefaultEmotionalMetadata now entity
                  end)))
      (filter (fun e => negb (has_entity graph (name e))) batch).

(** [createEntities]: the objects returned are the ones pushed onto the
    graph, so they are read after [saveGraph] has run the decay engine
    over them. *)
Definition createEntities (now : Z) (mgr : Manager) (disk : Disk)
  (batch : list Entity) : list Entity * Saved :=
  let graph := loadGraph AI_BRAIN_LANGUAGE now disk in
  let newEntities := new_entities now graph batch in
  let graph1 :=
    {| entities := entities graph ++ newEntities;
       relations := relations graph; metadata := metadata graph |} in
  let graph2 := updateUserProfileFromEntities graph1 newEntities in
  let saved := saveGraph now mgr graph2 in
  (skipn (List.length (entities graph)) (entities (saved_graph saved)), saved).

(** [addObservations]: a throw leaves the file and the manager as they
    were; the graph it had loaded is dropped.  What the requests before
    the throw have pushed onto the arrays of [BOOTSTRAP_CONTENT], which
    the graph shares when there is no file, is followed in
    [addObservations_shared]. *)
Definition addObservations (now : Z) (mgr : Manager) (disk : Disk)
  (batch : list ObservationRequest)
  : Outcome (list ObservationResult * KnowledgeGraph) * Effect :=
  let graph := loadGraph AI_BRAIN_LANGUAGE now disk in
  match add_all now batch (entities graph) with
  | Thrown err => (Thrown err, {| disk_after := disk; manager_after := mgr |})
  | Returned (es, results) =>
      let saved :=
        saveGraph now mgr
          {| entities := es; relations := relations graph;
             metadata := metadata graph |} in
      (Returned (results, saved_graph saved),
       {| disk_after := saved_disk saved;
          manager_after := saved_manager saved |})
  end.

Definition scored (query : string) (graph : KnowledgeGraph) : list (Entity * Q) :=
  map (fun entity => (entity, score_of query entity)) (entities graph).

Definition searchNodes (now : Z) (disk : Disk) (query : string) : KnowledgeGraph :=
  let graph := loadGraph AI_BRAIN_LANGUAGE now disk in
  let scoredEntities :=
    map fst
      (sort_scored
         (filter (fun item => Qlt_bool 0 (snd item)) (scored query graph))) in
  let entityNames := map name scoredEntities in
  let filteredRelations :=
    filter (fun r => andb (Str.mem (from r) entityNames)
                          (Str.mem (to r) entityNames))
           (relations graph) in
  {| entities := scoredEntities; relations := filteredRelations;
     metadata := metadata graph |}.

End Operations.

(** ** A reference host

    A concrete [Host], to run the model: [JSON.stringify] and [JSON.parse]
    over the records of the data model, and a power function that is exact
    on whole exponents.  Timestamps are written as numbers (epoch
    milliseconds) and numbers in plain decimal notation; a record with a
    known [type] whose fields do not have the shape of the data model is
    rejected like a line that does not parse. *)

Module Json.

Inductive value :=
| Null
| Bool (b : bool)
| Num (q : Q)
| Text (s : string)
| Arr (items : list value)
| Obj (fields : list (string * value)).

Definition dquote : ascii := ascii_of_nat 34.
Definition backslash : ascii := ascii_of_nat 92.

(** *** Printing: [JSON.stringify] *)

Definition hex_digit (n : nat) : ascii :=
  if (n <? 10)%nat then ascii_of_nat (48 + n) else ascii_of_nat (87 + n).

(** One character inside a string literal (QuoteJSONString). *)
Definition quote_char (c : ascii) : string :=
  let n := nat_of_ascii c in
  if (n =? 34)%nat then String backslash (String dquote "")
  else if (n =? 92)%nat then "\\"
  else if (n =? 8)%nat then "\b"
  else if (n =? 12)%nat then "\f"
  else if (n =? 10)%nat then "\n"
  else if (n =? 13)%nat then "\r"
  else if (n =? 9)%nat then "\t"
  else if (n <? 32)%nat then
    "\u00" ++ String (hex_digit (n / 16)) (String (hex_digit (n mod 16)) "")
  else String c "".

Fixpoint quote_body (s : string) : string :=
  match s with
  | EmptyString => EmptyString
  | String c s' => quote_char c ++ quote_body s'
  end.

Definition quote (s : string) : string :=
  String dquote (quote_body s ++ String dquote "").

Definition print_Z (z : Z) : string := NilZero.string_of_int (Z.to_int z).

(** The digits of [r / d] after the decimal point, [0 <= r < d]. *)
Fixpoint fraction_digits (fuel : nat) (r d : Z) : string :=
  match fuel with
  | O => ""
  | S fuel' =>
      if (r =? 0)%Z then ""
      else String (ascii_of_nat (48 + Z.to_nat (r * 10 / d)))
                  (fraction_digits fuel' ((r * 10) mod d) d)
  end.

(** A number in plain decimal notation, at most 20 fractional digits. *)
Definition print_number (q : Q) : string :=
  let n := Qnum q in
  let d := Zpos (Qden q) in
  let a := Z.abs n in
  let whole := print_Z (a / d) in
  let frac := fraction_digits 20 (a mod d) d in
  (if (n <? 0)%Z then "-" else "")
    ++ whole ++ (if frac =? "" then "" else "." ++ frac).

Fixpoint print (v : value) : string :=
  match v with
  | Null => "null"
  | Bool true => "true"
  | Bool false => "false"
  | Num q => print_number q
  | Text s => quote s
  | Arr items => "[" ++ String.concat "," (map print items) ++ "]"
  | Obj fields =>
      "{" ++ String.concat ","
               (map (fun kv => quote (fst kv) ++ ":" ++ print (snd kv)) fields)
          ++ "}"
  end.

(** *** Parsing: [JSON.parse] *)

Definition is_ws (c : ascii) : bool :=
  let n := nat_of_ascii c in
  orb (orb (n =? 32)%nat (n =? 9)%nat) (orb (n =? 10)%nat (n =? 13)%nat).

Fixpoint skip_ws (s : string) : string :=
  match s with
  | String c s' => if is_ws c then skip_ws s' else s
  | EmptyString => s
  end.

Definition digit_of (c : ascii) : option Z :=
  let n := nat_of_ascii c in
  if andb (48 <=? n)%nat (n <=? 57)%nat then Some (Z.of_nat (n - 48)) else None.

Definition hex_of (c : ascii) : option nat :=
  let n := nat_of_ascii c in
  if andb (48 <=? n)%nat (n <=? 57)%nat then Some (n - 48)%nat
  else if andb (97 <=? n)%nat (n <=? 102)%nat then Some (n - 87)%nat
  else if andb (65 <=? n)%nat (n <=? 70)%nat then Some (n - 55)%nat
  else None.

(** The UTF-8 bytes of a code point of the basic plane. *)
Definition utf8 (cp : nat) : string :=
  if (cp <? 128)%nat then String (ascii_of_nat cp) ""
  else if (cp <? 2048)%nat then
    String (ascii_of_nat (192 + cp / 64))
      (String (ascii_of_nat (128 + cp mod 64)) "")
  else
    String (ascii_of_nat (224 + cp / 4096))
      (String (ascii_of_nat (128 + (cp / 64) mod 64))
         (String (ascii_of_nat (128 + cp mod 64)) "")).

(** The characters of a string literal after its opening quote, and the
    rest of the input after its closing quote. *)
Fixpoint parse_chars (fuel : nat) (s : string) : option (string * string) :=
  match fuel with
  | O => None
  | S fuel' =>
      match s with
      | EmptyString => None
      | String c s1 =>
          let n := nat_of_ascii c in
          if (n =? 34)%nat then Some ("", s1)
          else if (n <? 32)%nat then None
          else if (n =? 92)%nat then
            match s1 with
            | String e s2 =>
                let simple (ch : nat) :=
                  match parse_chars fuel' s2 with
                  | Some (body, rest) => Some (String (ascii_of_nat ch) body, rest)
                  | None => None
                  end in
                if (e =? "n")%char then simple 10%nat
                else if (e =? "t")%char then simple 9%nat
                else if (e =? "r")%char then simple 13%nat
                else if (e =? "b")%char then simple 8%nat
                else if (e =? "f")%char then simple 12%nat
                else if (e =? "/")%char then simple 47%nat
                else if (e =? "\")%char then simple 92%nat
                else if (nat_of_ascii e =? 34)%nat then simple 34%nat
                else if (e =? "u")%char then
                  match s2 with
                  | String h1 (String h2 (String h3 (String h4 s3))) =>
                      match hex_of h1, hex_of h2, hex_of h3, hex_of h4 with
                      | Some a, Some b, Some c', Some d =>
                          match parse_chars fuel' s3 with
                          | Some (body, rest) =>
                              Some (utf8 (((a * 16 + b) * 16 + c') * 16 + d) ++ body,
                                    rest)
                          | None => None
                          end
                      | _, _, _, _ => None
                      end
                  | _ => None
                  end
                else None
            | EmptyString => None
            end
          else
            match parse_chars fuel' s1 with
            | Some (body, rest) => Some (String c body, rest)
            | None => None
            end
      end
  end.

(** A run of digits: their value, how many there were, the rest. *)
Fixpoint parse_digits (s : string) (acc : Z) (count : nat) : Z * nat * string :=
  match s with
  | String c s' =>
      match digit_of c with
      | Some d => parse_digits s' (acc * 10 + d)%Z (S count)
      | None => (acc, count, s)
      end
  | EmptyString => (acc, count, s)
  end.

Definition scale (m : Z) (e : Z) : Q :=
  if (0 <=? e)%Z then inject_Z (m * 10 ^ e)
  else Qred (Qmake m (Z.to_pos (10 ^ (- e)))).

Definition parse_number (s : string) : option (Q * string) :=
  let '(neg, s0) :=
    match s with
    | String "-"%char s' => (true, s')
    | _ => (false, s)
    end in
  let '(whole, n, s1) := parse_digits s0 0%Z 0%nat in
  if (n =? 0)%nat then None
  else
    let '(m, k, s2) :=
      match s1 with
      | String "."%char s' =>
          let '(m, k, s'') := parse_digits s' whole 0%nat in (m, Some k, s'')
      | _ => (whole, None, s1)
      end in
    match k with
    | Some O => None
    | _ =>
        let digits := match k with Some k' => Z.of_nat k' | None => 0%Z end in
        let exponent :=
          match s2 with
          | String c s' =>
              if orb (c =? "e")%char (c =? "E")%char then
                let '(sign, s3) :=
                  match s' with
                  | String "-"%char t => ((-1)%Z, t)
                  | String "+"%char t => (1%Z, t)
                  | _ => (1%Z, s')
                  end in
                let '(e, ne, s4) := parse_digits s3 0%Z 0%nat in
                if (ne =? 0)%nat then None else Some ((sign * e)%Z, s4)
              else Some (0%Z, s2)
          | EmptyString => Some (0%Z, s2)
          end in
        match exponent with
        | Some (e, rest) =>
            let v := scale m (e - digits) in
            Some (if neg then Qopp v else v, rest)
        | None => None
        end
    end.

Definition literal (word : string) (v : value) (s : string)
  : option (value * string) :=
  if String.prefix word s
  then Some (v, String.substring (String.length word)
                   (String.length s - String.length word) s)
  else None.

Fixpoint parse_value (fuel : nat) (s : string) : option (value * string) :=
  match fuel with
  | O => None
  | S fuel' =>
      let parse_items :=
        fix items (n : nat) (s : string) : option (list value * string) :=
          match n with
          | O => None
          | S n' =>
              match parse_value fuel' s with
              | Some (v, rest) =>
                  match skip_ws rest with
                  | String ","%char rest' =>
                      match items n' rest' with
                      | Some (vs, rest'') => Some (v :: vs, rest'')
                      | None => None
                      end
                  | String "]"%char rest' => Some ([v], rest')
                  | _ => None
                  end
              | None => None
              end
          end in
      let parse_fields :=
        fix fields (n : nat) (s : string)
          : option (list (string * value) * string) :=
          match n with
          | O => None
          | S n' =>
              match skip_ws s with
              | String c s1 =>
                  if (nat_of_ascii c =? 34)%nat then
                    match parse_chars (String.length s1) s1 with
                    | Some (key, s2) =>
                        match skip_ws s2 with
                        | String ":"%char s3 =>
                            match parse_value fuel' s3 with
                            | Some (v, rest) =>
                                match skip_ws rest with
                                | String ","%char rest' =>
                                    match fields n' rest' with
                                    | Some (kvs, rest'') =>
                                        Some ((key, v) :: kvs, rest'')
                                    | None => None
                                    end
                                | String "}"%char rest' => Some ([(key, v)], rest')
                                | _ => None
                                end
                            | None => None
                            end
                        | _ => None
                        end
                    | None => None
                    end
                  else None
              | EmptyString => None
              end
          end in
      match skip_ws s with
      | EmptyString => None
      | String c s1 =>
          if (nat_of_ascii c =? 34)%nat then
            match parse_chars (String.length s1) s1 with
            | Some (body, rest) => Some (Text body, rest)
            | None => None
            end
          else if (c =? "[")%char then
            match skip_ws s1 with
            | String "]"%char rest => Some (Arr [], rest)
            | _ =>
                match parse_items (String.length s1) s1 with
                | Some (vs, rest) => Some (Arr vs, rest)
                | None => None
                end
            end
          else if (c =? "{")%char then
            match skip_ws s1 with
            | String "}"%char rest => Some (Obj [], rest)
            | _ =>
                match parse_fields (String.length s1) s1 with
                | Some (kvs, rest) => Some (Obj kvs, rest)
                | None => None
                end
            end
          else if (c =? "t")%char then literal "true" (Bool true) (String c s1)
          else if (c =? "f")%char then literal "false" (Bool false) (String c s1)
          else if (c =? "n")%char then literal "null" Null (String c s1)
          else
            match parse_number (String c s1) with
            | Some (q, rest) => Some (Num q, rest)
            | None => None
            end
      end
  end.

(** [JSON.parse(text)]: [None] stands for the [SyntaxError]. *)
Definition parse (text : string) : option value :=
  match parse_value (S (String.length text)) text with
  | Some (v, rest) =>
      match skip_ws rest with
      | EmptyString => Some v
      | _ => None
      end
  | None => None
  end.

End Json.

Module Codec.
Import Json.

(** *** Records to JSON values *)

Definition opt_field {A : Type} (key : string) (f : A -> value) (x : option A)
  : list (string * value) :=
  match x with Some a => [(key, f a)] | None => [] end.

Definition of_texts (l : list string) : value := Arr (map Text l).
Definition of_time (t : Z) : value := Num (inject_Z t).

Definition of_emotional (m : EmotionalMetadata) : value :=
  Obj ([("trustLevel", Num (trustLevel m));
        ("importancePattern", Text (importancePattern m));
        ("emotionalResonance", Num (emotionalResonance m));
        ("lastUpdated", of_time (lastUpdated m));
        ("isUserPreference", Bool (isUserPreference m));
        ("accessibilityFlag", Bool (accessibilityFlag m));
        ("createdAt", of_time (createdAt m))]
         ++ opt_field "decayRate" Num (decayRate m)
         ++ opt_field "lastAccessed" of_time (lastAccessed m)).

Definition of_entity (e : Entity) : value :=
  Obj ([("type", Text "entity");
        ("name", Text (name e));
        ("entityType", Text (entityType e));
        ("observations", of_texts (observations e))]
         ++ opt_field "emotionalMetadata" of_emotional (emotionalMetadata e)).

Definition of_relation (r : Relation) : value :=
  Obj ([("type", Text "relation");
        ("from", Text (from r));
        ("to", Text (to r));
        ("relationType", Text (relationType r))]
         ++ opt_field "strength" Num (strength r)).

Definition of_profile (p : UserProfile) : value :=
  Obj [("trustLevel", Num (up_trustLevel p));
       ("preferredShell", Text (preferredShell p));
       ("workingStyle", Text (workingStyle p));
       ("accessibilityNeeds", of_texts (accessibilityNeeds p));
       ("communicationPrefs", of_texts (communicationPrefs p));
       ("panicTriggers", of_texts (panicTriggers p));
       ("successPatterns", of_texts (successPatterns p))].

Definition of_metadata (m : GraphMetadata) : value :=
  Obj ([("type", Text "metadata")]
         ++ opt_field "version" Text (gm_version m)
         ++ opt_field "createdAt" of_time (gm_createdAt m)
         ++ opt_field "lastUpdated" of_time (gm_lastUpdated m)
         ++ opt_field "totalInteractions" of_time (gm_totalInteractions m)
         ++ opt_field "language" Text (gm_language m)
         ++ opt_field "userProfile" of_profile (gm_userProfile m)).

Definition of_item (i : Item) : value :=
  match i with
  | entity_item e => of_entity e
  | relation_item r => of_relation r
  | metadata_item m => of_metadata m
  | other_item => Obj []
  end.

(** *** JSON values to records *)

(** The value of a key; of a repeated key, the last. *)
Fixpoint lookup (key : string) (fields : list (string * value)) : option value :=
  match fields with
  | [] => None
  | (k, v) :: rest =>
      match lookup key rest with
      | Some v' => Some v'
      | None => if k =? key then Some v else None
      end
  end.

Definition to_text (v : value) : option string :=
  match v with Text s => Some s | _ => None end.
Definition to_num (v : value) : option Q :=
  match v with Num q => Some q | _ => None end.
Definition to_bool (v : value) : option bool :=
  match v with Bool b => Some b | _ => None end.
Definition to_time (v : value) : option Z :=
  match v with
  | Num q => if (Zpos (Qden q) =? 1)%Z then Some (Qnum q) else None
  | _ => None
  end.

Fixpoint to_texts_list (l : list value) : option (list string) :=
  match l with
  | [] => Some []
  | Text s :: l' =>
      match to_texts_list l' with Some r => Some (s :: r) | None => None end
  | _ :: _ => None
  end.

Definition to_texts (v : value) : option (list string) :=
  match v with Arr l => to_texts_list l | _ => None end.

Definition bind {A B : Type} (x : option A) (f : A -> option B) : option B :=
  match x with Some a => f a | None => None end.

Notation "x <- e ;; k" := (bind e (fun x => k))
  (at level 61, e at next level, right associativity).

(** A required key. *)
Definition req {A : Type} (fields : list (string * value)) (key : string)
  (f : value -> option A) : option A :=
  bind (lookup key fields) f.

(** An optional key: absent or [null] is [None]. *)
Definition opt {A : Type} (fields : list (string * value)) (key : string)
  (f : value -> option A) : option (option A) :=
  match lookup key fields with
  | None => Some None
  | Some Null => Some None
  | Some v => match f v with Some a => Some (Some a) | None => None end
  end.

Definition to_emotional (v : value) : option EmotionalMetadata :=
  match v with
  | Obj fs =>
      trust <- req fs "trustLevel" to_num ;;
      pattern <- req fs "importancePattern" to_text ;;
      resonance <- req fs "emotionalResonance" to_num ;;
      updated <- req fs "lastUpdated" to_time ;;
      pref <- req fs "isUserPreference" to_bool ;;
      access <- req fs "accessibilityFlag" to_bool ;;
      created <- req fs "createdAt" to_time ;;
      rate <- opt fs "decayRate" to_num ;;
      accessed <- opt fs "lastAccessed" to_time ;;
      Some {| trustLevel := trust; importancePattern := pattern;
              emotionalResonance := resonance; lastUpdated := updated;
              isUserPreference := pref; accessibilityFlag := access;
              createdAt := created; decayRate := rate;
              lastAccessed := accessed |}
  | _ => None
  end.

Definition to_entity (fs : list (string * value)) : option Entity :=
  n <- req fs "name" to_text ;;
  t <- req fs "entityType" to_text ;;
  obs <- req fs "observations" to_texts ;;
  m <- opt fs "emotionalMetadata" to_emotional ;;
  Some {| name := n; entityType := t; observations := obs;
          emotionalMetadata := m |}.

Definition to_relation (fs : list (string * value)) : option Relation :=
  f <- req fs "from" to_text ;;
  t <- req fs "to" to_text ;;
  rt <- req fs "relationType" to_text ;;
  s <- opt fs "strength" to_num ;;
  Some {| from := f; to := t; relationType := rt; strength := s |}.

Definition to_profile (v : value) : option UserProfile :=
  match v with
  | Obj fs =>
      trust <- req fs "trustLevel" to_num ;;
      shell <- req fs "preferredShell" to_text ;;
      style <- req fs "workingStyle" to_text ;;
      needs <- req fs "accessibilityNeeds" to_texts ;;
      prefs <- req fs "communicationPrefs" to_texts ;;
      panic <- req fs "panicTriggers" to_texts ;;
      success <- req fs "successPatterns" to_texts ;;
      Some {| up_trustLevel := trust; preferredShell := shell;
              workingStyle := style; accessibilityNeeds := needs;
              communicationPrefs := prefs; panicTriggers := panic;
              successPatterns := success |}
  | _ => None
  end.

Definition to_metadata (fs : list (string * value)) : option GraphMetadata :=
  v <- opt fs "version" to_text ;;
  created <- opt fs "createdAt" to_time ;;
  updated <- opt fs "lastUpdated" to_time ;;
  total <- opt fs "totalInteractions" to_time ;;
  lang <- opt fs "language" to_text ;;
  profile <- opt fs "userProfile" to_profile ;;
  Some {| gm_version := v; gm_createdAt := created; gm_lastUpdated := updated;
          gm_totalInteractions := total; gm_language := lang;
          gm_userProfile := profile |}.

Definition to_item (v : value) : option Item :=
  match v with
  | Obj fs =>
      match lookup "type" fs with
      | Some (Text t) =>
          if t =? "entity" then option_map entity_item (to_entity fs)
          else if t =? "relation" then option_map relation_item (to_relation fs)
          else if t =? "metadata" then option_map metadata_item (to_metadata fs)
          else Some other_item
      | _ => Some other_item
      end
  | _ => Some other_item
  end.

Definition stringify (i : Item) : string := print (of_item i).

Definition parse_item (line : string) : option Item :=
  bind (parse line) to_item.

End Codec.

(** [b] to the power [floor e]: [Math.pow(b, e)] when [e] is whole. *)
Definition pow_floor (b e : Q) : Q := Qpower b (Qfloor e).

Definition reference_host : Host :=
  {| Math_pow := pow_floor;
     JSON_parse := Codec.parse_item;
     JSON_stringify := Codec.stringify |}.

(** Text with ['] standing for the double quote character. *)
Fixpoint dq (s : string) : string :=
  match s with
  | EmptyString => EmptyString
  | String c s' => String (if (c =? "'")%char then Json.dquote else c) (dq s')
  end.

(** * The rest of the manager, [types.js] and the tool handler of [index.js] *)

(** ** Deletions, relations and node access *)

Record Deletion := { del_entityName : string; del_observations : list string }.

(** [a.from === b.from && a.to === b.to && a.relationType === b.relationType]. *)
Definition same_relation (a b : Relation) : bool :=
  andb (andb (from a =? from b) (to a =? to b)) (relationType a =? relationType b).

(** [e.emotionalMetadata?.isUserPreference], as a condition. *)
Definition flagged_preference (e : Entity) : bool :=
  match emotionalMetadata e with
  | Some m => isUserPreference m
  | None => false
  end.

(** The body of the [forEach] of [deleteObservations] on the entity found. *)
Definition delete_from_entity (now : Z) (d : Deletion) (entity : Entity) : Entity :=
  let entity1 :=
    set_observations entity
      (filter (fun o => negb (Str.mem o (del_observations d)))
              (observations entity)) in
  match emotionalMetadata entity1 with
  | Some m => set_metadata entity1 (Some (set_lastUpdated m now))
  | None => entity1
  end.

(** [graph.entities.find(e => e.name === d.entityName)], then the update of
    the entity found, in place; nothing when there is none. *)
Fixpoint delete_from_first (now : Z) (d : Deletion) (es : list Entity)
  : list Entity :=
  match es with
  | [] => []
  | e :: es' =>
      if name e =? del_entityName d then delete_from_entity now d e :: es'
      else e :: delete_from_first now d es'
  end.

(** The stamp of [openNodes] on an entity it returns. *)
Definition stamp_access (now : Z) (entity : Entity) : Entity :=
  match emotionalMetadata entity with
  | Some m => set_metadata entity (Some (set_lastAccessed m now))
  | None => entity
  end.

(** ** Recommendations *)

Record Recommendation := { rec_type : string; rec_message : string }.

Definition shell_recommendation : Recommendation :=
  {| rec_type := "preference-detection";
     rec_message := "I notice I haven't learned your shell preference yet. I can remember whether you use zsh, bash, fish, or PowerShell to give you better command suggestions." |}.

Definition accessibility_recommendation : Recommendation :=
  {| rec_type := "accessibility-check";
     rec_message := "I'm designed to adapt to different accessibility needs. Let me know if you prefer slower-paced responses, detailed descriptions, or other accommodations." |}.

Definition trust_recommendation : Recommendation :=
  {| rec_type := "trust-building";
     rec_message := "I'm still learning your preferences. The more we work together, the better I'll become at anticipating your needs." |}.

Definition generateRecommendations (graph : KnowledgeGraph) : list Recommendation :=
  let profile := gm_userProfile (metadata graph) in
  let recommendations : list Recommendation := [] in
  let recommendations :=
    if match profile with
       | Some p => preferredShell p =? "unknown"
       | None => false
       end
    then (recommendations ++ [shell_recommendation])%list else recommendations in
  let recommendations :=
    if match profile with
       | Some p => match accessibilityNeeds p with [] => true | _ :: _ => false end
       | None => false
       end
    then (recommendations ++ [accessibility_recommendation])%list else recommendations in
  if Qlt_bool (num_or (option_map up_trustLevel profile) 0) 0.7
  then (recommendations ++ [trust_recommendation])%list else recommendations.

Section MoreOperations.

Context {host : Host}.
Variable AI_BRAIN_LANGUAGE : option string.

(** [deleteEntities]: the text given to [console.warn], if any, and the
    save. *)
Definition deleteEntities (now : Z) (mgr : Manager) (disk : Disk)
  (entityNames : list string) : option string * Saved :=
  let graph := loadGraph AI_BRAIN_LANGUAGE now disk in
  let deletingPreferences :=
    filter (fun e => andb (Str.mem (name e) entityNames) (flagged_preference e))
           (entities graph) in
  let warning :=
    match deletingPreferences with
    | [] => None
    | _ :: _ =>
        Some ("Warning: Deleting user preferences: "
              ++ Str.join ", " (map name deletingPreferences))
    end in
  (warning,
   saveGraph now mgr
     {| entities :=
          filter (fun e => negb (Str.mem (name e) entityNames)) (entities graph);
        relations :=
          filter (fun r => andb (negb (Str.mem (from r) entityNames))
                                (negb (Str.mem (to r) entityNames)))
                 (relations graph);
        metadata := metadata graph |}).

Definition createRelations (now : Z) (mgr : Manager) (disk : Disk)
  (batch : list Relation) : list Relation * Saved :=
  let graph := loadGraph AI_BRAIN_LANGUAGE now disk in
  let newRelations :=
    filter (fun r => negb (existsb (fun existing => same_relation existing r)
                                   (relations graph)))
           batch in
  (newRelations,
   saveGraph now mgr
     {| entities := entities graph;
        relations := relations graph ++ newRelations;
        metadata := metadata graph |}).

Definition deleteObservations (now : Z) (mgr : Manager) (disk : Disk)
  (deletions : list Deletion) : Saved :=
  let graph := loadGraph AI_BRAIN_LANGUAGE now disk in
  saveGraph now mgr
    {| entities :=
         fold_left (fun es d => delete_from_first now d es) deletions
                   (entities graph);
       relations := relations graph;
       metadata := metadata graph |}.

Definition deleteRelations (now : Z) (mgr : Manager) (disk : Disk)
  (batch : list Relation) : Saved :=
  let graph := loadGraph AI_BRAIN_LANGUAGE now disk in
  saveGraph now mgr
    {| entities := entities graph;
       relations :=
         filter (fun r => negb (existsb (fun delRelation => same_relation r delRelation)
                                        batch))
                (relations graph);
       metadata := metadata graph |}.

(** [openNodes]: the entities returned are objects of the graph and the
    metadata returned is the graph's, so both are read after [saveGraph]. *)
Definition openNodes (now : Z) (mgr : Manager) (disk : Disk)
  (names : list string) : KnowledgeGraph * Saved :=
  let graph := loadGraph AI_BRAIN_LANGUAGE now disk in
  let selected := fun e : Entity => Str.mem (name e) names in
  let entityNames := map name (filter selected (entities graph)) in
  let filteredRelations :=
    filter (fun r => andb (Str.mem (from r) entityNames)
                          (Str.mem (to r) entityNames))
           (relations graph) in
  let saved :=
    saveGraph now mgr
      {| entities :=
           map (fun e => if selected e then stamp_access now e else e)
               (entities graph);
         relations := relations graph;
         metadata := metadata graph |} in
  ({| entities := filter selected (entities (saved_graph saved));
      relations := filteredRelations;
      metadata := metadata (saved_graph saved) |},
   saved).

Definition getUserProfile (now : Z) (disk : Disk)
  : option UserProfile * list Recommendation :=
  let graph := loadGraph AI_BRAIN_LANGUAGE now disk in
  (gm_userProfile (metadata graph), generateRecommendations graph).

Definition readGraph (now : Z) (disk : Disk) : KnowledgeGraph :=
  loadGraph AI_BRAIN_LANGUAGE now disk.

End MoreOperations.

(** ** [types.js]: [createEmotionalMetadata] *)

(** The [options] object; a key may be absent. *)
Record MetadataOptions := {
  opt_trustLevel : option Q;
  opt_importancePattern : option string;
  opt_emotionalResonance : option Q;
  opt_isUserPreference : option bool;
  opt_accessibilityFlag : option bool;
  opt_decayRate : option Q;
  opt_lastAccessed : option Z
}.

(** [x || d] on an optional string: [undefined] and the empty string are
    falsy. *)
Definition str_or (x : option string) (d : string) : string :=
  match x with
  | Some s => if s =? "" then d else s
  | None => d
  end.

(** [x || false] on an optional boolean. *)
Definition bool_or_false (x : option bool) : bool :=
  match x with Some b => b | None => false end.

Definition createEmotionalMetadata (now : Z) (options : MetadataOptions)
  : EmotionalMetadata :=
  {| trustLevel := num_or (opt_trustLevel options) 0.5%Q;
     importancePattern := str_or (opt_importancePattern options) "time-based";
     emotionalResonance := num_or (opt_emotionalResonance options) 0.5%Q;
     lastUpdated := now;
     isUserPreference := bool_or_false (opt_isUserPreference options);
     accessibilityFlag := bool_or_false (opt_accessibilityFlag options);
     createdAt := now;
     decayRate := opt_decayRate options;
     lastAccessed := opt_lastAccessed options |}.

(** ** [index.js]: the tool handler *)

(** The names of the tools that the server lists. *)
Definition listed_tools : list string :=
  ["create_entities"; "create_relations"; "add_observations";
   "delete_entities"; "delete_observations"; "delete_relations";
   "read_graph"; "search_nodes"; "open_nodes"; "get_user_profile"].

(** The [arguments] object of a call, with the keys that the input schemas
    of the tools name. *)
Record ToolArguments := {
  arg_entities : list Entity;
  arg_relations : list Relation;
  arg_observations : list ObservationRequest;
  arg_entityNames : list string;
  arg_deletions : list Deletion;
  arg_names : list string;
  arg_query : string
}.

(** A value handed to [JSON.stringify(value, null, 2)]. *)
Inductive Payload :=
| entities_payload (es : list Entity)
| relations_payload (rs : list Relation)
| results_payload (rs : list ObservationResult)
| graph_payload (g : KnowledgeGraph)
| profile_payload (profile : option UserProfile) (rs : list Recommendation).

(** What a call gives back: a text content, or an error thrown out of the
    handler. *)
Inductive Reply :=
| text_reply (text : string)
| raised (message : string).

Record Handled := {
  reply : Reply;
  handled_disk : Disk;
  handled_manager : Manager
}.

(** The [catch] of the handler on an error of [types.js]: the class of the
    error is tested from the most specific one. *)
Definition render_error (e : Error) : string :=
  match e with
  | UserPreferenceError message => "User Preference Error: " ++ message
  | MemoryError message _ => "Memory Error: " ++ message
  end.

Section Server.

Context {host : Host}.
Variable AI_BRAIN_LANGUAGE : option string.
(** [JSON.stringify(value, null, 2)]. *)
Variable JSON_pretty : Payload -> string.

(** The handler of [CallToolRequestSchema]; [tool] is the [name] of the
    request. *)
Definition callTool (now : Z) (mgr : Manager) (disk : Disk)
  (tool : string) (args : option ToolArguments) : Handled :=
  match args with
  | None =>
      {| reply := raised ("No arguments provided for tool: " ++ tool);
         handled_disk := disk; handled_manager := mgr |}
  | Some args =>
      let after (text : string) (saved : Saved) :=
        {| reply := text_reply text;
           handled_disk := saved_disk saved;
           handled_manager := saved_manager saved |} in
      let unchanged (text : string) :=
        {| reply := text_reply text;
           handled_disk := disk; handled_manager := mgr |} in
      if tool =? "create_entities" then
        let '(newEntities, saved) :=
          createEntities AI_BRAIN_LANGUAGE now mgr disk (arg_entities args) in
        after (JSON_pretty (entities_payload newEntities)) saved
      else if tool =? "create_relations" then
        let '(newRelations, saved) :=
          createRelations AI_BRAIN_LANGUAGE now mgr disk (arg_relations args) in
        after (JSON_pretty (relations_payload newRelations)) saved
      else if tool =? "add_observations" then
        match addObservations AI_BRAIN_LANGUAGE now mgr disk
                (arg_observations args) with
        | (Returned (addResults, _), effect) =>
            {| reply := text_reply (JSON_pretty (results_payload addResults));
               handled_disk := disk_after effect;
               handled_manager := manager_after effect |}
        | (Thrown error, effect) =>
            {| reply := text_reply (render_error error);
               handled_disk := disk_after effect;
               handled_manager := manager_after effect |}
        end
      else if tool =? "delete_entities" then
        let '(_, saved) :=
          deleteEntities AI_BRAIN_LANGUAGE now mgr disk (arg_entityNames args) in
        after "Entities deleted successfully (checked for user preferences)" saved
      else if tool =? "delete_observations" then
        after "Observations deleted successfully"
              (deleteObservations AI_BRAIN_LANGUAGE now mgr disk
                 (arg_deletions args))
      else if tool =? "delete_relations" then
        after "Relations deleted successfully"
              (deleteRelations AI_BRAIN_LANGUAGE now mgr disk (arg_relations args))
      else if tool =? "read_graph" then
        unchanged (JSON_pretty (graph_payload
                                  (readGraph AI_BRAIN_LANGUAGE now disk)))
      else if tool =? "search_nodes" then
        unchanged (JSON_pretty (graph_payload
                                  (searchNodes AI_BRAIN_LANGUAGE now disk
                                     (arg_query args))))
      else if tool =? "open_nodes" then
        let '(openResults, saved) :=
          openNodes AI_BRAIN_LANGUAGE now mgr disk (arg_names args) in
        after (JSON_pretty (graph_payload openResults)) saved
      else if tool =? "get_user_profile" then
        let '(profile, recommendations) :=
          getUserProfile AI_BRAIN_LANGUAGE now disk in
        unchanged (JSON_pretty (profile_payload profile recommendations))
      else unchanged ("Unexpected error: " ++ "Unknown tool: " ++ tool)
  end.

End Server.

(** * Numbers and strings as the engine has them

    The search compares scores, so there the rounding of doubles decides
    the order.  A double is modelled by the rational it denotes; a sum or
    a product of the source is the exact one followed by the rounding of
    the engine, [to_double].  A difference of two doubles is 0 only when
    they are equal, so the sign of [b.score - a.score] is the sign of the
    exact difference, and [score > 0] is the exact comparison.  Overflow
    and NaN are not modelled.  [String.prototype.toLowerCase] is
    Unicode-aware: it is a function of the engine too. *)

Class Engine := {
  to_double : Q -> Q;
  toLowerCase : string -> string
}.

(** The score that [searchNodes] gives an entity, operation by operation. *)
Definition score_as_computed {engine : Engine} (query : string) (entity : Entity)
  : Q :=
  let queryLower := toLowerCase query in
  let score := 0%Q in
  let score :=
    if Str.includes (toLowerCase (name entity)) queryLower
    then to_double (score + 10)%Q else score in
  let score :=
    if Str.includes (toLowerCase (entityType entity)) queryLower
    then to_double (score + 5)%Q else score in
  let score :=
    if existsb (fun o => Str.includes (toLowerCase o) queryLower)
               (observations entity)
    then to_double (score + 3)%Q else score in
  match emotionalMetadata entity with
  | Some m =>
      let score := to_double (score + to_double (emotionalResonance m * 2))%Q in
      let score := if isUserPreference m then to_double (score + 5)%Q else score in
      let score := if accessibilityFlag m then to_double (score + 3)%Q else score in
      to_double (score + to_double (trustLevel m * 2))%Q
  | None => score
  end.

Section SearchAsComputed.

Context {host : Host} {engine : Engine}.
Variable AI_BRAIN_LANGUAGE : option string.

(** [searchNodes], with the scores as the engine computes them. *)
Definition searchNodes_as_computed (now : Z) (disk : Disk) (query : string)
  : KnowledgeGraph :=
  let graph := loadGraph AI_BRAIN_LANGUAGE now disk in
  let scoredEntities :=
    map fst
      (sort_scored
         (filter (fun item => Qlt_bool 0 (snd item))
                 (map (fun entity => (entity, score_as_computed query entity))
                      (entities graph)))) in
  let entityNames := map name scoredEntities in
  let filteredRelations :=
    filter (fun r => andb (Str.mem (from r) entityNames)
                          (Str.mem (to r) entityNames))
           (relations graph) in
  {| entities := scoredEntities; relations := filteredRelations;
     metadata := metadata graph |}.

End SearchAsComputed.

(** ** Two engines

    [exact_engine] does not round and folds the ASCII letters: with it the
    search is the one of [searchNodes] above.  [ieee_engine] rounds to the
    nearest binary64 double, ties to even.  A number of the store is
    rounded at its first use: the double nearest to [x * 2] is twice the
    double nearest to [x]. *)

Definition exact_engine : Engine :=
  {| to_double := fun x => x; toLowerCase := Str.toLowerCase |}.

(** The integer nearest to [n / d], ties to even, for [0 <= n] and [0 < d]. *)
Definition round_half_even (n d : Z) : Z :=
  let q := (n / d)%Z in
  match (2 * (n mod d) ?= d)%Z with
  | Lt => q
  | Gt => (q + 1)%Z
  | Eq => if Z.even q then q else (q + 1)%Z
  end.

(** The exponent [e] with [2^e <= a < 2^(e+1)], for [0 < a]. *)
Definition binary_exponent (a : Q) : Z :=
  let e := (Z.log2 (Qnum a) - Z.log2 (Zpos (Qden a)))%Z in
  if Qlt_bool a (Qpower 2 e) then (e - 1)%Z
  else if Qle_bool (Qpower 2 (e + 1)) a then (e + 1)%Z
  else e.

(** The double nearest to a positive rational: 53 bits above the exponent
    of the least subnormal. *)
Definition nearest_double (a : Q) : Q :=
  let p := Z.max (binary_exponent a - 52) (-1074) in
  let scaled := Qred (a * Qpower 2 (- p)) in
  Qred (inject_Z (round_half_even (Qnum scaled) (Zpos (Qden scaled)))
        * Qpower 2 p).

Definition binary64 (x : Q) : Q :=
  match Qcompare x 0 with
  | Eq => 0%Q
  | Gt => nearest_double x
  | Lt => Qopp (nearest_double (Qopp x))
  end.

Definition ieee_engine : Engine :=
  {| to_double := binary64; toLowerCase := Str.toLowerCase |}.

(** * The bootstrap content as the module shares it

    [BOOTSTRAP_CONTENT] is one object for the life of the process, and
    [createBootstrapGraph] gives its arrays, not copies of them, to the
    two entities of the graph it builds.  [addObservations] pushes onto
    [entity.observations] in place: without a store file it pushes onto
    these arrays, request by request, before a later request can throw.
    Here the content is a state of its own, next to the file and the
    manager, and [BOOTSTRAP_CONTENT] above is its value when the module is
    loaded.  The other operations assign a new array to [observations] or
    leave it alone, and the arrays of a graph parsed from the file are
    its own. *)

Record LanguageContent := {
  ai_identity : list string;
  user_profile : list string
}.

Record Content := {
  content_en : LanguageContent;
  content_de : LanguageContent
}.

Definition language_content (language : string) : LanguageContent :=
  match BOOTSTRAP_CONTENT language with
  | Some (identity, profile) =>
      {| ai_identity := identity; user_profile := profile |}
  | None => {| ai_identity := []; user_profile := [] |}
  end.

(** The content when the module is loaded. *)
Definition initial_content : Content :=
  {| content_en := language_content "en";
     content_de := language_content "de" |}.

(** [BOOTSTRAP_CONTENT[language] || BOOTSTRAP_CONTENT.en]. *)
Definition served (language : string) (content : Content) : LanguageContent :=
  if language =? "de" then content_de content else content_en content.

(** The content once the arrays served for [language] hold [c]. *)
Definition with_served (language : string) (c : LanguageContent)
  (content : Content) : Content :=
  if language =? "de"
  then {| content_en := content_en content; content_de := c |}
  else {| content_en := c; content_de := content_de content |}.

(** [createBootstrapGraph], on the arrays it is served. *)
Definition bootstrap_graph (now : Z) (language : string) (c : LanguageContent)
  : KnowledgeGraph :=
  {| entities :=
       [ {| name := "AI_Assistant_Identity";
            entityType := "core_identity";
            observations := ai_identity c;
            emotionalMetadata := Some
              {| trustLevel := 0.8%Q; importancePattern := "self-managed";
                 emotionalResonance := 0.95%Q; lastUpdated := now;
                 isUserPreference := false; accessibilityFlag := false;
                 createdAt := now; decayRate := None; lastAccessed := None |} |};
         {| name := "User_Profile";
            entityType := "user_profile";
            observations := user_profile c;
            emotionalMetadata := Some
              {| trustLevel := 0.6%Q; importancePattern := "strengthen";
                 emotionalResonance := 0.8%Q; lastUpdated := now;
                 isUserPreference := true; accessibilityFlag := false;
                 createdAt := now; decayRate := None; lastAccessed := None |} |} ];
     relations :=
       [ {| from := "AI_Assistant_Identity"; to := "User_Profile";
            relationType := "serves_and_adapts_to"; strength := Some 0.9%Q |} ];
     metadata :=
       {| gm_version := Some "1.0.0"; gm_createdAt := Some now;
          gm_lastUpdated := Some now; gm_totalInteractions := Some 0%Z;
          gm_language := Some language;
          gm_userProfile := Some default_userProfile |} |}.

(** The arrays of the first two entities: in a bootstrap graph they are
    the arrays served. *)
Definition arrays_of (es : list Entity) (c : LanguageContent) : LanguageContent :=
  match es with
  | identity :: profile :: _ =>
      {| ai_identity := observations identity;
         user_profile := observations profile |}
  | _ => c
  end.

(** The entities as the [map] of [addObservations] leaves them: at its
    end, or at the request that throws. *)
Fixpoint add_progress (now : Z) (batch : list ObservationRequest)
  (es : list Entity) : list Entity :=
  match batch with
  | [] => es
  | o :: batch' =>
      match add_to_first now o es with
      | None => es
      | Some (es1, _) => add_progress now batch' es1
      end
  end.

Section SharedContent.

Context {host : Host}.
Variable AI_BRAIN_LANGUAGE : option string.

(** [process.env.AI_BRAIN_LANGUAGE || 'en']. *)
Definition bootstrap_language : string :=
  match AI_BRAIN_LANGUAGE with
  | Some l => if l =? "" then "en" else l
  | None => "en"
  end.

(** [loadGraph]: without a file, the graph is built on the content as it
    is now. *)
Definition loadGraph_shared (now : Z) (disk : Disk) (content : Content)
  : KnowledgeGraph :=
  match disk with
  | Some _ => loadGraph AI_BRAIN_LANGUAGE now disk
  | None =>
      bootstrap_graph now bootstrap_language (served bootstrap_language content)
  end.

(** [addObservations], with the content it leaves: a throw leaves the
    file and the manager as they were, and the arrays as the requests
    before it have grown them. *)
Definition addObservations_shared (now : Z) (mgr : Manager) (disk : Disk)
  (content : Content) (batch : list ObservationRequest)
  : Outcome (list ObservationResult * KnowledgeGraph) * Effect * Content :=
  let graph := loadGraph_shared now disk content in
  let content1 :=
    match disk with
    | Some _ => content
    | None =>
        with_served bootstrap_language
          (arrays_of (add_progress now batch (entities graph))
                     (served bootstrap_language content))
          content
    end in
  match add_all now batch (entities graph) with
  | Thrown err =>
      (Thrown err, {| disk_after := disk; manager_after := mgr |}, content1)
  | Returned (es, results) =>
      let saved :=
        saveGraph now mgr
          {| entities := es; relations := relations graph;
             metadata := metadata graph |} in
      (Returned (results, saved_graph saved),
       {| disk_after := saved_disk saved;
          manager_after := saved_manager saved |},
       content1)
  end.

End SharedContent.

(** ** The arguments as the handler receives them

    The handler does not check [arguments] against the input schema of the
    tool.  A key that the schema names may be absent: [args.key] is then
    [undefined], and the manager throws a TypeError at the first property
    it reads of it, which the [catch] of the handler renders as a text.
    [createEntities], [createRelations], [addObservations] and
    [deleteObservations] read their argument at once; [deleteEntities],
    [deleteRelations], [openNodes] and [searchNodes] read it in a callback
    run once per entity or relation of the graph, so not at all on a graph
    that has none.  A key that is present holds a value of the type its
    schema declares. *)
Record RawArguments := {
  raw_entities : option (list Entity);
  raw_relations : option (list Relation);
  raw_observations : option (list ObservationRequest);
  raw_entityNames : option (list string);
  raw_deletions : option (list Deletion);
  raw_names : option (list string);
  raw_query : option string
}.

Definition or_empty {A : Type} (x : option (list A)) : list A :=
  match x with Some l => l | None => [] end.

(** The keys that are present; a key that is absent is given the empty
    value, for the calls that do not read it. *)
Definition present_keys (raw : RawArguments) : ToolArguments :=
  {| arg_entities := or_empty (raw_entities raw);
     arg_relations := or_empty (raw_relations raw);
     arg_observations := or_empty (raw_observations raw);
     arg_entityNames := or_empty (raw_entityNames raw);
     arg_deletions := or_empty (raw_deletions raw);
     arg_names := or_empty (raw_names raw);
     arg_query := match raw_query raw with Some q => q | None => "" end |}.

Definition is_absent {A : Type} (x : option A) : bool :=
  match x with Some _ => false | None => true end.

Definition is_empty {A : Type} (l : list A) : bool :=
  match l with [] => true | _ :: _ => false end.

Section RawServer.

Context {host : Host}.
Variable AI_BRAIN_LANGUAGE : option string.
Variable JSON_pretty : Payload -> string.
(** The message of the TypeError thrown when the property of that name is
    read of [undefined]. *)
Variable cannot_read : string -> string.

(** The property of its argument that a tool reads first, when the
    argument is [undefined] and the graph loaded makes the tool read it. *)
Definition read_of_undefined (graph : KnowledgeGraph) (tool : string)
  (raw : RawArguments) : option string :=
  if tool =? "create_entities" then
    if is_absent (raw_entities raw) then Some "filter" else None
  else if tool =? "create_relations" then
    if is_absent (raw_relations raw) then Some "filter" else None
  else if tool =? "add_observations" then
    if is_absent (raw_observations raw) then Some "map" else None
  else if tool =? "delete_entities" then
    if andb (is_absent (raw_entityNames raw))
            (negb (andb (is_empty (entities graph)) (is_empty (relations graph))))
    then Some "includes" else None
  else if tool =? "delete_observations" then
    if is_absent (raw_deletions raw) then Some "forEach" else None
  else if tool =? "delete_relations" then
    if andb (is_absent (raw_relations raw)) (negb (is_empty (relations graph)))
    then Some "some" else None
  else if tool =? "search_nodes" then
    if andb (is_absent (raw_query raw)) (negb (is_empty (entities graph)))
    then Some "toLowerCase" else None
  else if tool =? "open_nodes" then
    if andb (is_absent (raw_names raw)) (negb (is_empty (entities graph)))
    then Some "includes" else None
  else None.

(** The handler of [CallToolRequestSchema] on the arguments as received. *)
Definition callTool_raw (now : Z) (mgr : Manager) (disk : Disk)
  (tool : string) (args : option RawArguments) : Handled :=
  match args with
  | None => callTool AI_BRAIN_LANGUAGE JSON_pretty now mgr disk tool None
  | Some raw =>
      match read_of_undefined (loadGraph AI_BRAIN_LANGUAGE now disk) tool raw with
      | Some property =>
          {| reply := text_reply ("Unexpected error: " ++ cannot_read property);
             handled_disk := disk; handled_manager := mgr |}
      | None =>
          callTool AI_BRAIN_LANGUAGE JSON_pretty now mgr disk tool
                   (Some (present_keys raw))
      end
  end.

End RawServer.

(** * Specifications

    The properties below are stated with the definitions of this part,
    which follow the wording of the specification rather than the code. *)

(** ** Decay *)

(** The row of the decay table that applies to metadata [m], relating it to
    the metadata [m'] left by a pass at [now]. *)
Definition follows_decay_rule {host : Host} (now : Z) (m m' : EmotionalMetadata)
  : Prop :=
  let hoursElapsed := hours_between now (lastUpdated m) in
  let rate := num_or (decayRate m) 0.5%Q in
  (importancePattern m = "preference" ->
     (emotionalResonance m' == Qmin 1 (emotionalResonance m * 1.001))%Q
     /\ trustLevel m' = trustLevel m)
  /\ (importancePattern m = "strengthen" ->
        (trustLevel m' == Qmin 1 (trustLevel m * 1.002))%Q
        /\ (emotionalResonance m' == Qmin 1 (emotionalResonance m * 1.001))%Q)
  /\ (importancePattern m = "time-based" ->
        (emotionalResonance m'
         == Qmax 0.1 (emotionalResonance m * Math_pow rate (hoursElapsed / 168)))%Q
        /\ trustLevel m' = trustLevel m)
  /\ (importancePattern m = "self-managed" ->
        trustLevel m' = trustLevel m
        /\ emotionalResonance m' = emotionalResonance m)
  /\ lastUpdated m' = now
  /\ importancePattern m' = importancePattern m
  /\ isUserPreference m' = isUserPreference m
  /\ accessibilityFlag m' = accessibilityFlag m
  /\ createdAt m' = createdAt m
  /\ decayRate m' = decayRate m
  /\ lastAccessed m' = lastAccessed m.

(** An entity before and after a decay pass at [now]. *)
Definition decayed {host : Host} (now : Z) (e e' : Entity) : Prop :=
  name e' = name e
  /\ entityType e' = entityType e
  /\ observations e' = observations e
  /\ match emotionalMetadata e with
     | Some m =>
         exists m', emotionalMetadata e' = Some m' /\ follows_decay_rule now m m'
     | None => emotionalMetadata e' = None
     end.

(** One more save, at [t], of the graph the previous save left in memory. *)
Definition save_again {host : Host} (s : Manager * KnowledgeGraph) (t : Z)
  : Manager * KnowledgeGraph :=
  let saved := saveGraph t (fst s) (snd s) in
  (saved_manager saved, saved_graph saved).

(** A sequence of saves at the instants [ts]. *)
Definition saves {host : Host} (ts : list Z) (s : Manager * KnowledgeGraph)
  : Manager * KnowledgeGraph :=
  fold_left save_again ts s.

(** The resonance of the [i]-th entity of a graph. *)
Definition resonance_at (graph : KnowledgeGraph) (i : nat) : option Q :=
  match nth_error (entities graph) i with
  | Some e => option_map emotionalResonance (emotionalMetadata e)
  | None => None
  end.

Definition in_unit (q : Q) : Prop := (0 <= q <= 1)%Q.

(** Trust and resonance within the range of the data model. *)
Definition scores_in_range (m : EmotionalMetadata) : Prop :=
  in_unit (trustLevel m) /\ in_unit (emotionalResonance m).

Definition has_metadata (e : Entity) : Prop := emotionalMetadata e <> None.

(** Metadata present, with trust and resonance in range. *)
Definition entity_in_range (e : Entity) : Prop :=
  exists m, emotionalMetadata e = Some m /\ scores_in_range m.

(** What the time-based rule needs of its inputs: an entity not updated
    after the pass, and a decay rate in (0, 1]. *)
Definition decay_inputs_ok (now : Z) (e : Entity) : Prop :=
  forall m, emotionalMetadata e = Some m ->
    (lastUpdated m <= now)%Z
    /\ (0 < num_or (decayRate m) 0.5 /\ num_or (decayRate m) 0.5 <= 1)%Q.

(** [Math.pow] on a base in (0, 1] and a non-negative exponent. *)
Definition pow_contracts {host : Host} : Prop :=
  forall b e : Q, (0 < b)%Q -> (b <= 1)%Q -> (0 <= e)%Q ->
    (0 <= Math_pow b e /\ Math_pow b e <= 1)%Q.

(** ** Search *)

Definition substring_of (needle s : string) : Prop :=
  exists u v : string, s = u ++ needle ++ v.

(** [x] is [points] when [P] holds and 0 otherwise. *)
Definition points_if (P : Prop) (points x : Q) : Prop :=
  (P /\ x = points) \/ (~ P /\ x = 0%Q).

Definition flag_points (b : bool) (points : Q) : Q := if b then points else 0%Q.

(** An entity of that name is among the entities of the result. *)
Definition survives (result : KnowledgeGraph) (n : string) : Prop :=
  exists e, In e (entities result) /\ name e = n.

(** Trust and resonance are not negative, as in the data model. *)
Definition nonnegative_scores (graph : KnowledgeGraph) : Prop :=
  forall e m, In e (entities graph) -> emotionalMetadata e = Some m ->
    (0 <= trustLevel m /\ 0 <= emotionalResonance m)%Q.

(** Scored entities, highest score first. *)
Definition scored_desc (a b : Entity * Q) : Prop := (snd b <= snd a)%Q.

(** A scored entity carries the score of its entity. *)
Definition scored_by (query : string) (p : Entity * Q) : Prop :=
  snd p = score_of query (fst p).

(** ** Mutations *)

(** The entity a request is applied to: the first one of that name. *)
Definition target (n : string) (es : list Entity) : option Entity :=
  find (fun e => name e =? n) es.

(** Entities whose names are kept and whose observations only grew. *)
Definition grown (es0 es : list Entity) : Prop :=
  Forall2 (fun e0 e => name e = name e0
                       /\ incl (observations e0) (observations e)) es0 es.

(** What a request [o] on graph entities [es0] reports in [r]: the name
    asked for, and strings of the request that the target did not hold. *)
Definition reports (es0 : list Entity) (o : ObservationRequest)
  (r : ObservationResult) : Prop :=
  result_entityName r = entityName o
  /\ incl (addedObservations r) (contents o)
  /\ forall e c, target (entityName o) es0 = Some e ->
                 In c (observations e) -> ~ In c (addedObservations r).

(** A candidate and the entity inserted for it. *)
Definition inserted_for (candidate e : Entity) : Prop :=
  name e = name candidate
  /\ entityType e = entityType candidate
  /\ observations e = observations candidate
  /\ emotionalMetadata e <> None.

(** An entity of the graph and what the save of a call leaves of it. *)
Definition kept_as (e e' : Entity) : Prop :=
  name e' = name e
  /\ entityType e' = entityType e
  /\ observations e' = observations e.

(** ** The store *)

(** The text of a record does not contain the record separator. *)
Definition separator_free (s : string) : Prop :=
  Str.includes s record_separator = false.

(** A record that [JSON.parse] reads back from its [JSON.stringify] text,
    the text not blank and free of the separator. *)
Definition faithful_record {host : Host} (i : Item) : Prop :=
  JSON_parse (JSON_stringify i) = Some i
  /\ separator_free (JSON_stringify i)
  /\ Str.blank (JSON_stringify i) = false.

(** ** Reading the store by kind of record *)

(** The records that [JSON.parse] reads from the lines of a store. *)
Definition parsed_records {host : Host} (data : string) : list Item :=
  flat_map (fun line => match JSON_parse line with
                        | Some item => [item]
                        | None => []
                        end)
           (store_lines data).

Definition entity_records (items : list Item) : list Entity :=
  flat_map (fun i => match i with entity_item e => [e] | _ => [] end) items.

Definition relation_records (items : list Item) : list Relation :=
  flat_map (fun i => match i with relation_item r => [r] | _ => [] end) items.

Definition metadata_records (items : list Item) : list GraphMetadata :=
  flat_map (fun i => match i with metadata_item m => [m] | _ => [] end) items.

(** An entity record as [loadGraph] keeps it. *)
Definition with_default_metadata (now : Z) (e : Entity) : Entity :=
  match emotionalMetadata e with
  | Some _ => e
  | None => set_metadata e (Some (createDefaultEmotionalMetadata now e))
  end.

(** ** Names and links *)

Definition entity_names (graph : KnowledgeGraph) : list string :=
  map name (entities graph).

(** Every relation joins two entities of the graph. *)
Definition well_linked (graph : KnowledgeGraph) : Prop :=
  forall r, In r (relations graph) ->
    In (from r) (entity_names graph) /\ In (to r) (entity_names graph).

(** What identifies a relation: its endpoints and its type. *)
Definition triple (r : Relation) : string * string * string :=
  (from r, to r, relationType r).

(** No two relations of the list join the same entities with the same
    type. *)
Definition distinct_triples (rs : list Relation) : Prop := NoDup (map triple rs).

(** The relation has the triple of a relation of the list. *)
Definition matches_one_of (rs : list Relation) (r : Relation) : Prop :=
  In (triple r) (map triple rs).

(** The profile of the envelope, or the default one. *)
Definition profile_of (graph : KnowledgeGraph) : UserProfile :=
  match gm_userProfile (metadata graph) with
  | Some p => p
  | None => default_userProfile
  end.

(** ** Deleting observations *)

(** An entity [e0] of the graph and what a batch of deletions leaves of it:
    name and type are kept, no observation is gained, and nothing is lost
    when no deletion names the entity. *)
Definition trimmed (deletions : list Deletion) (e0 e : Entity) : Prop :=
  name e = name e0
  /\ entityType e = entityType e0
  /\ incl (observations e) (observations e0)
  /\ (~ In (name e0) (map del_entityName deletions) ->
      observations e = observations e0).

(** The string [o] is listed for deletion from the entity named [n]. *)
Definition listed_for (deletions : list Deletion) (n o : string) : Prop :=
  exists d, In d deletions /\ del_entityName d = n /\ In o (del_observations d).

(** ** Opening nodes *)

(** The entities of the list that bear one of the names. *)
Definition named (names : list string) (es : list Entity) : list Entity :=
  filter (fun e => Str.mem (name e) names) es.

(** [lastAccessed] of an entity, if it has metadata and the field is set. *)
Definition last_access (e : Entity) : option Z :=
  match emotionalMetadata e with
  | Some m => lastAccessed m
  | None => None
  end.

(** An entity of the graph and the entity that [openNodes] returns for
    it. *)
Definition opened (now : Z) (e0 e : Entity) : Prop :=
  kept_as e0 e /\ has_metadata e /\ last_access e = Some now.

(** ** Profile inference *)

(** The text that profile inference reads of an entity: its name and its
    observations, separated by spaces, in lower case. *)
Definition profile_text (e : Entity) : string :=
  Str.toLowerCase (name e ++ " " ++ Str.join " " (observations e)).

Definition mentions (e : Entity) (token : string) : Prop :=
  substring_of token (profile_text e).

(** The shell that an entity names: zsh before bash before fish before
    powershell. *)
Definition names_shell (e : Entity) (s : string) : Prop :=
  (s = "zsh" /\ mentions e "zsh")
  \/ (s = "bash" /\ mentions e "bash" /\ ~ mentions e "zsh")
  \/ (s = "fish" /\ mentions e "fish"
      /\ ~ mentions e "zsh" /\ ~ mentions e "bash")
  \/ (s = "powershell" /\ mentions e "powershell"
      /\ ~ mentions e "zsh" /\ ~ mentions e "bash" /\ ~ mentions e "fish").

Definition names_no_shell (e : Entity) : Prop :=
  ~ mentions e "zsh" /\ ~ mentions e "bash"
  /\ ~ mentions e "fish" /\ ~ mentions e "powershell".

(** The accessibility need that an entity gives rise to. *)
Definition asks_for (tag : string) (e : Entity) : Prop :=
  (tag = "screen-reader"
   /\ (mentions e "screen reader" \/ mentions e "vision impaired"))
  \/ (tag = "slow-pace" /\ (mentions e "slow pace" \/ mentions e "patient")).

(** The communication preference that an entity gives rise to. *)
Definition prefers (tag : string) (e : Entity) : Prop :=
  (tag = "detailed" /\ (mentions e "detailed" \/ mentions e "thorough"))
  \/ (tag = "concise" /\ (mentions e "concise" \/ mentions e "brief")).

(** A list of tags that only gained tags, at its end, each once and none
    that it had. *)
Definition gains (before after : list string) : Prop :=
  exists added,
    after = (before ++ added)%list
    /\ NoDup added
    /\ forall t, In t added -> ~ In t before.

(** ** Adding observations *)

(** What the results of a call report as added to the entity named [n],
    in the order of the results. *)
Definition added_to (n : string) (results : list ObservationResult)
  : list string :=
  List.concat (map addedObservations
              (filter (fun r => result_entityName r =? n) results)).

(** No observation of the entity is held twice. *)
Definition distinct_observations (e : Entity) : Prop := NoDup (observations e).

(** ** Trust and fading *)

(** The entity has metadata with a trust level in [0, 1]. *)
Definition trust_in_range (e : Entity) : Prop :=
  exists m, emotionalMetadata e = Some m /\ in_unit (trustLevel m).

(** The trust level of an entity; 0 without metadata. *)
Definition trust_of (e : Entity) : Q :=
  match emotionalMetadata e with
  | Some m => trustLevel m
  | None => 0%Q
  end.

(** From [e] to [e'], a trust level in range stays in range and is not
    lowered. *)
Definition trust_not_lowered (e e' : Entity) : Prop :=
  trust_in_range e -> trust_in_range e' /\ (trust_of e <= trust_of e')%Q.

(** A time-based entity [e] and what a decay pass at [now] makes of it:
    the resonance does not rise above the larger of its value and the
    floor 0.1, and a resonance at or below the floor ends on the floor. *)
Definition fades {host : Host} (now : Z) (e e' : Entity) : Prop :=
  forall m,
    emotionalMetadata e = Some m ->
    importancePattern m = "time-based" ->
    (lastUpdated m <= now)%Z ->
    (0 < num_or (decayRate m) 0.5 /\ num_or (decayRate m) 0.5 <= 1)%Q ->
    (0 <= emotionalResonance m)%Q ->
    exists m',
      emotionalMetadata e' = Some m'
      /\ (emotionalResonance m' <= Qmax 0.1 (emotionalResonance m))%Q
      /\ (0.1 <= emotionalResonance m')%Q
      /\ ((emotionalResonance m <= 0.1)%Q -> (emotionalResonance m' == 0.1)%Q)
      /\ trustLevel m' = trustLevel m.

(** ** The envelope *)

(** The interaction counter of an envelope; 0 when it has none. *)
Definition interactions (m : GraphMetadata) : Z :=
  match gm_totalInteractions m with
  | Some n => n
  | None => 0%Z
  end.

(** An envelope [m] and what a save at [now] makes of it. *)
Definition touched (now : Z) (m m' : GraphMetadata) : Prop :=
  gm_version m' = gm_version m
  /\ gm_createdAt m' = gm_createdAt m
  /\ gm_language m' = gm_language m
  /\ gm_userProfile m' = gm_userProfile m
  /\ gm_lastUpdated m' = Some now
  /\ gm_totalInteractions m' = Some (interactions m + 1)%Z.

(** ** The search as computed *)

(** [s] contains [q] once both are in lower case, as the engine folds
    them. *)
Definition contains_folded {engine : Engine} (s q : string) : Prop :=
  substring_of (toLowerCase q) (toLowerCase s).

(** From [s] to [s']: [points] are added, and the sum rounded, when [P]
    holds; nothing is done otherwise. *)
Definition adds_if {engine : Engine} (P : Prop) (points s s' : Q) : Prop :=
  (P /\ s' = to_double (s + points)) \/ (~ P /\ s' = s).

(** The score of an entity with metadata [m], in the order in which the
    source adds its terms: name, type, observations, resonance, preference
    flag, accessibility flag, trust. *)
Definition is_computed_score {engine : Engine} (query : string) (e : Entity)
  (m : EmotionalMetadata) (s : Q) : Prop :=
  exists s1 s2 s3 s5 s6 : Q,
    adds_if (contains_folded (name e) query) 10 0 s1
    /\ adds_if (contains_folded (entityType e) query) 5 s1 s2
    /\ adds_if (exists o, In o (observations e) /\ contains_folded o query)
               3 s2 s3
    /\ adds_if (isUserPreference m = true) 5
               (to_double (s3 + to_double (emotionalResonance m * 2))) s5
    /\ adds_if (accessibilityFlag m = true) 3 s5 s6
    /\ s = to_double (s6 + to_double (trustLevel m * 2)).

(** The sum of the terms, for an engine that does not round. *)
Definition is_plain_sum {engine : Engine} (query : string) (e : Entity)
  (m : EmotionalMetadata) (s : Q) : Prop :=
  exists a b c : Q,
    points_if (contains_folded (name e) query) 10 a
    /\ points_if (contains_folded (entityType e) query) 5 b
    /\ points_if (exists o, In o (observations e) /\ contains_folded o query)
                 3 c
    /\ (s == a + b + c
             + emotionalResonance m * 2 + trustLevel m * 2
             + flag_points (isUserPreference m) 5
             + flag_points (accessibilityFlag m) 3)%Q.

(** Descending by the score computed. *)
Definition computed_desc {engine : Engine} (query : string) (a b : Entity) : Prop :=
  (score_as_computed query b <= score_as_computed query a)%Q.

Definition has_computed_score {engine : Engine} (query : string) (s : Q)
  (e : Entity) : bool :=
  Qeq_bool (score_as_computed query e) s.

Definition positive_score {engine : Engine} (query : string) (e : Entity) : bool :=
  Qlt_bool 0 (score_as_computed query e).

(** The rounding of a number that is not negative is not negative. *)
Definition keeps_sign {engine : Engine} : Prop :=
  forall x : Q, (0 <= x)%Q -> (0 <= to_double x)%Q.

(** A scored entity carries the score that [score] gives its entity. *)
Definition carries (score : Entity -> Q) (p : Entity * Q) : Prop :=
  snd p = score (fst p).

(** ** The arguments of a tool *)

(** The key that the tool passes to the manager is absent. *)
Definition lacks_key (tool : string) (raw : RawArguments) : Prop :=
  (tool = "create_entities" /\ raw_entities raw = None)
  \/ (tool = "create_relations" /\ raw_relations raw = None)
  \/ (tool = "add_observations" /\ raw_observations raw = None)
  \/ (tool = "delete_entities" /\ raw_entityNames raw = None)
  \/ (tool = "delete_observations" /\ raw_deletions raw = None)
  \/ (tool = "delete_relations" /\ raw_relations raw = None)
  \/ (tool = "search_nodes" /\ raw_query raw = None)
  \/ (tool = "open_nodes" /\ raw_names raw = None).

(** The call has left the store and the manager as they were. *)
Definition untouched (disk : Disk) (mgr : Manager) (handled : Handled) : Prop :=
  handled_disk handled = disk /\ handled_manager handled = mgr.

(** The call has written the store with one [saveGraph]. *)
Definition saved_once {host : Host} (now : Z) (mgr : Manager) (handled : Handled)
  : Prop :=
  exists graph,
    handled_disk handled = saved_disk (saveGraph now mgr graph)
    /\ handled_manager handled = saved_manager (saveGraph now mgr graph)
    /\ handled_disk handled <> None.

(** The call has answered with the text of a TypeError and left the store
    and the manager as they were. *)
Definition type_error (message : string) (disk : Disk) (mgr : Manager)
  (handled : Handled) : Prop :=
  handled = {| reply := text_reply ("Unexpected error: " ++ message);
               handled_disk := disk; handled_manager := mgr |}.

(** * Example data *)

Definition example_metadata (pattern : string) (trust resonance : Q) (updated : Z)
  : EmotionalMetadata :=
  {| trustLevel := trust; importancePattern := pattern;
     emotionalResonance := resonance; lastUpdated := updated;
     isUserPreference := false; accessibilityFlag := false;
     createdAt := 0; decayRate := None; lastAccessed := None |}.

Definition example_entity (n pattern : string) (trust resonance : Q) (updated : Z)
  : Entity :=
  {| name := n; entityType := "note"; observations := [];
     emotionalMetadata :=
       Some (example_metadata pattern trust resonance updated) |}.

Definition example_graph (es : list Entity) : KnowledgeGraph :=
  {| entities := es; relations := [];
     metadata :=
       {| gm_version := Some "1.0.0"; gm_createdAt := Some 0%Z;
          gm_lastUpdated := Some 0%Z; gm_totalInteractions := Some 0%Z;
          gm_language := None; gm_userProfile := None |} |}.

(** One entity of each pattern, all last updated at instant 0. *)
Definition four_patterns : KnowledgeGraph :=
  example_graph
    [ example_entity "shell" "preference" 0.5 0.9 0;
      example_entity "bond" "strengthen" 0.6 0.8 0;
      example_entity "mood" "time-based" 0.5 0.5 0;
      example_entity "identity" "self-managed" 0.8 0.95 0 ].

(** A graph of one preference, last updated at instant 0. *)
Definition one_preference : KnowledgeGraph :=
  example_graph [ example_entity "shell" "preference" 0.5 0.9 0 ].

(** One week, in milliseconds: 168 hours. *)
Definition one_week : Z := 604800000.
Definition minutes (n : Z) : Z := (n * 60000)%Z.

Definition fresh_manager : Manager := {| lastDecayCheck := 0 |}.

(** Two entities in range whose resonance is below 0.1: a preference at
    0.05 and a self-managed entity at 0. *)
Definition faint_entities : KnowledgeGraph :=
  example_graph
    [ example_entity "faint" "preference" 0.5 0.05 0;
      example_entity "muted" "self-managed" 0.5 0 0 ].

Definition lastUpdated_at (graph : KnowledgeGraph) (i : nat) : option Z :=
  match nth_error (entities graph) i with
  | Some e => option_map lastUpdated (emotionalMetadata e)
  | None => None
  end.

(** The two entities of test 2 of [test/test-memory.js]. *)
Definition test_entities : list Entity :=
  [ {| name := "Dave_Shell_Preference_Test";
       entityType := "user_preference";
       observations := ["Dave uses ZSH for all command line work";
                        "Prefers ZSH over bash"];
       emotionalMetadata := None |};
    {| name := "Sarah_Accessibility_Needs_Test";
       entityType := "accessibility";
       observations := ["Sarah uses screen reader software";
                        "Needs slow pace responses";
                        "Vision impaired developer"];
       emotionalMetadata := None |} ].

(** The store after test 2: the bootstrap graph and the two entities. *)
Definition test_store : Disk :=
  saved_disk
    (snd (createEntities (host := reference_host) None 0 fresh_manager None
            test_entities)).

(** Requests of tests 5 and 8 of [test/test-memory.js]: the second batch
    names an entity the graph does not have, after one it has. *)
Definition known_request : ObservationRequest :=
  {| entityName := "Dave_Shell_Preference_Test";
     contents := ["Prefers ZSH over bash";
                  "Confirmed ZSH works perfectly for automated scripts"] |}.

Definition unknown_request : ObservationRequest :=
  {| entityName := "NonExistentEntity"; contents := ["This should fail"] |}.

(** A store of one entity, a preference last updated at instant 0. *)
Definition shell_store : Disk :=
  Some (dq "{'type':'entity','name':'shell','entityType':'note','observations':['uses zsh'],'emotionalMetadata':{'trustLevel':0.5,'importancePattern':'preference','emotionalResonance':0.9,'lastUpdated':0,'isUserPreference':true,'accessibilityFlag':false,'createdAt':0}}").

(** A candidate whose name is taken in [shell_store]. *)
Definition shell_candidate : Entity :=
  {| name := "shell"; entityType := "other";
     observations := ["uses bash"]; emotionalMetadata := None |}.

Definition observations_at (graph : KnowledgeGraph) (i : nat)
  : option (list string) :=
  option_map observations (nth_error (entities graph) i).

(** A store of one entity whose observation holds a line feed, written
    with the escape \u000a. *)
Definition multiline_store : Disk :=
  Some (dq "{'type':'entity','name':'note','entityType':'memo','observations':['first line\u000asecond line']}").

Definition line_feed : string := String Str.LF "".

(** Trust, resonance (both in lowest terms) and lastUpdated per entity. *)
Definition scores_of (graph : KnowledgeGraph) : list (option (Q * Q * Z)) :=
  map (fun e =>
         option_map (fun m => (Qred (trustLevel m),
                               Qred (emotionalResonance m),
                               lastUpdated m))
                    (emotionalMetadata e))
      (entities graph).

(** The entity of the scenario of the specification. *)
Definition dave_shell : Entity :=
  {| name := "Dave_Shell"; entityType := "user_preference";
     observations := ["Dave uses ZSH for all command line work"];
     emotionalMetadata := None |}.

(** ** More example data *)

(** A relation between the two entities of the tests. *)
Definition working_relation : Relation :=
  {| from := "Dave_Shell_Preference_Test";
     to := "Sarah_Accessibility_Needs_Test";
     relationType := "works_with"; strength := None |}.

(** A candidate with metadata of its own, whose text names a shell. *)
Definition eve_shell : Entity :=
  {| name := "Eve_Shell"; entityType := "user_preference";
     observations := ["Eve moved to bash last year"];
     emotionalMetadata := Some (example_metadata "preference" 1 1 0) |}.

(** A candidate whose text names no shell. *)
Definition eve_editor : Entity :=
  {| name := "Eve_Editor"; entityType := "user_preference";
     observations := ["Eve writes in a modal editor"];
     emotionalMetadata := Some (example_metadata "preference" 1 1 0) |}.

(** A store of one entity with full trust. *)
Definition trusted_store : Disk :=
  Some (dq "{'type':'entity','name':'shell','entityType':'note','observations':['uses zsh'],'emotionalMetadata':{'trustLevel':1,'importancePattern':'self-managed','emotionalResonance':1,'lastUpdated':0,'isUserPreference':true,'accessibilityFlag':false,'createdAt':0}}").

(** A request that holds one string the entity has and one it has not. *)
Definition shell_request : ObservationRequest :=
  {| entityName := "shell"; contents := ["uses zsh"; "likes fish"] |}.

(** The results and the graph of a call that returned. *)
Definition returned_results
  (out : Outcome (list ObservationResult * KnowledgeGraph) * Effect)
  : list ObservationResult :=
  match fst out with
  | Returned (results, _) => results
  | Thrown _ => []
  end.

Definition returned_graph
  (out : Outcome (list ObservationResult * KnowledgeGraph) * Effect)
  : KnowledgeGraph :=
  match fst out with
  | Returned (_, graph) => graph
  | Thrown _ => example_graph []
  end.

(** The first call of the repeated [addObservations]. *)
Definition shell_added
  : Outcome (list ObservationResult * KnowledgeGraph) * Effect :=
  addObservations (host := reference_host) None (minutes 30) fresh_manager
                  trusted_store [shell_request].

(** The arguments of a call of [add_observations] whose second request
    names an entity that the store of the tests does not have. *)
Definition failing_arguments : ToolArguments :=
  {| arg_entities := []; arg_relations := [];
     arg_observations := [known_request; unknown_request];
     arg_entityNames := []; arg_deletions := []; arg_names := [];
     arg_query := "" |}.

(** A stand-in for [JSON.stringify(value, null, 2)] that tells the kinds
    of payload apart. *)
Definition plain_pretty (p : Payload) : string :=
  match p with
  | entities_payload _ => "[entities]"
  | relations_payload _ => "[relations]"
  | results_payload _ => "[results]"
  | graph_payload _ => "{graph}"
  | profile_payload _ _ => "{profile}"
  end.

(** ** Two entities whose scores tie in exact arithmetic

    No text matches and no flag is set: the scores are 0.3 * 2 + 0 * 2 and
    0.1 * 2 + 0.2 * 2. *)
Definition tie_store : Disk :=
  Some (dq "{'type':'entity','name':'first','entityType':'note','observations':[],'emotionalMetadata':{'trustLevel':0,'importancePattern':'self-managed','emotionalResonance':0.3,'lastUpdated':0,'isUserPreference':false,'accessibilityFlag':false,'createdAt':0}}\n{'type':'entity','name':'second','entityType':'note','observations':[],'emotionalMetadata':{'trustLevel':0.2,'importancePattern':'self-managed','emotionalResonance':0.1,'lastUpdated':0,'isUserPreference':false,'accessibilityFlag':false,'createdAt':0}}").

(** ** A first call without a store

    A request on the profile entity of the bootstrap graph, then one on an
    entity that no graph has. *)
Definition profile_request : ObservationRequest :=
  {| entityName := "User_Profile"; contents := ["Prefers dark mode"] |}.

(** The outcome, the effect and the content of a call. *)
Definition call_outcome {A : Type} (r : Outcome A * Effect * Content) : Outcome A :=
  fst (fst r).
Definition call_effect {A : Type} (r : Outcome A * Effect * Content) : Effect :=
  snd (fst r).
Definition call_content {A : Type} (r : Outcome A * Effect * Content) : Content :=
  snd r.

(** The call that throws, on the content of a fresh process. *)
Definition aborted_call
  : Outcome (list ObservationResult * KnowledgeGraph) * Effect * Content :=
  addObservations_shared (host := reference_host) None 0 fresh_manager None
    initial_content [profile_request; unknown_request].

(** The next call of the process, with the first request alone. *)
Definition retried_call
  : Outcome (list ObservationResult * KnowledgeGraph) * Effect * Content :=
  addObservations_shared (host := reference_host) None 0 fresh_manager None
    (call_content aborted_call) [profile_request].

Definition text_of (disk : Disk) : string :=
  match disk with Some data => data | None => "" end.

(** ** A call whose arguments hold no key *)
Definition no_keys : RawArguments :=
  {| raw_entities := None; raw_relations := None; raw_observations := None;
     raw_entityNames := None; raw_deletions := None; raw_names := None;
     raw_query := None |}.

(** The message of V8 for a property read of [undefined]. *)
Definition v8_cannot_read (property : string) : string :=
  "Cannot read properties of undefined (reading '" ++ property ++ "')".

(** * Properties *)

(** ** Comparisons and clamps *)

Lemma Qlt_bool_iff (x y : Q) : Qlt_bool x y = true <-> (x < y)%Q.
Proof.
  unfold Qlt_bool. rewrite negb_true_iff.
  destruct (Qle_bool y x) eqn:E.
  - apply Qle_bool_iff in E. split; [discriminate | lra].
  - split; [intros _ | reflexivity].
    apply Qnot_le_lt. intro H. apply Qle_bool_iff in H. congruence.
Qed.

Lemma Qlt_bool_false_iff (x y : Q) : Qlt_bool x y = false <-> (y <= x)%Q.
Proof.
  destruct (Qlt_bool x y) eqn:E.
  - apply Qlt_bool_iff in E. split; [discriminate | lra].
  - split; [intros _ | reflexivity].
    apply Qnot_lt_le. intro H. apply Qlt_bool_iff in H. congruence.
Qed.

Lemma Math_min_Qmin (a b : Q) : (Math_min a b == Qmin a b)%Q.
Proof.
  unfold Math_min. destruct (Qle_bool a b) eqn:E.
  - apply Qle_bool_iff in E. symmetry. now apply Q.min_l.
  - assert (b <= a)%Q.
    { apply Qlt_le_weak, Qnot_le_lt. intro H. apply Qle_bool_iff in H. congruence. }
    symmetry. now apply Q.min_r.
Qed.

Lemma Math_max_Qmax (a b : Q) : (Math_max a b == Qmax a b)%Q.
Proof.
  unfold Math_max. destruct (Qle_bool a b) eqn:E.
  - apply Qle_bool_iff in E. symmetry. now apply Q.max_r.
  - assert (b <= a)%Q.
    { apply Qlt_le_weak, Qnot_le_lt. intro H. apply Qle_bool_iff in H. congruence. }
    symmetry. now apply Q.max_l.
Qed.

Lemma Math_min_le_l (a b : Q) : (Math_min a b <= a)%Q.
Proof. rewrite Math_min_Qmin. apply Q.le_min_l. Qed.

Lemma Math_min_glb (a b c : Q) : (c <= a)%Q -> (c <= b)%Q -> (c <= Math_min a b)%Q.
Proof. intros. rewrite Math_min_Qmin. now apply Q.min_glb. Qed.

Lemma hours_between_lt_1 (now t : Z) :
  (hours_between now t < 1)%Q <-> (now - t < 3600000)%Z.
Proof.
  unfold hours_between, Qlt, Qdiv, Qmult, Qinv, inject_Z. simpl. lia.
Qed.

Lemma hours_between_nonneg (now t : Z) :
  (t <= now)%Z -> (0 <= hours_between now t / 168)%Q.
Proof.
  unfold hours_between, Qle, Qdiv, Qmult, Qinv, inject_Z. simpl. lia.
Qed.

(** ** The decay engine *)

Section DecayProperties.

Context {host : Host}.

Lemma decay_metadata_rule (now : Z) (m : EmotionalMetadata) :
  follows_decay_rule now m (decay_metadata now m).
Proof.
  unfold follows_decay_rule, decay_metadata.
  destruct (importancePattern m =? "preference") eqn:Ep.
  { apply String.eqb_eq in Ep. simpl.
    repeat split; intros; try congruence; try reflexivity.
    apply Math_min_Qmin. }
  destruct (importancePattern m =? "strengthen") eqn:Es.
  { apply String.eqb_eq in Es. simpl.
    repeat split; intros; try congruence; try reflexivity;
      apply Math_min_Qmin. }
  destruct (importancePattern m =? "time-based") eqn:Et.
  { apply String.eqb_eq in Et. simpl.
    repeat split; intros; try congruence; try reflexivity.
    apply Math_max_Qmax. }
  apply String.eqb_neq in Ep, Es, Et.
  assert (set_lastUpdated
            (if importancePattern m =? "self-managed" then m else m) now
          = set_lastUpdated m now) as ->
    by now destruct (importancePattern m =? "self-managed").
  simpl. repeat split; intros; try contradiction; reflexivity.
Qed.

Lemma decay_entity_decayed (now : Z) (e : Entity) : decayed now e (decay_entity now e).
Proof.
  unfold decayed, decay_entity.
  destruct (emotionalMetadata e) as [m|] eqn:E; simpl; rewrite ?E; repeat split.
  exists (decay_metadata now m). split; [reflexivity | apply decay_metadata_rule].
Qed.

(** The guard of the engine, on the two sides of one hour. *)
Lemma applyEmotionalDecay_skips (now : Z) (mgr : Manager) (graph : KnowledgeGraph) :
  (hours_between now (lastDecayCheck mgr) < 1)%Q ->
  applyEmotionalDecay now mgr graph = (graph, mgr).
Proof.
  intro H. unfold applyEmotionalDecay.
  apply Qlt_bool_iff in H. now rewrite H.
Qed.

Lemma applyEmotionalDecay_runs (now : Z) (mgr : Manager) (graph : KnowledgeGraph) :
  (1 <= hours_between now (lastDecayCheck mgr))%Q ->
  applyEmotionalDecay now mgr graph
  = ({| entities := map (decay_entity now) (entities graph);
        relations := relations graph; metadata := metadata graph |},
     {| lastDecayCheck := now |}).
Proof.
  intro H. unfold applyEmotionalDecay.
  apply Qlt_bool_false_iff in H. now rewrite H.
Qed.

(** C1. When a decay pass runs (at least one hour, so in particular more
    than one hour, after the last pass), every entity is rewritten by the
    one rule its importancePattern selects: 'preference' multiplies
    resonance by 1.001 capped at 1; 'strengthen' multiplies trust by 1.002
    and resonance by 1.001, both capped at 1; 'time-based' multiplies
    resonance by decayRate^(hoursElapsed/168), hoursElapsed counted from the
    entity's own lastUpdated, floored at 0.1; 'self-managed' leaves trust
    and resonance alone; and lastUpdated becomes the time of the pass for
    every entity, changed or not.  The pass time is recorded as the time of
    the last pass. *)
Theorem decay_pass_applies_pattern_rule
  (now : Z) (mgr : Manager) (graph : KnowledgeGraph) :
  (1 <= hours_between now (lastDecayCheck mgr))%Q ->
  Forall2 (decayed now) (entities graph)
          (entities (fst (applyEmotionalDecay now mgr graph)))
  /\ relations (fst (applyEmotionalDecay now mgr graph)) = relations graph
  /\ metadata (fst (applyEmotionalDecay now mgr graph)) = metadata graph
  /\ lastDecayCheck (snd (applyEmotionalDecay now mgr graph)) = now.
Proof.
  intro H. rewrite (applyEmotionalDecay_runs now mgr graph H). simpl.
  repeat split.
  induction (entities graph) as [|e es IH]; simpl; constructor.
  - apply decay_entity_decayed.
  - exact IH.
Qed.

End DecayProperties.

(** C1, witness: a pass one week after the manager was built. *)
Lemma decay_pass_applies_pattern_rule_witness :
  Forall2 (decayed (host := reference_host) one_week)
          (entities four_patterns)
          (entities (fst (applyEmotionalDecay (host := reference_host) one_week
                            fresh_manager four_patterns)))
  /\ relations (fst (applyEmotionalDecay (host := reference_host) one_week
                       fresh_manager four_patterns))
     = relations four_patterns
  /\ metadata (fst (applyEmotionalDecay (host := reference_host) one_week
                      fresh_manager four_patterns))
     = metadata four_patterns
  /\ lastDecayCheck (snd (applyEmotionalDecay (host := reference_host) one_week
                            fresh_manager four_patterns))
     = one_week.
Proof.
  apply (decay_pass_applies_pattern_rule (host := reference_host)).
  vm_compute. discriminate.
Defined.

(** The four rules at work, one week after every entity was last updated:
    0.9 * 1.001; 0.6 * 1.002 and 0.8 * 1.001; 0.5 * 0.5^1; no change. *)
Example decay_after_one_week :
  scores_of (fst (applyEmotionalDecay (host := reference_host) one_week
                    fresh_manager four_patterns))
  = [ Some (Qred 0.5, Qred 0.9009, one_week);
      Some (Qred 0.6012, Qred 0.8008, one_week);
      Some (Qred 0.5, Qred 0.25, one_week);
      Some (Qred 0.8, Qred 0.95, one_week) ].
Proof. vm_compute. reflexivity. Qed.

(** ** Saves and the one-hour guard *)

Section SaveProperties.

Context {host : Host}.

Lemma saveGraph_cases (now : Z) (mgr : Manager) (graph : KnowledgeGraph) :
  ((hours_between now (lastDecayCheck mgr) < 1)%Q
   /\ entities (saved_graph (saveGraph now mgr graph)) = entities graph
   /\ saved_manager (saveGraph now mgr graph) = mgr)
  \/ ((1 <= hours_between now (lastDecayCheck mgr))%Q
      /\ entities (saved_graph (saveGraph now mgr graph))
         = map (decay_entity now) (entities graph)
      /\ saved_manager (saveGraph now mgr graph) = {| lastDecayCheck := now |}).
Proof.
  unfold saveGraph.
  destruct (Qlt_le_dec (hours_between now (lastDecayCheck mgr)) 1) as [H|H].
  - left. rewrite applyEmotionalDecay_skips by exact H. now simpl.
  - right. rewrite applyEmotionalDecay_runs by exact H. now simpl.
Qed.

Lemma saveGraph_relations (now : Z) (mgr : Manager) (graph : KnowledgeGraph) :
  relations (saved_graph (saveGraph now mgr graph)) = relations graph.
Proof.
  unfold saveGraph, applyEmotionalDecay.
  now destruct (Qlt_bool _ 1).
Qed.

Lemma saveGraph_disk (now : Z) (mgr : Manager) (graph : KnowledgeGraph) :
  saved_disk (saveGraph now mgr graph)
  = Some (Str.join record_separator
            (map JSON_stringify
                 (store_records (saved_graph (saveGraph now mgr graph))))).
Proof.
  unfold saveGraph. now destruct (applyEmotionalDecay _ _ _).
Qed.

Lemma save_skips_within_hour (now : Z) (mgr : Manager) (graph : KnowledgeGraph) :
  (hours_between now (lastDecayCheck mgr) < 1)%Q ->
  entities (saved_graph (saveGraph now mgr graph)) = entities graph
  /\ saved_manager (saveGraph now mgr graph) = mgr.
Proof.
  intro H.
  destruct (saveGraph_cases now mgr graph) as [(_ & E & M)|(H' & _)].
  - now split.
  - exfalso. apply (Qlt_not_le _ _ H H').
Qed.

(** C7, as amended.  The guard of the decay engine measures the time since
    the last pass that ran (or since the manager was built): a save that
    comes less than one hour after that instant leaves the entities, and so
    their emotional metadata, exactly as the save before it left them, and
    leaves the time of the last pass where it was. *)
Theorem save_within_hour_of_last_pass
  (t1 t2 : Z) (mgr : Manager) (graph : KnowledgeGraph) :
  (hours_between t2 (lastDecayCheck (saved_manager (saveGraph t1 mgr graph))) < 1)%Q ->
  entities (saved_graph
              (saveGraph t2 (saved_manager (saveGraph t1 mgr graph))
                         (saved_graph (saveGraph t1 mgr graph))))
  = entities (saved_graph (saveGraph t1 mgr graph))
  /\ saved_manager
       (saveGraph t2 (saved_manager (saveGraph t1 mgr graph))
                  (saved_graph (saveGraph t1 mgr graph)))
     = saved_manager (saveGraph t1 mgr graph).
Proof.
  intro H.
  destruct (saveGraph_cases t2 (saved_manager (saveGraph t1 mgr graph))
              (saved_graph (saveGraph t1 mgr graph)))
    as [(_ & E & M)|(H' & _)].
  - now split.
  - exfalso. apply (Qlt_not_le _ _ H H').
Qed.

(** Two saves less than one hour apart, the first of which ran a pass. *)
Lemma save_within_hour_of_a_pass
  (t1 t2 : Z) (mgr : Manager) (graph : KnowledgeGraph) :
  (1 <= hours_between t1 (lastDecayCheck mgr))%Q ->
  (t2 - t1 < 3600000)%Z ->
  entities (saved_graph
              (saveGraph t2 (saved_manager (saveGraph t1 mgr graph))
                         (saved_graph (saveGraph t1 mgr graph))))
  = entities (saved_graph (saveGraph t1 mgr graph)).
Proof.
  intros H1 H2. apply save_skips_within_hour.
  destruct (saveGraph_cases t1 mgr graph) as [(H & _)|(_ & _ & M)].
  - exfalso. apply (Qlt_not_le _ _ H H1).
  - rewrite M. simpl. now apply hours_between_lt_1.
Qed.

End SaveProperties.

(** C7, witness: a pass at one hour, then a save twenty minutes later. *)
Lemma save_within_hour_of_last_pass_witness :
  entities (saved_graph
              (saveGraph (host := reference_host) (minutes 80)
                 (saved_manager
                    (saveGraph (host := reference_host) (minutes 60)
                       fresh_manager one_preference))
                 (saved_graph
                    (saveGraph (host := reference_host) (minutes 60)
                       fresh_manager one_preference))))
  = entities (saved_graph
                (saveGraph (host := reference_host) (minutes 60)
                   fresh_manager one_preference))
  /\ saved_manager
       (saveGraph (host := reference_host) (minutes 80)
          (saved_manager
             (saveGraph (host := reference_host) (minutes 60)
                fresh_manager one_preference))
          (saved_graph
             (saveGraph (host := reference_host) (minutes 60)
                fresh_manager one_preference)))
     = saved_manager
         (saveGraph (host := reference_host) (minutes 60)
            fresh_manager one_preference).
Proof.
  apply (save_within_hour_of_last_pass (host := reference_host)).
  vm_compute. reflexivity.
Defined.

(** C7, counterexample to the statement of the specification.  The
    manager is built at instant 0; a save at 40 minutes runs no pass and
    does not move the time of the last pass; a save at 70 minutes, 30
    minutes after the first, is one hour and ten minutes after instant 0
    and runs a pass: the preference's lastUpdated and resonance change
    between the two saves. *)
Lemma saves_within_hour_differ :
  let s1 := saveGraph (host := reference_host) (minutes 40)
              fresh_manager one_preference in
  let s2 := saveGraph (host := reference_host) (minutes 70)
              (saved_manager s1) (saved_graph s1) in
  (minutes 70 - minutes 40 < 3600000)%Z
  /\ lastUpdated_at (saved_graph s1) 0 = Some 0%Z
  /\ lastUpdated_at (saved_graph s2) 0 = Some (minutes 70)
  /\ resonance_at (saved_graph s1) 0 = Some 0.9%Q
  /\ resonance_at (saved_graph s2) 0 = Some (0.9 * 1.001)%Q.
Proof.
  vm_compute. repeat split; reflexivity.
Qed.

(** ** Resonance of preferences and bonds *)

Section Strengthening.

Context {host : Host}.

Lemma decay_metadata_strengthens (now : Z) (m : EmotionalMetadata) :
  importancePattern m = "preference" \/ importancePattern m = "strengthen" ->
  in_unit (emotionalResonance m) ->
  importancePattern (decay_metadata now m) = importancePattern m
  /\ (emotionalResonance m <= emotionalResonance (decay_metadata now m))%Q
  /\ in_unit (emotionalResonance (decay_metadata now m)).
Proof.
  intros P [H0 H1].
  destruct (decay_metadata_rule now m) as (Rp & Rs & _ & _ & _ & Pat & _).
  assert (emotionalResonance (decay_metadata now m)
          == Qmin 1 (emotionalResonance m * 1.001))%Q as E.
  { destruct P as [P|P]; [apply (Rp P) | apply (Rs P)]. }
  split; [exact Pat|]. unfold in_unit. rewrite E.
  assert (emotionalResonance m <= emotionalResonance m * 1.001)%Q by lra.
  repeat split.
  - apply Q.min_glb; assumption.
  - apply Q.min_glb; lra.
  - apply Q.le_min_l.
Qed.

Lemma save_again_strengthens (s : Manager * KnowledgeGraph) (t : Z)
  (i : nat) (e : Entity) (m : EmotionalMetadata) :
  nth_error (entities (snd s)) i = Some e ->
  emotionalMetadata e = Some m ->
  importancePattern m = "preference" \/ importancePattern m = "strengthen" ->
  in_unit (emotionalResonance m) ->
  exists e' m',
    nth_error (entities (snd (save_again s t))) i = Some e'
    /\ emotionalMetadata e' = Some m'
    /\ importancePattern m' = importancePattern m
    /\ (emotionalResonance m <= emotionalResonance m')%Q
    /\ in_unit (emotionalResonance m').
Proof.
  intros N M P U. unfold save_again. simpl.
  destruct (saveGraph_cases t (fst s) (snd s)) as [(_ & E & _)|(_ & E & _)];
    rewrite E.
  - exists e, m. repeat split; try assumption; try apply U. apply Qle_refl.
  - exists (decay_entity t e), (decay_metadata t m).
    split; [now apply map_nth_error|].
    split; [unfold decay_entity; now rewrite M|].
    now apply decay_metadata_strengthens.
Qed.

Lemma saves_strengthen (ts : list Z) :
  forall (s : Manager * KnowledgeGraph) (i : nat) (e : Entity)
         (m : EmotionalMetadata),
  nth_error (entities (snd s)) i = Some e ->
  emotionalMetadata e = Some m ->
  importancePattern m = "preference" \/ importancePattern m = "strengthen" ->
  in_unit (emotionalResonance m) ->
  exists e' m',
    nth_error (entities (snd (saves ts s))) i = Some e'
    /\ emotionalMetadata e' = Some m'
    /\ importancePattern m' = importancePattern m
    /\ (emotionalResonance m <= emotionalResonance m')%Q
    /\ in_unit (emotionalResonance m').
Proof.
  induction ts as [|t ts IH]; intros s i e m N M P U.
  - exists e, m. repeat split; try assumption; try apply U. apply Qle_refl.
  - destruct (save_again_strengthens s t i e m N M P U)
      as (e1 & m1 & N1 & M1 & P1 & L1 & U1).
    assert (importancePattern m1 = "preference"
            \/ importancePattern m1 = "strengthen") as P' by (now rewrite P1).
    destruct (IH (save_again s t) i e1 m1 N1 M1 P' U1)
      as (e2 & m2 & N2 & M2 & P2 & L2 & U2).
    exists e2, m2. simpl. repeat split; try assumption; try apply U2.
    + now rewrite P2.
    + now apply Qle_trans with (emotionalResonance m1).
Qed.

(** C8. For an entity whose importancePattern is 'preference' or
    'strengthen' (its resonance within the data model's range [0,1]),
    resonance never decreases across a sequence of saves: whatever the
    instants [ts1] of the saves so far and [ts2] of the saves that follow,
    the resonance after [ts1] is at least the initial one, and the
    resonance after the further saves [ts2] is at least the one after
    [ts1]. *)
Theorem strengthening_resonance_never_decreases
  (ts1 ts2 : list Z) (mgr : Manager) (graph : KnowledgeGraph)
  (i : nat) (e : Entity) (m : EmotionalMetadata) :
  nth_error (entities graph) i = Some e ->
  emotionalMetadata e = Some m ->
  importancePattern m = "preference" \/ importancePattern m = "strengthen" ->
  in_unit (emotionalResonance m) ->
  exists r1 r2 : Q,
    resonance_at (snd (saves ts1 (mgr, graph))) i = Some r1
    /\ resonance_at (snd (saves (ts1 ++ ts2) (mgr, graph))) i = Some r2
    /\ (emotionalResonance m <= r1)%Q
    /\ (r1 <= r2)%Q.
Proof.
  intros N M P U.
  destruct (saves_strengthen ts1 (mgr, graph) i e m N M P U)
    as (e1 & m1 & N1 & M1 & P1 & L1 & U1).
  assert (importancePattern m1 = "preference"
          \/ importancePattern m1 = "strengthen") as P' by (now rewrite P1).
  destruct (saves_strengthen ts2 (saves ts1 (mgr, graph)) i e1 m1 N1 M1 P' U1)
    as (e2 & m2 & N2 & M2 & _ & L2 & _).
  exists (emotionalResonance m1), (emotionalResonance m2).
  unfold resonance_at, saves in *. rewrite fold_left_app.
  rewrite N1, N2, M1, M2. simpl. now repeat split.
Qed.

End Strengthening.

(** C8, witness: the bond of [four_patterns] over three hourly saves. *)
Lemma strengthening_resonance_never_decreases_witness :
  exists r1 r2 : Q,
    resonance_at
      (snd (saves (host := reference_host) [minutes 60; minutes 120]
              (fresh_manager, four_patterns))) 1 = Some r1
    /\ resonance_at
         (snd (saves (host := reference_host)
                 ([minutes 60; minutes 120] ++ [minutes 180])
                 (fresh_manager, four_patterns))) 1 = Some r2
    /\ (0.8 <= r1)%Q
    /\ (r1 <= r2)%Q.
Proof.
  apply (strengthening_resonance_never_decreases (host := reference_host)
           [minutes 60; minutes 120] [minutes 180] fresh_manager four_patterns
           1 (example_entity "bond" "strengthen" 0.6 0.8 0)
           (example_metadata "strengthen" 0.6 0.8 0)).
  - reflexivity.
  - reflexivity.
  - right. reflexivity.
  - split; vm_compute; discriminate.
Defined.

(** ** Metadata is present and stays in range *)

(** Prove [Forall P l] for an explicit list [l], entity by entity. *)
Ltac each_entity tac :=
  simpl; repeat (apply Forall_cons; [tac|]); try apply Forall_nil.

Lemma Qpower_positive_le_1 (b : Q) (p : positive) :
  (0 <= b)%Q -> (b <= 1)%Q -> (Qpower_positive b p <= 1)%Q.
Proof.
  intros H0 H1. induction p as [|p IH] using Pos.peano_ind.
  - exact H1.
  - rewrite <- Pos.add_1_r, Qpower_plus_positive.
    assert (0 <= Qpower_positive b p)%Q by now apply Qpower_pos_positive.
    change (Qpower_positive b 1) with b. nra.
Qed.

Lemma pow_floor_contracts : pow_contracts (host := reference_host).
Proof.
  intros b e Hb Hb1 He. simpl. unfold pow_floor.
  assert (0 <= Qfloor e)%Z as Hf.
  { change 0%Z with (Qfloor 0). now apply Qfloor_resp_le. }
  split.
  - apply Qpower_0_le. lra.
  - destruct (Qfloor e) as [|p|p]; simpl; [lra | | lia].
    apply Qpower_positive_le_1; lra.
Qed.

Section Invariant.

Context {host : Host}.
Variable AI_BRAIN_LANGUAGE : option string.

Lemma default_metadata_in_range (now : Z) (e : Entity) :
  scores_in_range (createDefaultEmotionalMetadata now e).
Proof.
  unfold scores_in_range, in_unit, createDefaultEmotionalMetadata. simpl.
  destruct (isUserPreference_of e), (isRelationshipEntity e); lra.
Qed.

Lemma load_line_has_metadata (now : Z) (graph : KnowledgeGraph) (line : string) :
  Forall has_metadata (entities graph) ->
  Forall has_metadata (entities (load_line now graph line)).
Proof.
  intro H. unfold load_line, load_item.
  destruct (JSON_parse line) as [[item|item|item|]|]; simpl; try exact H.
  apply Forall_app. split; [exact H|]. constructor; [|constructor].
  unfold has_metadata.
  destruct (emotionalMetadata item) eqn:E; simpl; [rewrite E|]; discriminate.
Qed.

Lemma loadGraph_has_metadata (now : Z) (disk : Disk) :
  Forall has_metadata (entities (loadGraph AI_BRAIN_LANGUAGE now disk)).
Proof.
  unfold loadGraph. destruct disk as [data|].
  - assert (forall lines g, Forall has_metadata (entities g) ->
              Forall has_metadata (entities (fold_left (load_line now) lines g)))
      as Fold.
    { induction lines as [|l ls IH]; intros g Hg; simpl; [exact Hg|].
      apply IH. now apply load_line_has_metadata. }
    apply Fold. constructor.
  - simpl. repeat constructor; discriminate.
Qed.

Lemma decay_entity_has_metadata (now : Z) (e : Entity) :
  has_metadata e -> has_metadata (decay_entity now e).
Proof.
  unfold has_metadata, decay_entity.
  destruct (emotionalMetadata e) eqn:E; simpl; [discriminate | now rewrite E].
Qed.

Lemma saveGraph_has_metadata (now : Z) (mgr : Manager) (graph : KnowledgeGraph) :
  Forall has_metadata (entities graph) ->
  Forall has_metadata (entities (saved_graph (saveGraph now mgr graph))).
Proof.
  intro H.
  destruct (saveGraph_cases now mgr graph) as [(_ & E & _)|(_ & E & _)];
    rewrite E; [exact H|].
  apply Forall_map. eapply Forall_impl; [|exact H].
  intros e. apply decay_entity_has_metadata.
Qed.

Lemma new_entities_have_metadata (now : Z) (graph : KnowledgeGraph)
  (batch : list Entity) :
  Forall has_metadata (new_entities now graph batch).
Proof.
  unfold new_entities. apply Forall_map, Forall_forall.
  intros e _. unfold has_metadata. simpl. discriminate.
Qed.

Lemma add_to_entity_has_metadata (now : Z) (o : ObservationRequest) (e : Entity) :
  has_metadata e -> has_metadata (fst (add_to_entity now o e)).
Proof.
  unfold has_metadata, add_to_entity. simpl.
  destruct (emotionalMetadata e); simpl; [discriminate | tauto].
Qed.

Section Preserved.

(** A property of entities that [add_to_entity] preserves is preserved by
    the whole [map] of [addObservations]. *)
Variable P : Entity -> Prop.
Variable now : Z.
Hypothesis P_add :
  forall (o : ObservationRequest) (e : Entity),
    P e -> P (fst (add_to_entity now o e)).

Lemma add_to_first_preserves (o : ObservationRequest) :
  forall (es es' : list Entity) (r : ObservationResult),
  add_to_first now o es = Some (es', r) ->
  Forall P es -> Forall P es'.
Proof.
  induction es as [|e es IH]; intros es' r E H; simpl in E; [discriminate|].
  inversion H as [|? ? He Hes]; subst.
  destruct (name e =? entityName o).
  - destruct (add_to_entity now o e) as [e1 r1] eqn:A.
    inversion E; subst. constructor; [|exact Hes].
    replace e1 with (fst (add_to_entity now o e)) by (now rewrite A).
    now apply P_add.
  - destruct (add_to_first now o es) as [[es1 r1]|] eqn:A; [|discriminate].
    inversion E; subst. constructor; [exact He|].
    now apply (IH es1 r).
Qed.

Lemma add_all_preserves (batch : list ObservationRequest) :
  forall (es es' : list Entity) (rs : list ObservationResult),
  add_all now batch es = Returned (es', rs) ->
  Forall P es -> Forall P es'.
Proof.
  induction batch as [|o batch IH]; intros es es' rs E H; simpl in E.
  - inversion E; subst. exact H.
  - destruct (add_to_first now o es) as [[es1 r1]|] eqn:A; [|discriminate].
    destruct (add_all now batch es1) as [[es2 rs2]|] eqn:B; [|discriminate].
    inversion E; subst.
    apply (IH es1 es' rs2 B).
    now apply (add_to_first_preserves o es es1 r1).
Qed.

End Preserved.

Lemma decay_metadata_in_range (now : Z) (m : EmotionalMetadata) :
  pow_contracts ->
  scores_in_range m ->
  (lastUpdated m <= now)%Z ->
  (0 < num_or (decayRate m) 0.5)%Q -> (num_or (decayRate m) 0.5 <= 1)%Q ->
  scores_in_range (decay_metadata now m).
Proof.
  intros Pow [[T0 T1] [R0 R1]] Hupd Hr0 Hr1.
  destruct (decay_metadata_rule now m) as (Rp & Rs & Rt & Rm & _).
  unfold scores_in_range, in_unit.
  destruct (string_dec (importancePattern m) "preference") as [P|NP].
  { destruct (Rp P) as [E ->]. rewrite E.
    repeat split; try assumption; [apply Q.min_glb; nra | apply Q.le_min_l]. }
  destruct (string_dec (importancePattern m) "strengthen") as [S|NS].
  { destruct (Rs S) as [Et Er]. rewrite Et, Er.
    repeat split; try apply Q.le_min_l; apply Q.min_glb; nra. }
  destruct (string_dec (importancePattern m) "time-based") as [T|NT].
  { destruct (Rt T) as [E ->]. rewrite E.
    destruct (Pow (num_or (decayRate m) 0.5%Q)
                  (hours_between now (lastUpdated m) / 168)%Q Hr0 Hr1
                  (hours_between_nonneg now (lastUpdated m) Hupd)) as [F0 F1].
    repeat split; try assumption.
    - apply Qle_trans with 0.1%Q; [lra | apply Q.le_max_l].
    - apply Q.max_lub; [lra | nra]. }
  unfold decay_metadata.
  apply String.eqb_neq in NP, NS, NT. rewrite NP, NS, NT.
  destruct (importancePattern m =? "self-managed"); simpl; now repeat split.
Qed.

Lemma decay_entity_in_range (now : Z) (e : Entity) :
  pow_contracts ->
  entity_in_range e -> decay_inputs_ok now e ->
  entity_in_range (decay_entity now e).
Proof.
  intros Pow (m & M & R) Ok.
  destruct (Ok m M) as (Hupd & Hr0 & Hr1).
  exists (decay_metadata now m). split.
  - unfold decay_entity. now rewrite M.
  - now apply decay_metadata_in_range.
Qed.

Lemma add_to_entity_in_range (now : Z) (o : ObservationRequest) (e : Entity) :
  entity_in_range e -> entity_in_range (fst (add_to_entity now o e)).
Proof.
  intros (m & M & [[T0 T1] [R0 R1]]).
  unfold entity_in_range, add_to_entity. simpl. rewrite M.
  destruct (filter _ (contents o)); simpl; eexists; (split; [reflexivity|]);
    unfold scores_in_range, in_unit; simpl.
  - repeat split; assumption.
  - repeat split; try assumption.
    + apply Math_min_glb; lra.
    + apply Math_min_le_l.
Qed.

Lemma decay_metadata_floor (now : Z) (m : EmotionalMetadata) :
  importancePattern m = "time-based" ->
  (0.1 <= emotionalResonance (decay_metadata now m))%Q.
Proof.
  intro T. destruct (decay_metadata_rule now m) as (_ & _ & Rt & _).
  destruct (Rt T) as [E _]. rewrite E. apply Q.le_max_l.
Qed.

Lemma decay_metadata_no_floor (now : Z) (m : EmotionalMetadata) :
  importancePattern m <> "time-based" ->
  in_unit (emotionalResonance m) ->
  (emotionalResonance m <= emotionalResonance (decay_metadata now m))%Q.
Proof.
  intros NT U.
  destruct (string_dec (importancePattern m) "preference") as [P|NP].
  { now apply decay_metadata_strengthens; [left|]. }
  destruct (string_dec (importancePattern m) "strengthen") as [S|NS].
  { now apply decay_metadata_strengthens; [right|]. }
  unfold decay_metadata.
  apply String.eqb_neq in NP, NS, NT. rewrite NP, NS, NT.
  destruct (importancePattern m =? "self-managed"); simpl; apply Qle_refl.
Qed.

(** Off the time-based rule, a pass gains at most a thousandth. *)
Lemma decay_metadata_no_gain (now : Z) (m : EmotionalMetadata) :
  importancePattern m <> "time-based" ->
  in_unit (emotionalResonance m) ->
  (emotionalResonance (decay_metadata now m) <= emotionalResonance m * 1.001)%Q.
Proof.
  intros NT [U0 U1].
  destruct (decay_metadata_rule now m) as (Rp & Rs & _ & _).
  destruct (string_dec (importancePattern m) "preference") as [P|NP].
  { destruct (Rp P) as [E _]. rewrite E. apply Q.le_min_r. }
  destruct (string_dec (importancePattern m) "strengthen") as [S|NS].
  { destruct (Rs S) as [_ E]. rewrite E. apply Q.le_min_r. }
  unfold decay_metadata.
  apply String.eqb_neq in NP, NS, NT. rewrite NP, NS, NT.
  destruct (importancePattern m =? "self-managed"); simpl; lra.
Qed.

Lemma add_to_entity_decay_inputs (now : Z) (o : ObservationRequest) (e : Entity) :
  decay_inputs_ok now e -> decay_inputs_ok now (fst (add_to_entity now o e)).
Proof.
  unfold decay_inputs_ok, add_to_entity. simpl. intros Ok m'.
  destruct (emotionalMetadata e) as [m|] eqn:M; simpl;
    [|rewrite M; discriminate].
  destruct (Ok m eq_refl) as (_ & R).
  destruct (filter _ (contents o)); simpl; intro E; inversion E; subst; simpl;
    (split; [lia | exact R]).
Qed.

Lemma saveGraph_in_range (now : Z) (mgr : Manager) (graph : KnowledgeGraph) :
  pow_contracts ->
  Forall entity_in_range (entities graph) ->
  Forall (decay_inputs_ok now) (entities graph) ->
  Forall entity_in_range (entities (saved_graph (saveGraph now mgr graph))).
Proof.
  intros Pow R Ok.
  destruct (saveGraph_cases now mgr graph) as [(_ & E & _)|(_ & E & _)];
    rewrite E; [exact R|].
  apply Forall_map. rewrite Forall_forall in *.
  intros e I. apply decay_entity_in_range; auto.
Qed.

(** C9, as amended.  Every entity has metadata before it is persisted:
    [loadGraph] gives default metadata to an entity without it, and
    [createEntities] and [addObservations] persist only entities with
    metadata.  Default metadata has trust and resonance in [0,1].  Trust
    and resonance that lie in [0,1] still do after the decay pass of a save
    (for a decay rate in (0,1] and an entity not updated after the pass)
    and after [addObservations].  The floor of 0.1 belongs to the
    time-based rule alone: after a pass a time-based entity has resonance
    at least 0.1.  The other rules apply no floor: an entity of any other
    pattern whose resonance lies in [0,1] has a resonance no lower than
    before, and a resonance of 0 stays 0; so a resonance of at least 0.1
    stays at least 0.1. *)
Theorem metadata_present_and_clamped :
  pow_contracts ->
  (forall now disk,
      Forall has_metadata (entities (loadGraph AI_BRAIN_LANGUAGE now disk)))
  /\ (forall now mgr disk batch,
         Forall has_metadata
           (entities (saved_graph
                        (snd (createEntities AI_BRAIN_LANGUAGE now mgr disk batch)))))
  /\ (forall now mgr disk batch results graph effect,
         addObservations AI_BRAIN_LANGUAGE now mgr disk batch
         = (Returned (results, graph), effect) ->
         Forall has_metadata (entities graph))
  /\ (forall now e, scores_in_range (createDefaultEmotionalMetadata now e))
  /\ (forall now mgr graph,
         Forall entity_in_range (entities graph) ->
         Forall (decay_inputs_ok now) (entities graph) ->
         Forall entity_in_range (entities (saved_graph (saveGraph now mgr graph))))
  /\ (forall now mgr disk batch results graph effect,
         addObservations AI_BRAIN_LANGUAGE now mgr disk batch
         = (Returned (results, graph), effect) ->
         Forall entity_in_range (entities (loadGraph AI_BRAIN_LANGUAGE now disk)) ->
         Forall (decay_inputs_ok now)
                (entities (loadGraph AI_BRAIN_LANGUAGE now disk)) ->
         Forall entity_in_range (entities graph))
  /\ (forall now m,
         importancePattern m = "time-based" ->
         (0.1 <= emotionalResonance (decay_metadata now m))%Q)
  /\ (forall now m,
         importancePattern m <> "time-based" ->
         in_unit (emotionalResonance m) ->
         (emotionalResonance m <= emotionalResonance (decay_metadata now m))%Q)
  /\ (forall now m,
         importancePattern m <> "time-based" ->
         (emotionalResonance m == 0)%Q ->
         (emotionalResonance (decay_metadata now m) == 0)%Q)
  /\ (forall now m,
         in_unit (emotionalResonance m) ->
         (0.1 <= emotionalResonance m)%Q ->
         (0.1 <= emotionalResonance (decay_metadata now m))%Q).
Proof.
  intro Pow.
  split; [|split; [|split; [|split; [|split; [|split; [|split; [|split;
    [|split]]]]]]]].
  - apply loadGraph_has_metadata.
  - intros now mgr disk batch. unfold createEntities. simpl.
    apply saveGraph_has_metadata. simpl. apply Forall_app. split.
    + apply loadGraph_has_metadata.
    + apply new_entities_have_metadata.
  - intros now mgr disk batch results graph effect E.
    unfold addObservations in E.
    destruct (add_all now batch _) as [[es rs]|err] eqn:A; inversion E; subst.
    apply saveGraph_has_metadata. simpl.
    apply (add_all_preserves has_metadata now
             (fun o e => add_to_entity_has_metadata now o e) batch _ _ _ A).
    apply loadGraph_has_metadata.
  - intros now e. apply (default_metadata_in_range now e).
  - intros now mgr graph. now apply saveGraph_in_range.
  - intros now mgr disk batch results graph effect E R Ok.
    unfold addObservations in E.
    destruct (add_all now batch _) as [[es rs]|err] eqn:A; inversion E; subst.
    apply saveGraph_in_range; [exact Pow| |]; simpl.
    + apply (add_all_preserves entity_in_range now
               (fun o e => add_to_entity_in_range now o e) batch _ _ _ A R).
    + apply (add_all_preserves (decay_inputs_ok now) now
               (fun o e => add_to_entity_decay_inputs now o e) batch _ _ _ A Ok).
  - intros now m. apply decay_metadata_floor.
  - intros now m. apply decay_metadata_no_floor.
  - intros now m NT Z.
    assert (in_unit (emotionalResonance m)) as U
      by (unfold in_unit; rewrite Z; split; lra).
    pose proof (decay_metadata_no_floor now m NT U) as Lo.
    pose proof (decay_metadata_no_gain now m NT U) as Hi.
    rewrite Z in Lo, Hi. lra.
  - intros now m U F.
    destruct (string_dec (importancePattern m) "time-based") as [T|NT].
    + now apply decay_metadata_floor.
    + apply Qle_trans with (emotionalResonance m); [exact F|].
      now apply decay_metadata_no_floor.
Qed.

End Invariant.

(** C9, witness: [pow_floor] meets the contract of [Math.pow], and a save
    one week after instant 0 leaves the four example entities in range, the
    time-based one at a resonance of at least 0.1. *)
Lemma metadata_present_and_clamped_witness :
  Forall entity_in_range
         (entities (saved_graph
                      (saveGraph (host := reference_host) one_week
                                 fresh_manager four_patterns)))
  /\ (0.1 <= emotionalResonance
               (decay_metadata (host := reference_host) one_week
                  (example_metadata "time-based" 0.5 0.5 0)))%Q.
Proof.
  destruct (metadata_present_and_clamped (host := reference_host) None
              pow_floor_contracts)
    as (_ & _ & _ & _ & Save & _ & Floor & _ & _ & _).
  split.
  - apply Save.
    + each_entity ltac:(eexists; split; [reflexivity|];
                        repeat split; vm_compute; discriminate).
    + each_entity ltac:(intros m E; inversion E; subst;
                        repeat split; vm_compute; congruence).
  - apply Floor. reflexivity.
Defined.

(** C9, counterexample to the statement of the specification.  A
    preference with resonance 0.05 and a self-managed entity with resonance
    0 have trust and resonance within [0,1]; the pass of a save one hour
    after the last pass runs over them (their lastUpdated becomes the time
    of the save) and leaves the first at 0.05005, below the floor of 0.1,
    and the second at exactly 0. *)
Lemma decay_leaves_resonance_below_floor :
  Forall entity_in_range (entities faint_entities)
  /\ scores_of (saved_graph (saveGraph (host := reference_host) (minutes 60)
                               fresh_manager faint_entities))
     = [ Some (Qred 0.5, Qred 0.05005, minutes 60);
         Some (Qred 0.5, Qred 0, minutes 60) ]
  /\ ~ (0.1 <= 0.05005)%Q.
Proof.
  split; [|split].
  - each_entity ltac:(eexists; split; [reflexivity|];
                      repeat split; vm_compute; discriminate).
  - vm_compute. reflexivity.
  - vm_compute. intro H. apply H. reflexivity.
Qed.

(** ** Strings *)

Lemma prefix_iff (p s : string) :
  String.prefix p s = true <-> exists v, s = p ++ v.
Proof.
  revert s. induction p as [|c p IH]; intros s; simpl.
  - split; [intros _; now exists s | now destruct s].
  - destruct s as [|d s]; simpl.
    + split; [discriminate | intros [v H]; discriminate].
    + destruct (Ascii.ascii_dec c d) as [->|N].
      * rewrite IH. split; intros [v H]; exists v; [now rewrite H | now inversion H].
      * split; [discriminate | intros [v H]; inversion H; congruence].
Qed.

Lemma includes_nil (needle : string) :
  Str.includes "" needle = String.prefix needle "".
Proof.
  change (Str.includes "" needle)
    with (if String.prefix needle "" then true else false).
  now destruct (String.prefix needle "").
Qed.

Lemma includes_cons (c : ascii) (s needle : string) :
  Str.includes (String c s) needle
  = orb (String.prefix needle (String c s)) (Str.includes s needle).
Proof.
  change (Str.includes (String c s) needle)
    with (if String.prefix needle (String c s) then true
          else Str.includes s needle).
  now destruct (String.prefix needle (String c s)).
Qed.

Lemma includes_iff (s needle : string) :
  Str.includes s needle = true <-> substring_of needle s.
Proof.
  unfold substring_of. induction s as [|c s IH].
  - rewrite includes_nil, prefix_iff. split.
    + intros [v H]. now exists "", v.
    + intros (u & v & H). destruct u; [now exists v | discriminate].
  - rewrite includes_cons, orb_true_iff, prefix_iff, IH. split.
    + intros [[v H]|(u & v & H)].
      * now exists "", v.
      * exists (String c u), v. simpl. now rewrite H.
    + intros (u & v & H). destruct u as [|d u]; simpl in H.
      * left. now exists v.
      * right. inversion H; subst. now exists u, v.
Qed.

(** ** Search *)

Lemma points_if_bool (b : bool) (P : Prop) (points : Q) :
  (b = true <-> P) -> points_if P points (if b then points else 0%Q).
Proof.
  intros H. destruct b.
  - left. split; [now apply H | reflexivity].
  - right. split; [intro p; apply H in p; discriminate | reflexivity].
Qed.

(** *** The sort *)

Lemma insert_scored_perm (x : Entity * Q) (l : list (Entity * Q)) :
  Permutation (x :: l) (insert_scored x l).
Proof.
  induction l as [|y l IH]; simpl; [reflexivity|].
  destruct (Qlt_bool (snd x) (snd y)); [|reflexivity].
  rewrite perm_swap. now constructor.
Qed.

Lemma sort_scored_perm (l : list (Entity * Q)) : Permutation l (sort_scored l).
Proof.
  induction l as [|x l IH]; simpl; [constructor|].
  rewrite <- insert_scored_perm. now constructor.
Qed.

Lemma insert_scored_sorted (x : Entity * Q) (l : list (Entity * Q)) :
  StronglySorted scored_desc l -> StronglySorted scored_desc (insert_scored x l).
Proof.
  induction 1 as [|y l S IH F]; simpl.
  - repeat constructor.
  - destruct (Qlt_bool (snd x) (snd y)) eqn:E.
    + apply Qlt_bool_iff in E. constructor; [exact IH|].
      apply (Permutation_Forall (insert_scored_perm x l)).
      constructor; [|exact F]. unfold scored_desc. lra.
    + apply Qlt_bool_false_iff in E.
      constructor; [now constructor|].
      constructor; [exact E|].
      eapply Forall_impl; [|exact F].
      intros z Hz. unfold scored_desc in *. lra.
Qed.

Lemma sort_scored_sorted (l : list (Entity * Q)) :
  StronglySorted scored_desc (sort_scored l).
Proof.
  induction l as [|x l IH]; simpl; [constructor|].
  now apply insert_scored_sorted.
Qed.

(** Stability: the entities of one score keep their order. *)
Lemma insert_scored_stable (s : Q) (x : Entity * Q) (l : list (Entity * Q)) :
  filter (fun p => Qeq_bool (snd p) s) (insert_scored x l)
  = filter (fun p => Qeq_bool (snd p) s) (x :: l).
Proof.
  induction l as [|y l IH]; [reflexivity|].
  cbn [insert_scored].
  destruct (Qlt_bool (snd x) (snd y)) eqn:E; [|reflexivity].
  apply Qlt_bool_iff in E.
  cbn [filter] in *. rewrite IH.
  destruct (Qeq_bool (snd x) s) eqn:Ex, (Qeq_bool (snd y) s) eqn:Ey;
    try reflexivity.
  apply Qeq_bool_iff in Ex, Ey. lra.
Qed.

Lemma sort_scored_stable (s : Q) (l : list (Entity * Q)) :
  filter (fun p => Qeq_bool (snd p) s) (sort_scored l)
  = filter (fun p => Qeq_bool (snd p) s) l.
Proof.
  induction l as [|x l IH]; [reflexivity|].
  cbn [sort_scored fold_right]. fold (sort_scored l).
  rewrite insert_scored_stable. cbn [filter]. now rewrite IH.
Qed.

(** *** From scored entities back to entities *)

Lemma scored_by_all (query : string) (es : list Entity) :
  Forall (scored_by query) (map (fun e => (e, score_of query e)) es).
Proof. apply Forall_map, Forall_forall. now intros e _. Qed.

Lemma map_fst_scored (query : string) (es : list Entity) :
  map fst (map (fun e => (e, score_of query e)) es) = es.
Proof. rewrite map_map. simpl. apply map_id. Qed.

Lemma filter_scored (query : string) (f : Q -> bool) (l : list (Entity * Q)) :
  Forall (scored_by query) l ->
  map fst (filter (fun p => f (snd p)) l)
  = filter (fun e => f (score_of query e)) (map fst l).
Proof.
  induction 1 as [|p l Hp _ IH]; [reflexivity|].
  simpl. rewrite <- Hp. destruct (f (snd p)); simpl; now rewrite IH.
Qed.

Lemma mem_iff (x : string) (xs : list string) : Str.mem x xs = true <-> In x xs.
Proof.
  unfold Str.mem. rewrite existsb_exists. split.
  - intros (y & I & E). apply String.eqb_eq in E. now subst.
  - intro I. exists x. split; [exact I | apply String.eqb_refl].
Qed.

Lemma score_of_nonneg (query : string) (e : Entity) :
  (forall m, emotionalMetadata e = Some m ->
             (0 <= trustLevel m /\ 0 <= emotionalResonance m)%Q) ->
  (0 <= score_of query e)%Q.
Proof.
  intro H. unfold score_of.
  destruct (emotionalMetadata e) as [m|].
  - destruct (H m eq_refl).
    destruct (Str.includes (Str.toLowerCase (name e)) _),
             (Str.includes (Str.toLowerCase (entityType e)) _),
             (existsb _ (observations e)),
             (isUserPreference m), (accessibilityFlag m); lra.
  - destruct (Str.includes (Str.toLowerCase (name e)) _),
             (Str.includes (Str.toLowerCase (entityType e)) _),
             (existsb _ (observations e)); lra.
Qed.

Lemma score_of_boosted (query : string) (e : Entity) (m : EmotionalMetadata) :
  emotionalMetadata e = Some m ->
  (emotionalResonance m * 2 + trustLevel m * 2 <= score_of query e)%Q.
Proof.
  intro M. unfold score_of. rewrite M.
  destruct (Str.includes (Str.toLowerCase (name e)) _),
           (Str.includes (Str.toLowerCase (entityType e)) _),
           (existsb _ (observations e)),
           (isUserPreference m), (accessibilityFlag m); lra.
Qed.

Section SearchProperties.

Context {host : Host}.
Variable AI_BRAIN_LANGUAGE : option string.

Lemma searchNodes_entities (now : Z) (disk : Disk) (query : string) :
  entities (searchNodes AI_BRAIN_LANGUAGE now disk query)
  = map fst
      (sort_scored
         (filter (fun p => Qlt_bool 0 (snd p))
                 (map (fun e => (e, score_of query e))
                      (entities (loadGraph AI_BRAIN_LANGUAGE now disk))))).
Proof. reflexivity. Qed.

Lemma searchNodes_perm (now : Z) (disk : Disk) (query : string) :
  Permutation
    (entities (searchNodes AI_BRAIN_LANGUAGE now disk query))
    (filter (fun e => Qlt_bool 0 (score_of query e))
            (entities (loadGraph AI_BRAIN_LANGUAGE now disk))).
Proof.
  rewrite searchNodes_entities.
  rewrite <- sort_scored_perm.
  rewrite (filter_scored query (Qlt_bool 0)) by apply scored_by_all.
  now rewrite map_fst_scored.
Qed.

(** An entity is returned exactly when its score is positive. *)
Lemma searchNodes_In (now : Z) (disk : Disk) (query : string) (e : Entity) :
  In e (entities (searchNodes AI_BRAIN_LANGUAGE now disk query))
  <-> In e (entities (loadGraph AI_BRAIN_LANGUAGE now disk))
      /\ (0 < score_of query e)%Q.
Proof.
  split.
  - intro I. apply (Permutation_in _ (searchNodes_perm now disk query)) in I.
    apply filter_In in I. now rewrite Qlt_bool_iff in I.
  - intros [I P].
    apply (Permutation_in _ (Permutation_sym (searchNodes_perm now disk query))).
    apply filter_In. now rewrite Qlt_bool_iff.
Qed.

(** C10. Whatever the query, [searchNodes] returns every entity of the
    loaded graph whose metadata has a positive resonance or a positive
    trust (neither being negative, as in the data model), also when the
    query matches none of its name, type and observations: resonance*2 +
    trust*2 is added to the score whether or not the text matched, and the
    filter keeps every positive score. *)
Theorem search_returns_entities_with_metadata
  (now : Z) (disk : Disk) (query : string) (e : Entity) (m : EmotionalMetadata) :
  In e (entities (loadGraph AI_BRAIN_LANGUAGE now disk)) ->
  emotionalMetadata e = Some m ->
  (0 <= emotionalResonance m)%Q -> (0 <= trustLevel m)%Q ->
  (0 < emotionalResonance m)%Q \/ (0 < trustLevel m)%Q ->
  In e (entities (searchNodes AI_BRAIN_LANGUAGE now disk query))
  /\ (emotionalResonance m * 2 + trustLevel m * 2 <= score_of query e)%Q.
Proof.
  intros I M R T P.
  pose proof (score_of_boosted query e m M) as B.
  split; [|exact B].
  apply searchNodes_In. split; [exact I|].
  destruct P; lra.
Qed.

End SearchProperties.

(** Test 4 of [test/test-memory.js] on the store of test 2: the search for
    "zsh" ranks Dave's preference first, ahead of Sarah's entity of the same
    score 10.8 that follows it in the graph; the identity entity, which no
    text matches, is returned as well. *)
Example search_zsh :
  map name (entities (searchNodes (host := reference_host) None 0 test_store "zsh"))
  = [ "Dave_Shell_Preference_Test"; "Sarah_Accessibility_Needs_Test";
      "User_Profile"; "AI_Assistant_Identity" ].
Proof. vm_compute. reflexivity. Qed.

Lemma test_store_nonnegative :
  nonnegative_scores (loadGraph (host := reference_host) None 0 test_store).
Proof.
  intros e m I M. vm_compute in I.
  repeat (destruct I as [<-|I]; [inversion M; subst; split; vm_compute; discriminate|]).
  contradiction.
Qed.

(** C10, witness: the identity entity of the bootstrap graph matches no
    text of the query "zsh" and is returned. *)
Lemma search_returns_entities_with_metadata_witness :
  In (hd (example_entity "" "" 0 0 0)
         (entities (loadGraph (host := reference_host) None 0 None)))
     (entities (searchNodes (host := reference_host) None 0 None "zsh"))
  /\ (0.95 * 2 + 0.8 * 2
      <= score_of "zsh"
           (hd (example_entity "" "" 0 0 0)
               (entities (loadGraph (host := reference_host) None 0 None))))%Q.
Proof.
  apply (search_returns_entities_with_metadata (host := reference_host) None 0
           None "zsh" _
           {| trustLevel := 0.8%Q; importancePattern := "self-managed";
              emotionalResonance := 0.95%Q; lastUpdated := 0;
              isUserPreference := false; accessibilityFlag := false;
              createdAt := 0; decayRate := None; lastAccessed := None |}).
  - left. reflexivity.
  - reflexivity.
  - vm_compute. discriminate.
  - vm_compute. discriminate.
  - left. reflexivity.
Defined.

(** ** addObservations *)

Lemma has_entity_target (graph : KnowledgeGraph) (n : string) :
  has_entity graph n = true <-> exists e, target n (entities graph) = Some e.
Proof.
  unfold has_entity, target.
  induction (entities graph) as [|e es IH]; simpl.
  - split; [discriminate | intros [e H]; discriminate].
  - destruct (name e =? n); simpl; [|exact IH].
    split; [intros _; now exists e | reflexivity].
Qed.

Lemma add_to_first_None (now : Z) (o : ObservationRequest) (es : list Entity) :
  add_to_first now o es = None <-> target (entityName o) es = None.
Proof.
  unfold target. induction es as [|e es IH]; simpl; [tauto|].
  destruct (name e =? entityName o).
  - destruct (add_to_entity now o e). split; discriminate.
  - destruct (add_to_first now o es) as [[es' r]|].
    + split; [discriminate|]. intro H. apply IH in H. discriminate.
    + split; [intros _; now apply IH | reflexivity].
Qed.

Lemma grown_refl (es : list Entity) : grown es es.
Proof.
  induction es; constructor; [|assumption].
  split; [reflexivity | apply incl_refl].
Qed.

Lemma grown_trans (a b c : list Entity) : grown a b -> grown b c -> grown a c.
Proof.
  intro H. revert c. induction H as [|x y a b [N I] _ IH]; intros c Hc.
  - inversion Hc. constructor.
  - inversion Hc as [|? z ? c' [N' I'] Hc']; subst. constructor.
    + split; [congruence | eapply incl_tran; eassumption].
    + now apply IH.
Qed.

(** The target of a name in a grown list holds at least the observations
    of the target in the original list. *)
Lemma grown_target (n : string) (es0 es : list Entity) :
  grown es0 es ->
  forall e0, target n es0 = Some e0 ->
  exists e, target n es = Some e /\ incl (observations e0) (observations e).
Proof.
  unfold target. induction 1 as [|x y a b [N I] _ IH]; intros e0 T; simpl in *.
  - discriminate.
  - rewrite N. destruct (name x =? n).
    + inversion T; subst. now exists y.
    + now apply IH.
Qed.

Lemma add_to_first_Some (now : Z) (o : ObservationRequest) :
  forall (es es' : list Entity) (r : ObservationResult),
  add_to_first now o es = Some (es', r) ->
  grown es es' /\ reports es o r.
Proof.
  induction es as [|e es IH]; intros es' r E; simpl in E; [discriminate|].
  unfold reports, target. simpl.
  destruct (name e =? entityName o) eqn:N.
  - unfold add_to_entity in E. inversion E; subst; clear E. simpl. split.
    + constructor; [|apply grown_refl]. split.
      * now destruct (emotionalMetadata e).
      * destruct (emotionalMetadata e); simpl; apply incl_appl, incl_refl.
    + repeat split.
      * intros c I. now apply filter_In in I.
      * intros e0 c T I A. inversion T; subst.
        apply filter_In in A. destruct A as [_ A].
        apply negb_true_iff in A.
        assert (Str.mem c (observations e0) = true) by now apply mem_iff.
        congruence.
  - destruct (add_to_first now o es) as [[es1 r1]|] eqn:A; [|discriminate].
    inversion E; subst; clear E.
    destruct (IH es1 r eq_refl) as [G R]. split.
    + constructor; [|exact G]. split; [reflexivity | apply incl_refl].
    + exact R.
Qed.

Lemma reports_grown (es0 es : list Entity) (o : ObservationRequest)
  (r : ObservationResult) :
  grown es0 es -> reports es o r -> reports es0 o r.
Proof.
  intros G (N & I & F). repeat split; try assumption.
  intros e0 c T Hc.
  destruct (grown_target (entityName o) es0 es G e0 T) as (e & Te & Inc).
  apply (F e c Te). now apply Inc.
Qed.

Lemma add_all_Returned (now : Z) (batch : list ObservationRequest) :
  forall es : list Entity,
  (forall o, In o batch -> target (entityName o) es <> None) ->
  exists es' rs,
    add_all now batch es = Returned (es', rs)
    /\ grown es es'
    /\ Forall2 (reports es) batch rs.
Proof.
  induction batch as [|o batch IH]; intros es H; simpl.
  - exists es, []. repeat split; [apply grown_refl | constructor].
  - destruct (add_to_first now o es) as [[es1 r]|] eqn:A.
    + destruct (add_to_first_Some now o es es1 r A) as [G R].
      destruct (IH es1) as (es2 & rs & E & G2 & F).
      { intros o' I T. apply (H o' (or_intror I)).
        destruct (target (entityName o') es) as [e0|] eqn:T0; [|reflexivity].
        destruct (grown_target (entityName o') es es1 G e0 T0) as (e & Te & _).
        congruence. }
      exists es2, (r :: rs). rewrite E. repeat split.
      * now apply grown_trans with es1.
      * constructor; [exact R|].
        eapply Forall2_impl; [|exact F].
        intros o' r' R'. now apply reports_grown with es1.
    + exfalso. apply add_to_first_None in A. now apply (H o (or_introl eq_refl)).
Qed.

Lemma add_all_Thrown (now : Z) (batch : list ObservationRequest) :
  forall es : list Entity,
  (exists o, In o batch /\ target (entityName o) es = None) ->
  exists o,
    In o batch /\ target (entityName o) es = None
    /\ add_all now batch es
       = Thrown (UserPreferenceError
                   ("Entity with name " ++ entityName o ++ " not found")).
Proof.
  induction batch as [|o batch IH]; intros es (o' & I & T); simpl.
  - contradiction.
  - destruct (add_to_first now o es) as [[es1 r]|] eqn:A.
    + destruct (add_to_first_Some now o es es1 r A) as [G _].
      destruct I as [->|I].
      { apply (proj2 (add_to_first_None now o' es)) in T. congruence. }
      destruct (IH es1) as (o2 & I2 & T2 & E).
      { exists o'. split; [exact I|].
        destruct (target (entityName o') es1) as [e1|] eqn:T1; [|reflexivity].
        exfalso. clear - G T T1. unfold target in *.
        induction G as [|x y a b [N _] _ IH]; simpl in *; [discriminate|].
        rewrite N in T1. destruct (name x =? entityName o'); [discriminate|].
        now apply IH. }
      exists o2. rewrite E. repeat split; [now right|].
      destruct (target (entityName o2) es) as [e0|] eqn:T0; [|reflexivity].
      destruct (grown_target (entityName o2) es es1 G e0 T0) as (e & Te & _).
      congruence.
    + exists o. apply add_to_first_None in A. now repeat split; [left|].
Qed.

Section Mutations.

Context {host : Host}.
Variable AI_BRAIN_LANGUAGE : option string.

Lemma has_entity_false (graph : KnowledgeGraph) (n : string) :
  has_entity graph n = false <-> target n (entities graph) = None.
Proof.
  destruct (has_entity graph n) eqn:H.
  - apply has_entity_target in H. destruct H as [e H]. rewrite H.
    split; discriminate.
  - split; [intros _ | reflexivity].
    destruct (target n (entities graph)) as [e|] eqn:T; [|reflexivity].
    assert (has_entity graph n = true) by (apply has_entity_target; now exists e).
    congruence.
Qed.

(** *** createEntities *)

Lemma decay_entity_kept (now : Z) (e : Entity) : kept_as e (decay_entity now e).
Proof. unfold kept_as, decay_entity. now destruct (emotionalMetadata e). Qed.

Lemma new_entities_inserted (now : Z) (graph : KnowledgeGraph)
  (batch : list Entity) :
  Forall2 inserted_for
          (filter (fun c => negb (has_entity graph (name c))) batch)
          (new_entities now graph batch).
Proof.
  unfold new_entities.
  induction (filter _ batch) as [|c cs IH]; simpl; constructor; [|exact IH].
  unfold inserted_for. simpl. repeat split. discriminate.
Qed.

Lemma skipn_length_app {A : Type} (a b : list A) :
  skipn (List.length a) (a ++ b) = b.
Proof. induction a; simpl; auto. Qed.

Lemma filter_none {A : Type} (f : A -> bool) (l : list A) :
  (forall x, In x l -> f x = false) -> filter f l = [].
Proof.
  induction l as [|x l IH]; intro H; simpl; [reflexivity|].
  rewrite (H x (or_introl eq_refl)). apply IH.
  intros y I. apply H. now right.
Qed.

Lemma inserted_for_decay (now : Z) (c e : Entity) :
  inserted_for c e -> inserted_for c (decay_entity now e).
Proof.
  intros (N & T & O & M). destruct (decay_entity_kept now e) as (N' & T' & O').
  repeat split; try congruence.
  now apply decay_entity_has_metadata.
Qed.

Lemma inserted_for_decay_all (now : Z) (cs es : list Entity) :
  Forall2 inserted_for cs es ->
  Forall2 inserted_for cs (map (decay_entity now) es).
Proof.
  induction 1; simpl; constructor; [now apply inserted_for_decay | assumption].
Qed.

Lemma kept_as_refl (es : list Entity) : Forall2 kept_as es es.
Proof. induction es; constructor; [now repeat split | assumption]. Qed.

Lemma kept_as_decay (now : Z) (es : list Entity) :
  Forall2 kept_as es (map (decay_entity now) es).
Proof.
  induction es; simpl; constructor; [apply decay_entity_kept | assumption].
Qed.

Lemma new_entities_none (now : Z) (graph : KnowledgeGraph) (batch : list Entity) :
  (forall c, In c batch -> has_entity graph (name c) = true) ->
  new_entities now graph batch = [].
Proof.
  intro A. unfold new_entities. rewrite filter_none; [reflexivity|].
  intros c I. now rewrite (A c I).
Qed.

Lemma createEntities_shape (now : Z) (mgr : Manager) (disk : Disk)
  (batch : list Entity) :
  let graph := loadGraph AI_BRAIN_LANGUAGE now disk in
  let fresh := new_entities now graph batch in
  ((hours_between now (lastDecayCheck mgr) < 1)%Q
   /\ fst (createEntities AI_BRAIN_LANGUAGE now mgr disk batch) = fresh
   /\ entities (saved_graph
                  (snd (createEntities AI_BRAIN_LANGUAGE now mgr disk batch)))
      = (entities graph ++ fresh)%list)
  \/ ((1 <= hours_between now (lastDecayCheck mgr))%Q
      /\ fst (createEntities AI_BRAIN_LANGUAGE now mgr disk batch)
         = map (decay_entity now) fresh
      /\ entities (saved_graph
                     (snd (createEntities AI_BRAIN_LANGUAGE now mgr disk batch)))
         = (map (decay_entity now) (entities graph)
              ++ map (decay_entity now) fresh)%list).
Proof.
  intros graph fresh. unfold createEntities. fold graph. fold fresh. simpl.
  match goal with
  | |- context [saveGraph now mgr ?g] =>
      destruct (saveGraph_cases now mgr g) as [(H & E & _)|(H & E & _)]
  end; simpl in E; rewrite E; [left | right]; (split; [exact H|]).
  - split; [apply skipn_length_app | reflexivity].
  - rewrite map_app. split; [|reflexivity].
    rewrite <- (List.length_map (decay_entity now) (entities graph)).
    apply skipn_length_app.
Qed.

(** C6, as amended.  For every batch passed to [createEntities]: a
    candidate whose name is the name of an entity of the graph is dropped
    without error; the list returned holds one entity for each other
    candidate, in order, with the candidate's name, type and observations
    and with metadata; the entities persisted are those of the graph
    followed by the entities returned; an entity of the graph keeps its
    name, type and observations, keeps every field when the save runs no
    decay pass (less than one hour since the last pass), and is otherwise
    rewritten by the pass like any entity; a batch that holds only names
    already present returns the empty list. *)
Theorem createEntities_drops_existing_names
  (now : Z) (mgr : Manager) (disk : Disk) (batch : list Entity) :
  Forall2 inserted_for
    (filter (fun c =>
               negb (has_entity (loadGraph AI_BRAIN_LANGUAGE now disk) (name c)))
            batch)
    (fst (createEntities AI_BRAIN_LANGUAGE now mgr disk batch))
  /\ (exists kept,
        entities (saved_graph
                    (snd (createEntities AI_BRAIN_LANGUAGE now mgr disk batch)))
        = (kept ++ fst (createEntities AI_BRAIN_LANGUAGE now mgr disk batch))%list
        /\ Forall2 kept_as (entities (loadGraph AI_BRAIN_LANGUAGE now disk)) kept
        /\ ((hours_between now (lastDecayCheck mgr) < 1)%Q ->
            kept = entities (loadGraph AI_BRAIN_LANGUAGE now disk))
        /\ ((1 <= hours_between now (lastDecayCheck mgr))%Q ->
            kept = map (decay_entity now)
                       (entities (loadGraph AI_BRAIN_LANGUAGE now disk))))
  /\ ((forall c, In c batch ->
         has_entity (loadGraph AI_BRAIN_LANGUAGE now disk) (name c) = true) ->
      fst (createEntities AI_BRAIN_LANGUAGE now mgr disk batch) = []).
Proof.
  pose proof (new_entities_inserted now (loadGraph AI_BRAIN_LANGUAGE now disk)
                batch) as Ins.
  pose proof (new_entities_none now (loadGraph AI_BRAIN_LANGUAGE now disk)
                batch) as Nil.
  destruct (createEntities_shape now mgr disk batch)
    as [(H & R & E)|(H & R & E)]; rewrite R, E; clear R E.
  - split; [exact Ins|]. split.
    + exists (entities (loadGraph AI_BRAIN_LANGUAGE now disk)).
      split; [reflexivity|]. split; [apply kept_as_refl|].
      split; [reflexivity|].
      intro L. exfalso. apply (Qlt_not_le _ _ H L).
    + exact Nil.
  - split; [|split].
    + now apply inserted_for_decay_all.
    + exists (map (decay_entity now)
                  (entities (loadGraph AI_BRAIN_LANGUAGE now disk))).
      split; [reflexivity|]. split; [apply kept_as_decay|].
      split; [|reflexivity].
      intro L. exfalso. apply (Qlt_not_le _ _ L H).
    + intro A. now rewrite (Nil A).
Qed.

End Mutations.

(** Tests 5 and 8 of [test/test-memory.js]: the error of the unknown
    entity, and the one string of the known request that is new. *)
Example addObservations_unknown_entity :
  fst (addObservations (host := reference_host) None 0 fresh_manager test_store
         [known_request; unknown_request])
  = Thrown (UserPreferenceError "Entity with name NonExistentEntity not found")
  /\ error_name
       (UserPreferenceError "Entity with name NonExistentEntity not found")
     = "UserPreferenceError"
  /\ error_code
       (UserPreferenceError "Entity with name NonExistentEntity not found")
     = "USER_PREFERENCE_ERROR".
Proof. vm_compute. repeat split; reflexivity. Qed.

Example addObservations_known_entity :
  option_map fst
    (match fst (addObservations (host := reference_host) None 0 fresh_manager
                  test_store [known_request]) with
     | Returned x => Some x
     | Thrown _ => None
     end)
  = Some [ {| result_entityName := "Dave_Shell_Preference_Test";
              addedObservations :=
                ["Confirmed ZSH works perfectly for automated scripts"] |} ].
Proof. vm_compute. reflexivity. Qed.

(** C6, witness: a candidate whose name is taken is dropped. *)
Lemma createEntities_drops_existing_names_witness :
  fst (createEntities (host := reference_host) None (minutes 30) fresh_manager
         shell_store [shell_candidate]) = [].
Proof.
  apply (proj2 (proj2 (createEntities_drops_existing_names
                         (host := reference_host) None (minutes 30) fresh_manager
                         shell_store [shell_candidate]))).
  intros c [<-|[]]. vm_compute. reflexivity.
Defined.

(** C6, counterexample to the statement of the specification.  One hour
    after the manager was built, [createEntities] is given a candidate
    named like the entity of the store: nothing is inserted and the entity
    keeps its observations, but the decay pass of the save rewrites its
    metadata: lastUpdated moves from 0 to the time of the call and
    resonance from 0.9 to 0.9009. *)
Lemma colliding_entity_is_decayed :
  fst (createEntities (host := reference_host) None (minutes 60) fresh_manager
         shell_store [shell_candidate]) = []
  /\ observations_at
       (saved_graph (snd (createEntities (host := reference_host) None
                            (minutes 60) fresh_manager shell_store
                            [shell_candidate]))) 0
     = observations_at
         (loadGraph (host := reference_host) None (minutes 60) shell_store) 0
  /\ scores_of (loadGraph (host := reference_host) None (minutes 60) shell_store)
     = [ Some (Qred 0.5, Qred 0.9, 0%Z) ]
  /\ scores_of
       (saved_graph (snd (createEntities (host := reference_host) None
                            (minutes 60) fresh_manager shell_store
                            [shell_candidate])))
     = [ Some (Qred 0.5, Qred 0.9009, minutes 60) ].
Proof. vm_compute. repeat split; reflexivity. Qed.

(** The scenario of the specification: creating Dave's shell preference
    when no store exists yet gives it the pattern 'preference', resonance
    0.9 and the preference flag, and sets the shell of the profile to zsh. *)
Example dave_shell_scenario :
  map (fun e => option_map
                  (fun m => (importancePattern m, Qred (emotionalResonance m),
                             isUserPreference m))
                  (emotionalMetadata e))
      (fst (createEntities (host := reference_host) None 0 fresh_manager None
              [dave_shell]))
  = [ Some ("preference", Qred 0.9, true) ]
  /\ option_map preferredShell
       (gm_userProfile
          (metadata
             (saved_graph
                (snd (createEntities (host := reference_host) None 0
                        fresh_manager None [dave_shell])))))
     = Some "zsh".
Proof. vm_compute. split; reflexivity. Qed.

(** ** Reading back what was written *)

Lemma prefix_separator (s : string) :
  String.prefix record_separator s = true
  <-> exists rest, s = String (ascii_of_nat 92) (String (ascii_of_nat 110) rest).
Proof.
  rewrite prefix_iff. unfold record_separator. simpl.
  split; intros [v H]; now exists v.
Qed.

Lemma separator_free_cons (c : ascii) (s : string) :
  separator_free (String c s) ->
  String.prefix record_separator (String c s) = false /\ separator_free s.
Proof.
  unfold separator_free. rewrite includes_cons. apply orb_false_iff.
Qed.

(** A separator-free text followed by a separator is the first piece. *)
Lemma split_piece (l rest : string) :
  separator_free l ->
  Str.split_from record_separator 0 (l ++ record_separator ++ rest)
  = l :: Str.split_from record_separator 0 rest.
Proof.
  induction l as [|c l IH]; intro F.
  - now destruct rest.
  - destruct (separator_free_cons c l F) as [P F'].
    change (String c l ++ record_separator ++ rest)
      with (String c (l ++ record_separator ++ rest)).
    cbn [Str.split_from].
    assert (String.prefix record_separator
              (String c (l ++ record_separator ++ rest)) = false) as ->.
    { destruct (String.prefix record_separator
                  (String c (l ++ record_separator ++ rest))) eqn:E;
        [|reflexivity].
      apply prefix_separator in E. destruct E as [v E].
      inversion E as [[Hc Hl]]. subst c.
      destruct l as [|d l].
      - simpl in Hl. discriminate.
      - simpl in Hl. inversion Hl; subst d.
        assert (String.prefix record_separator
                  (String (ascii_of_nat 92) (String (ascii_of_nat 110) l)) = true)
          by (apply prefix_separator; now exists l).
        congruence. }
    now rewrite (IH F').
Qed.

Lemma split_last (l : string) :
  separator_free l -> Str.split_from record_separator 0 l = [l].
Proof.
  induction l as [|c l IH]; intro F; [reflexivity|].
  destruct (separator_free_cons c l F) as [P F'].
  cbn [Str.split_from]. rewrite P. now rewrite (IH F').
Qed.

Lemma split_join (line : string) (lines : list string) :
  Forall separator_free (line :: lines) ->
  Str.split record_separator (Str.join record_separator (line :: lines))
  = line :: lines.
Proof.
  unfold Str.split, Str.join. revert line.
  induction lines as [|l ls IH]; intros line F; inversion F as [|? ? Fl Fls]; subst.
  - simpl. now apply split_last.
  - change (String.concat record_separator (line :: l :: ls))
      with (line ++ record_separator ++ String.concat record_separator (l :: ls)).
    rewrite split_piece by exact Fl. now rewrite (IH l Fls).
Qed.

Section RoundTrip.

Context {host : Host}.
Variable AI_BRAIN_LANGUAGE : option string.

Lemma store_lines_of_records (items : list Item) :
  items <> [] ->
  Forall faithful_record items ->
  store_lines (Str.join record_separator (map JSON_stringify items))
  = map JSON_stringify items.
Proof.
  intros N F. unfold store_lines.
  destruct items as [|i items]; [contradiction|]. simpl map.
  rewrite split_join.
  - apply forallb_filter_id. apply forallb_forall.
    intros line I. change (In line (map JSON_stringify (i :: items))) in I.
    apply in_map_iff in I. destruct I as (j & <- & I).
    rewrite Forall_forall in F. destruct (F j I) as (_ & _ & B). now rewrite B.
  - change (Forall separator_free (map JSON_stringify (i :: items))).
    apply Forall_map. eapply Forall_impl; [|exact F]. now intros j (_ & S & _).
Qed.

Lemma load_records (now : Z) (items : list Item) :
  Forall faithful_record items ->
  forall graph,
    fold_left (load_line now) (map JSON_stringify items) graph
    = fold_left (load_item now) items graph.
Proof.
  induction 1 as [|i items (P & _) _ IH]; intro graph; [reflexivity|].
  simpl. unfold load_line at 2. rewrite P. apply IH.
Qed.

Lemma load_entities (now : Z) (es : list Entity) :
  Forall has_metadata es ->
  forall graph,
    fold_left (load_item now) (map entity_item es) graph
    = {| entities := entities graph ++ es; relations := relations graph;
         metadata := metadata graph |}.
Proof.
  induction 1 as [|e es M _ IH]; intro graph; simpl.
  - rewrite app_nil_r. now destruct graph.
  - rewrite IH. simpl. unfold has_metadata in M.
    destruct (emotionalMetadata e); [|contradiction].
    now rewrite <- app_assoc.
Qed.

Lemma load_relations (now : Z) (rs : list Relation) :
  forall graph,
    fold_left (load_item now) (map relation_item rs) graph
    = {| entities := entities graph; relations := relations graph ++ rs;
         metadata := metadata graph |}.
Proof.
  induction rs as [|r rs IH]; intro graph; simpl.
  - rewrite app_nil_r. now destruct graph.
  - rewrite IH. simpl. now rewrite <- app_assoc.
Qed.

(** [loadGraph] reads back the entities and relations that [saveGraph]
    wrote, when every record written is faithful. *)
Lemma load_after_save (now now' : Z) (mgr : Manager) (graph : KnowledgeGraph) :
  Forall has_metadata (entities graph) ->
  Forall faithful_record (store_records (saved_graph (saveGraph now mgr graph))) ->
  entities (loadGraph AI_BRAIN_LANGUAGE now'
              (saved_disk (saveGraph now mgr graph)))
  = entities (saved_graph (saveGraph now mgr graph))
  /\ relations (loadGraph AI_BRAIN_LANGUAGE now'
                  (saved_disk (saveGraph now mgr graph)))
     = relations graph.
Proof.
  intros M F. rewrite saveGraph_disk. unfold loadGraph.
  rewrite store_lines_of_records; [|discriminate | exact F].
  rewrite load_records by exact F.
  unfold store_records. simpl fold_left. rewrite fold_left_app.
  rewrite load_entities by (now apply saveGraph_has_metadata).
  rewrite load_relations. simpl.
  now rewrite saveGraph_relations.
Qed.

(** The round trip of the specification, under the condition that the
    code needs: load, save, load returns the entities of the first load
    with their names, types and observations, and the same relations,
    provided every record the save writes is read back from its text and
    that text does not contain the separator. *)
Theorem load_save_load
  (t1 t2 t3 : Z) (mgr : Manager) (disk : Disk) :
  Forall faithful_record
    (store_records
       (saved_graph (saveGraph t2 mgr (loadGraph AI_BRAIN_LANGUAGE t1 disk)))) ->
  Forall2 kept_as
    (entities (loadGraph AI_BRAIN_LANGUAGE t1 disk))
    (entities (loadGraph AI_BRAIN_LANGUAGE t3
                 (saved_disk
                    (saveGraph t2 mgr (loadGraph AI_BRAIN_LANGUAGE t1 disk)))))
  /\ relations (loadGraph AI_BRAIN_LANGUAGE t3
                  (saved_disk
                     (saveGraph t2 mgr (loadGraph AI_BRAIN_LANGUAGE t1 disk))))
     = relations (loadGraph AI_BRAIN_LANGUAGE t1 disk).
Proof.
  intro F.
  destruct (load_after_save t2 t3 mgr (loadGraph AI_BRAIN_LANGUAGE t1 disk)
              (loadGraph_has_metadata AI_BRAIN_LANGUAGE t1 disk) F) as [E R].
  rewrite E, R. split; [|reflexivity].
  destruct (saveGraph_cases t2 mgr (loadGraph AI_BRAIN_LANGUAGE t1 disk))
    as [(_ & E' & _)|(_ & E' & _)]; rewrite E';
    [apply kept_as_refl | apply kept_as_decay].
Qed.

End RoundTrip.

(** The round trip on the store of the tests, whose records hold no line
    feed and no backslash; the save comes half an hour after the manager
    was built. *)
Lemma load_save_load_witness :
  Forall2 kept_as
    (entities (loadGraph (host := reference_host) None 0 test_store))
    (entities (loadGraph (host := reference_host) None (minutes 120)
                 (saved_disk
                    (saveGraph (host := reference_host) (minutes 30) fresh_manager
                       (loadGraph (host := reference_host) None 0 test_store)))))
  /\ relations (loadGraph (host := reference_host) None (minutes 120)
                  (saved_disk
                     (saveGraph (host := reference_host) (minutes 30)
                        fresh_manager
                        (loadGraph (host := reference_host) None 0 test_store))))
     = relations (loadGraph (host := reference_host) None 0 test_store).
Proof.
  apply (load_save_load (host := reference_host) None 0 (minutes 30)
           (minutes 120) fresh_manager test_store).
  vm_compute store_records.
  repeat (apply Forall_cons; [repeat split; vm_compute; reflexivity|]).
  apply Forall_nil.
Defined.

(** C4, at a failing input.  The store written for the four example
    entities holds five records and not one line feed: the separator is the
    two characters backslash and n, and all the records share one line. *)
Lemma saved_store_is_one_line :
  exists text,
    saved_disk (saveGraph (host := reference_host) 0 fresh_manager four_patterns)
    = Some text
    /\ List.length (store_records four_patterns) = 5%nat
    /\ List.length (Str.split record_separator text) = 5%nat
    /\ List.length (Str.split line_feed text) = 1%nat
    /\ record_separator = String (ascii_of_nat 92) (String (ascii_of_nat 110) "").
Proof. eexists. split; [reflexivity|]. vm_compute. repeat split; reflexivity. Qed.

(** C5, at a failing input.  The store holds one entity whose observation
    has a line feed in it.  [loadGraph] reads the entity; [saveGraph]
    writes the line feed as the escape backslash-n, which is the record
    separator; the next [loadGraph] cuts the record there, both halves fail
    to parse, and the entity is gone. *)
Lemma reload_loses_multiline_observation :
  map name (entities (loadGraph (host := reference_host) None 0 multiline_store))
  = ["note"]
  /\ observations_at (loadGraph (host := reference_host) None 0 multiline_store) 0
     = Some ["first line" ++ line_feed ++ "second line"]
  /\ entities
       (loadGraph (host := reference_host) None 0
          (saved_disk
             (saveGraph (host := reference_host) 0 fresh_manager
                (loadGraph (host := reference_host) None 0 multiline_store))))
     = [].
Proof. vm_compute. repeat split; reflexivity. Qed.

(** ** The layout of the store *)

Section Layout.

Context {host : Host}.

(** [saveGraph] stamps the envelope, runs the decay engine, then replaces
    the file by the records of the decayed graph: the metadata record, the
    entity records in order, the relation records in order, joined by the
    record separator. *)
Theorem saveGraph_rewrites_store (now : Z) (mgr : Manager) (graph : KnowledgeGraph) :
  (saved_graph (saveGraph now mgr graph), saved_manager (saveGraph now mgr graph))
  = applyEmotionalDecay now mgr
      {| entities := entities graph; relations := relations graph;
         metadata := touch_metadata now (metadata graph) |}
  /\ saved_disk (saveGraph now mgr graph)
     = Some (Str.join record_separator
               (JSON_stringify
                  (metadata_item (metadata (saved_graph (saveGraph now mgr graph))))
                  :: map (fun e => JSON_stringify (entity_item e))
                         (entities (saved_graph (saveGraph now mgr graph)))
                  ++ map (fun r => JSON_stringify (relation_item r))
                         (relations (saved_graph (saveGraph now mgr graph)))))
  /\ gm_lastUpdated (metadata (saved_graph (saveGraph now mgr graph))) = Some now.
Proof.
  split; [|split].
  - unfold saveGraph. now destruct (applyEmotionalDecay _ _ _).
  - rewrite saveGraph_disk. unfold store_records. simpl.
    now rewrite map_app, !map_map.
  - unfold saveGraph, applyEmotionalDecay. now destruct (Qlt_bool _ 1).
Qed.

End Layout.

(** * The rest of the manager *)

(** ** Reading the store *)

Section Reading.

Context {host : Host}.
Variable AI_BRAIN_LANGUAGE : option string.

Lemma load_lines_by_kind (now : Z) (lines : list string) :
  forall graph,
    let items := flat_map (fun line => match JSON_parse line with
                                       | Some item => [item]
                                       | None => []
                                       end) lines in
    fold_left (load_line now) lines graph
    = {| entities :=
           entities graph ++ map (with_default_metadata now) (entity_records items);
         relations := relations graph ++ relation_records items;
         metadata := fold_left merge_metadata (metadata_records items)
                               (metadata graph) |}.
Proof.
  induction lines as [|line lines IH]; intro graph; simpl.
  - rewrite !app_nil_r. now destruct graph.
  - rewrite IH. unfold load_line.
    destruct (JSON_parse line) as [[e|r|m|]|]; simpl; try reflexivity.
    + unfold with_default_metadata at 2.
      rewrite <- app_assoc. simpl.
      now destruct (emotionalMetadata e).
    + now rewrite <- app_assoc.
Qed.

(** X4.  [loadGraph] on a store that exists: the entities are the entity
    records of the lines that parse, in the order of the file, each with
    default metadata when it has none; the relations are the relation
    records in the order of the file; the envelope is the default one
    overridden by the metadata records in turn.  Lines that do not parse
    and records of another type leave no trace, and this whatever the
    order of the kinds in the file. *)
Theorem loadGraph_reads_by_kind (now : Z) (data : string) :
  entities (loadGraph AI_BRAIN_LANGUAGE now (Some data))
  = map (with_default_metadata now) (entity_records (parsed_records data))
  /\ relations (loadGraph AI_BRAIN_LANGUAGE now (Some data))
     = relation_records (parsed_records data)
  /\ metadata (loadGraph AI_BRAIN_LANGUAGE now (Some data))
     = fold_left merge_metadata (metadata_records (parsed_records data))
                 (metadata (empty_graph now)).
Proof.
  unfold loadGraph. rewrite load_lines_by_kind. simpl. now repeat split.
Qed.

End Reading.

(** ** What a save keeps *)

Section Saving.

Context {host : Host}.

Lemma saveGraph_kept (now : Z) (mgr : Manager) (graph : KnowledgeGraph) :
  Forall2 kept_as (entities graph) (entities (saved_graph (saveGraph now mgr graph))).
Proof.
  destruct (saveGraph_cases now mgr graph) as [(_ & E & _)|(_ & E & _)];
    rewrite E; [apply kept_as_refl | apply kept_as_decay].
Qed.

Lemma kept_as_names (es es' : list Entity) :
  Forall2 kept_as es es' -> map name es' = map name es.
Proof.
  induction 1 as [|e e' es es' (N & _) _ IH]; simpl; [reflexivity|].
  now rewrite N, IH.
Qed.

Lemma saveGraph_names (now : Z) (mgr : Manager) (graph : KnowledgeGraph) :
  entity_names (saved_graph (saveGraph now mgr graph)) = entity_names graph.
Proof. apply kept_as_names, saveGraph_kept. Qed.

Lemma saveGraph_metadata (now : Z) (mgr : Manager) (graph : KnowledgeGraph) :
  metadata (saved_graph (saveGraph now mgr graph))
  = touch_metadata now (metadata graph).
Proof.
  unfold saveGraph, applyEmotionalDecay.
  now destruct (Qlt_bool _ 1).
Qed.

Lemma saveGraph_profile (now : Z) (mgr : Manager) (graph : KnowledgeGraph) :
  gm_userProfile (metadata (saved_graph (saveGraph now mgr graph)))
  = gm_userProfile (metadata graph).
Proof. now rewrite saveGraph_metadata. Qed.

Lemma saveGraph_well_linked (now : Z) (mgr : Manager) (graph : KnowledgeGraph) :
  well_linked graph -> well_linked (saved_graph (saveGraph now mgr graph)).
Proof.
  unfold well_linked. rewrite saveGraph_names, saveGraph_relations. auto.
Qed.

End Saving.

Lemma same_relation_iff (a b : Relation) :
  same_relation a b = true <-> triple a = triple b.
Proof.
  unfold same_relation, triple.
  rewrite !andb_true_iff, !String.eqb_eq. split.
  - intros [[-> ->] ->]. reflexivity.
  - intro E. inversion E. auto.
Qed.

Lemma matches_existing_iff (rs : list Relation) (r : Relation) :
  existsb (fun existing => same_relation existing r) rs = true
  <-> matches_one_of rs r.
Proof.
  unfold matches_one_of. rewrite existsb_exists, in_map_iff. split.
  - intros (x & I & S). apply same_relation_iff in S. now exists x.
  - intros (x & T & I). exists x. split; [exact I|]. now apply same_relation_iff.
Qed.

Lemma matches_deleted_iff (rs : list Relation) (r : Relation) :
  existsb (fun delRelation => same_relation r delRelation) rs = true
  <-> matches_one_of rs r.
Proof.
  unfold matches_one_of. rewrite existsb_exists, in_map_iff. split.
  - intros (x & I & S). apply same_relation_iff in S. now exists x.
  - intros (x & T & I). exists x. split; [exact I|]. now apply same_relation_iff.
Qed.

Lemma unmatched_existing_iff (rs : list Relation) (r : Relation) :
  ~ matches_one_of rs r
  <-> existsb (fun existing => same_relation existing r) rs = false.
Proof. now rewrite <- matches_existing_iff, not_true_iff_false. Qed.

Lemma negb_mem_iff (x : string) (xs : list string) :
  negb (Str.mem x xs) = true <-> ~ In x xs.
Proof.
  rewrite negb_true_iff, <- not_true_iff_false. now rewrite mem_iff.
Qed.

(** ** Deleting entities *)

Section Deleting.

Context {host : Host}.
Variable AI_BRAIN_LANGUAGE : option string.

(** X5.  [deleteEntities]: the entities persisted are the entities of the graph
    whose name is not listed, in order, with their names, types and
    observations; no entity persisted bears a listed name; the relations
    persisted are the relations of the graph that touch no listed name at
    either end, so a deletion leaves no relation dangling from it; the
    warning is given exactly when a listed name is that of an entity
    flagged as a user preference, and the deletion goes through all the
    same; the profile of the envelope is not touched, even when the
    profile entity is deleted. *)
Theorem deleteEntities_cascades
  (now : Z) (mgr : Manager) (disk : Disk) (entityNames : list string) :
  let graph := loadGraph AI_BRAIN_LANGUAGE now disk in
  let warning := fst (deleteEntities AI_BRAIN_LANGUAGE now mgr disk entityNames) in
  let persisted :=
    saved_graph (snd (deleteEntities AI_BRAIN_LANGUAGE now mgr disk entityNames)) in
  Forall2 kept_as
    (filter (fun e => negb (Str.mem (name e) entityNames)) (entities graph))
    (entities persisted)
  /\ (forall n, In n (entity_names persisted)
                <-> In n (entity_names graph) /\ ~ In n entityNames)
  /\ (forall r, In r (relations persisted)
                <-> In r (relations graph)
                    /\ ~ In (from r) entityNames /\ ~ In (to r) entityNames)
  /\ (warning <> None
      <-> exists e, In e (entities graph) /\ In (name e) entityNames
                    /\ flagged_preference e = true)
  /\ gm_userProfile (metadata persisted) = gm_userProfile (metadata graph).
Proof.
  intros graph warning persisted.
  unfold warning, persisted, deleteEntities. fold graph. simpl.
  match goal with |- context [saveGraph now mgr ?g] => set (edited := g) end.
  split; [apply (saveGraph_kept now mgr edited)|].
  split; [|split; [|split]].
  - intro n. rewrite saveGraph_names. unfold entity_names. simpl.
    rewrite !in_map_iff. split.
    + intros (e & <- & I). apply filter_In in I. destruct I as [I M].
      apply negb_mem_iff in M. split; [now exists e | exact M].
    + intros [(e & <- & I) M]. exists e. split; [reflexivity|].
      apply filter_In. split; [exact I | now apply negb_mem_iff].
  - intro r. rewrite saveGraph_relations. simpl.
    rewrite filter_In, andb_true_iff, !negb_mem_iff. tauto.
  - match goal with
    | |- context [match ?found with [] => _ | _ :: _ => _ end] =>
        destruct found as [|e l] eqn:F
    end.
    + split; [intro C; now contradiction C|].
      intros (e & I & M & P). exfalso.
      assert (In e []) as [].
      rewrite <- F. apply filter_In. split; [exact I|].
      apply andb_true_iff. split; [now apply mem_iff | exact P].
    + split; [|discriminate]. intros _.
      assert (In e (e :: l)) as I by now left.
      rewrite <- F in I. apply filter_In in I. destruct I as [I M].
      apply andb_true_iff in M. destruct M as [M P].
      exists e. split; [exact I|]. split; [now apply mem_iff | exact P].
  - now rewrite saveGraph_profile.
Qed.

End Deleting.

(** ** Relations *)

(** Keys that are distinct stay distinct under a filter. *)
Lemma filter_keeps_distinct {A B : Type} (key : A -> B) (keep : A -> bool)
  (xs : list A) (D : NoDup (map key xs)) :
  NoDup (map key (filter keep xs)).
Proof.
  induction xs as [|x xs IH]; simpl; [constructor|].
  inversion D as [|? ? X D']; subst.
  destruct (keep x); simpl; [|now apply IH].
  constructor; [|now apply IH].
  intro I. apply X. apply in_map_iff in I. destruct I as (y & E & I).
  apply filter_In in I. apply in_map_iff. exists y. tauto.
Qed.

Lemma filter_all {A : Type} (f : A -> bool) (l : list A) :
  (forall x, In x l -> f x = true) -> filter f l = l.
Proof.
  intro H. apply forallb_filter_id, forallb_forall. exact H.
Qed.

Section Relations.

Context {host : Host}.
Variable AI_BRAIN_LANGUAGE : option string.

Lemma createRelations_shape (now : Z) (mgr : Manager) (disk : Disk)
  (batch : list Relation) :
  let graph := loadGraph AI_BRAIN_LANGUAGE now disk in
  relations (saved_graph (snd (createRelations AI_BRAIN_LANGUAGE now mgr disk batch)))
  = (relations graph
       ++ fst (createRelations AI_BRAIN_LANGUAGE now mgr disk batch))%list
  /\ forall r, In r (fst (createRelations AI_BRAIN_LANGUAGE now mgr disk batch))
               <-> In r batch /\ ~ matches_one_of (relations graph) r.
Proof.
  intro graph. unfold createRelations. fold graph. simpl.
  rewrite saveGraph_relations. simpl. split; [reflexivity|].
  intro r. rewrite filter_In, negb_true_iff, <- not_true_iff_false.
  now rewrite matches_existing_iff.
Qed.

(** X6.  [createRelations]: the relations returned are the relations of the
    batch whose triple (from, to, type) is the triple of no relation of the
    graph; they are persisted after the relations of the graph, which are
    all kept; the entities keep their names, types and observations.  The
    endpoints are not looked up: a relation is added whether or not the
    graph has entities of those names, so a relation returned whose end
    is not an entity leaves the graph with a dangling relation.  When no
    relation of the batch matches one of the graph, the whole batch is
    returned as it is. *)
Theorem createRelations_adds_unmatched
  (now : Z) (mgr : Manager) (disk : Disk) (batch : list Relation) :
  let graph := loadGraph AI_BRAIN_LANGUAGE now disk in
  let returned := fst (createRelations AI_BRAIN_LANGUAGE now mgr disk batch) in
  let persisted :=
    saved_graph (snd (createRelations AI_BRAIN_LANGUAGE now mgr disk batch)) in
  (forall r, In r returned
             <-> In r batch /\ ~ matches_one_of (relations graph) r)
  /\ relations persisted = (relations graph ++ returned)%list
  /\ Forall2 kept_as (entities graph) (entities persisted)
  /\ ((forall r, In r batch -> ~ matches_one_of (relations graph) r) ->
      returned = batch)
  /\ (forall r, In r returned ->
                ~ (In (from r) (entity_names graph)
                   /\ In (to r) (entity_names graph)) ->
                ~ well_linked persisted).
Proof.
  intros graph returned persisted.
  destruct (createRelations_shape now mgr disk batch) as [P R].
  split; [exact R|]. split; [exact P|]. split; [|split].
  - unfold persisted, createRelations. fold graph. simpl.
    match goal with |- context [saveGraph now mgr ?g] => set (edited := g) end.
    apply (saveGraph_kept now mgr edited).
  - intro A. unfold returned, createRelations. fold graph. simpl.
    apply filter_all. intros r I.
    rewrite negb_true_iff, <- not_true_iff_false, matches_existing_iff.
    now apply A.
  - intros r I E W. apply E. clear E.
    assert (entity_names persisted = entity_names graph) as N.
    { unfold persisted, createRelations. fold graph. simpl.
      now rewrite saveGraph_names. }
    rewrite <- N. apply W. fold graph in P. fold persisted in P. rewrite P.
    apply in_or_app. now right.
Qed.

Lemma createRelations_distinct
  (now : Z) (mgr : Manager) (disk : Disk) (batch : list Relation) :
  distinct_triples (relations (loadGraph AI_BRAIN_LANGUAGE now disk)) ->
  distinct_triples batch ->
  distinct_triples
    (relations
       (saved_graph (snd (createRelations AI_BRAIN_LANGUAGE now mgr disk batch)))).
Proof.
  intros G B. unfold distinct_triples, createRelations. simpl.
  rewrite saveGraph_relations. simpl. rewrite map_app.
  apply NoDup_app; [exact G | now apply filter_keeps_distinct |].
  intros t I J. apply in_map_iff in J. destruct J as (r & <- & J).
  apply filter_In in J. destruct J as [_ J].
  rewrite negb_true_iff, <- not_true_iff_false, matches_existing_iff in J.
  now apply J.
Qed.

(** X7.  [createRelations] keeps the triples of the graph distinct when the
    batch does not repeat a triple: if no two relations of the graph share
    a triple and no two relations of the batch do, no two relations
    persisted do.  The batch is compared with the graph only, not with
    itself: a relation given twice in one batch, and matching none of the
    graph, is returned twice and persisted twice. *)
Theorem createRelations_keeps_triples_distinct
  (now : Z) (mgr : Manager) (disk : Disk) :
  (forall batch,
     distinct_triples (relations (loadGraph AI_BRAIN_LANGUAGE now disk)) ->
     distinct_triples batch ->
     distinct_triples
       (relations
          (saved_graph
             (snd (createRelations AI_BRAIN_LANGUAGE now mgr disk batch)))))
  /\ (forall r,
        ~ matches_one_of (relations (loadGraph AI_BRAIN_LANGUAGE now disk)) r ->
        fst (createRelations AI_BRAIN_LANGUAGE now mgr disk [r; r]) = [r; r]
        /\ ~ distinct_triples
               (relations
                  (saved_graph
                     (snd (createRelations AI_BRAIN_LANGUAGE now mgr disk
                                           [r; r]))))).
Proof.
  split; [intro batch; apply createRelations_distinct|].
  intros r M.
  assert (fst (createRelations AI_BRAIN_LANGUAGE now mgr disk [r; r]) = [r; r])
    as R.
  { unfold createRelations. simpl.
    apply unmatched_existing_iff in M. now rewrite M. }
  split; [exact R|].
  destruct (createRelations_shape now mgr disk [r; r]) as [P _].
  rewrite P, R. unfold distinct_triples. rewrite map_app. intro N.
  apply NoDup_app_remove_l in N. simpl in N.
  inversion N as [|? ? X _]; subst. apply X. now left.
Qed.

(** X8.  [deleteRelations] after [createRelations] with the same batch, through
    the store: what remains are the relations of the first graph that match
    no relation of the batch, in their order; when none of them matches,
    the relations are those of the first graph again.  A relation is
    matched by its triple, whatever its strength.  The store is assumed to
    read back what the first call wrote. *)
Theorem create_then_delete_relations
  (t1 t2 : Z) (mgr : Manager) (disk : Disk) (batch : list Relation) :
  let graph := loadGraph AI_BRAIN_LANGUAGE t1 disk in
  let created := snd (createRelations AI_BRAIN_LANGUAGE t1 mgr disk batch) in
  let deleted :=
    deleteRelations AI_BRAIN_LANGUAGE t2 (saved_manager created)
                    (saved_disk created) batch in
  Forall faithful_record (store_records (saved_graph created)) ->
  (forall r, In r (relations (saved_graph deleted))
             <-> In r (relations graph) /\ ~ matches_one_of batch r)
  /\ ((forall r, In r (relations graph) -> ~ matches_one_of batch r) ->
      relations (saved_graph deleted) = relations graph).
Proof.
  intros graph created deleted F.
  assert (relations (saved_graph deleted)
          = filter (fun r => negb (existsb (fun delRelation =>
                                              same_relation r delRelation) batch))
                   (relations graph)) as E.
  { unfold deleted, deleteRelations. rewrite saveGraph_relations. simpl.
    unfold created, createRelations in *. fold graph in F |- *. simpl in *.
    match type of F with
    | context [saveGraph t1 mgr ?g] =>
        destruct (load_after_save AI_BRAIN_LANGUAGE t1 t2 mgr g) as [_ L];
        [apply (loadGraph_has_metadata AI_BRAIN_LANGUAGE t1 disk) | exact F |]
    end.
    rewrite L. simpl. rewrite filter_app.
    rewrite (filter_none _ (filter _ batch)); [apply app_nil_r|].
    intros r I. apply filter_In in I. destruct I as [I _].
    rewrite negb_false_iff, matches_deleted_iff.
    unfold matches_one_of. now apply in_map. }
  rewrite E. split.
  - intro r. rewrite filter_In, negb_true_iff, <- not_true_iff_false.
    now rewrite matches_deleted_iff.
  - intro A. apply filter_all. intros r I.
    rewrite negb_true_iff, <- not_true_iff_false, matches_deleted_iff.
    now apply A.
Qed.

End Relations.

(** ** Deleting observations *)

Lemma target_related (R : Entity -> Entity -> Prop) (n : string)
  (es es' : list Entity) :
  (forall e e', R e e' -> name e' = name e) ->
  Forall2 R es es' ->
  forall e, target n es = Some e ->
  exists e', target n es' = Some e' /\ R e e'.
Proof.
  intros N. unfold target.
  induction 1 as [|x y a b H _ IH]; intros e T; simpl in *; [discriminate|].
  rewrite (N _ _ H). destruct (name x =? n).
  - inversion T; subst. now exists y.
  - now apply IH.
Qed.

Lemma trimmed_refl (deletions : list Deletion) (es : list Entity) :
  Forall2 (trimmed deletions) es es.
Proof.
  induction es; constructor; [|assumption].
  repeat split. apply incl_refl.
Qed.

Lemma delete_from_entity_observations (now : Z) (d : Deletion) (e : Entity) :
  name (delete_from_entity now d e) = name e
  /\ entityType (delete_from_entity now d e) = entityType e
  /\ observations (delete_from_entity now d e)
     = filter (fun o => negb (Str.mem o (del_observations d))) (observations e).
Proof. unfold delete_from_entity. simpl. now destruct (emotionalMetadata e). Qed.

Lemma delete_from_first_trimmed (now : Z) (d : Deletion) (es : list Entity) :
  Forall2 (trimmed [d]) es (delete_from_first now d es).
Proof.
  induction es as [|e es IH]; simpl; [constructor|].
  destruct (name e =? del_entityName d) eqn:N.
  - constructor; [|apply trimmed_refl].
    destruct (delete_from_entity_observations now d e) as (A & B & C).
    unfold trimmed. rewrite A, B, C. repeat split.
    + intros o I. now apply filter_In in I.
    + intro X. exfalso. apply X. simpl. left.
      symmetry. now apply String.eqb_eq.
  - constructor; [|exact IH]. repeat split. apply incl_refl.
Qed.

Lemma delete_from_first_target (now : Z) (d : Deletion) (n : string)
  (es : list Entity) (e0 : Entity) :
  target n es = Some e0 ->
  exists e, target n (delete_from_first now d es) = Some e
            /\ forall o, In o (observations e)
                         <-> In o (observations e0)
                             /\ ~ (del_entityName d = n
                                   /\ In o (del_observations d)).
Proof.
  unfold target. induction es as [|x es IH]; simpl; [discriminate|].
  destruct (name x =? del_entityName d) eqn:D; simpl.
  - destruct (delete_from_entity_observations now d x) as (A & _ & C).
    rewrite A. apply String.eqb_eq in D.
    destruct (name x =? n) eqn:N.
    + intro T. inversion T; subst e0. eexists. split; [reflexivity|].
      apply String.eqb_eq in N. intro o.
      rewrite C, filter_In, negb_mem_iff. split; [tauto|].
      intros [I X]. split; [exact I|]. intro J. apply X. split; congruence.
    + intro T. exists e0. split; [exact T|]. intro o. split; [|tauto].
      intro I. split; [exact I|]. intros [E _].
      apply (find_some _ _) in T. destruct T as [_ T].
      apply String.eqb_eq in T. apply String.eqb_neq in N. congruence.
  - destruct (name x =? n) eqn:N.
    + intro T. inversion T; subst e0. exists x. split; [reflexivity|].
      intro o. split; [|tauto]. intro I. split; [exact I|]. intros [E _].
      apply String.eqb_eq in N. apply String.eqb_neq in D. congruence.
    + apply IH.
Qed.

Lemma trimmed_trans (d : Deletion) (ds : list Deletion) (a b c : list Entity) :
  Forall2 (trimmed [d]) a b -> Forall2 (trimmed ds) b c ->
  Forall2 (trimmed (d :: ds)) a c.
Proof.
  intro H. revert c.
  induction H as [|x y a b (N & T & I & K) _ IH]; intros c Hc.
  - inversion Hc. constructor.
  - inversion Hc as [|? z ? c' (N' & T' & I' & K') Hc']; subst.
    constructor; [|now apply IH].
    unfold trimmed. repeat split; try congruence.
    + eapply incl_tran; eassumption.
    + intro X. simpl in X.
      rewrite K', K; [reflexivity | |].
      * simpl. tauto.
      * rewrite N. tauto.
Qed.

Lemma delete_all_trimmed (now : Z) (deletions : list Deletion) :
  forall es,
    Forall2 (trimmed deletions) es
            (fold_left (fun es d => delete_from_first now d es) deletions es).
Proof.
  induction deletions as [|d ds IH]; intro es; simpl; [apply trimmed_refl|].
  eapply trimmed_trans; [apply delete_from_first_trimmed | apply IH].
Qed.

Lemma delete_all_target (now : Z) (deletions : list Deletion) (n : string) :
  forall es e0,
    target n es = Some e0 ->
    exists e,
      target n (fold_left (fun es d => delete_from_first now d es) deletions es)
      = Some e
      /\ forall o, In o (observations e)
                   <-> In o (observations e0) /\ ~ listed_for deletions n o.
Proof.
  induction deletions as [|d ds IH]; intros es e0 T; simpl.
  - exists e0. split; [exact T|]. intro o. split; [|tauto].
    intro I. split; [exact I|]. now intros (d & [] & _).
  - destruct (delete_from_first_target now d n es e0 T) as (e1 & T1 & O1).
    destruct (IH _ e1 T1) as (e & Te & O). exists e. split; [exact Te|].
    intro o. rewrite O, O1. unfold listed_for. split.
    + intros [[I X] Y]. split; [exact I|].
      intros (d' & [<-|I'] & E & J); [now apply X|].
      apply Y. now exists d'.
    + intros [I X]. split; [split; [exact I|]|].
      * intros [E J]. apply X. exists d. simpl. tauto.
      * intros (d' & I' & E & J). apply X. exists d'. simpl. tauto.
Qed.

Section DeletingObservations.

Context {host : Host}.
Variable AI_BRAIN_LANGUAGE : option string.

(** X9.  [deleteObservations]: no entity is removed or reordered, names and
    types are kept, and no observation is gained; an entity that no
    deletion names keeps its observations, and a deletion that names no
    entity of the graph is passed over without error.  For each name, the
    first entity of that name keeps exactly the observations that no
    deletion of the batch lists for that name. *)
Theorem deleteObservations_removes_listed
  (now : Z) (mgr : Manager) (disk : Disk) (deletions : list Deletion) :
  let graph := loadGraph AI_BRAIN_LANGUAGE now disk in
  let persisted :=
    saved_graph (deleteObservations AI_BRAIN_LANGUAGE now mgr disk deletions) in
  Forall2 (trimmed deletions) (entities graph) (entities persisted)
  /\ (forall n e0,
        target n (entities graph) = Some e0 ->
        exists e,
          target n (entities persisted) = Some e
          /\ forall o, In o (observations e)
                       <-> In o (observations e0) /\ ~ listed_for deletions n o)
  /\ relations persisted = relations graph.
Proof.
  intros graph persisted. unfold persisted, deleteObservations. fold graph.
  match goal with |- context [saveGraph now mgr ?g] => set (edited := g) end.
  pose proof (saveGraph_kept now mgr edited) as K.
  pose proof (delete_all_trimmed now deletions (entities graph)) as T.
  change (fold_left _ deletions (entities graph)) with (entities edited) in T.
  split; [|split].
  - revert K. generalize (entities (saved_graph (saveGraph now mgr edited))).
    induction T as [|x y a b (N & Ty & I & U) _ IH]; intros c K;
      inversion K as [|? z ? c' (N' & Ty' & O') K']; subst; constructor.
    + unfold trimmed. rewrite N', Ty', O'. tauto.
    + now apply IH.
  - intros n e0 Tg.
    destruct (delete_all_target now deletions n (entities graph) e0 Tg)
      as (e1 & T1 & O1).
    change (fold_left _ deletions (entities graph)) with (entities edited) in T1.
    destruct (target_related kept_as n _ _ (fun e e' H => proj1 H) K e1 T1)
      as (e & Te & _ & _ & O).
    exists e. split; [exact Te|]. intro o. now rewrite O.
  - now rewrite saveGraph_relations.
Qed.

End DeletingObservations.

(** ** Opening nodes *)

Lemma filter_map_commute {A : Type} (p : A -> bool) (g : A -> A) (l : list A) :
  (forall x, p (g x) = p x) -> filter p (map g l) = map g (filter p l).
Proof.
  intro H. induction l as [|x l IH]; simpl; [reflexivity|].
  rewrite H. destruct (p x); simpl; now rewrite IH.
Qed.

Section Opening.

Context {host : Host}.
Variable AI_BRAIN_LANGUAGE : option string.

Lemma decay_entity_last_access (now : Z) (e : Entity) :
  last_access (decay_entity now e) = last_access e.
Proof.
  unfold last_access, decay_entity.
  destruct (emotionalMetadata e) as [m|] eqn:E; simpl; [|now rewrite E].
  destruct (decay_metadata_rule now m) as (_ & _ & _ & _ & _ & _ & _ & _ & _ & _ & L).
  exact L.
Qed.

(** The entities after a save are the images of the entities saved under
    one function, the identity or the decay of an entity. *)
Lemma saveGraph_pointwise (now : Z) (mgr : Manager) (graph : KnowledgeGraph) :
  exists f,
    entities (saved_graph (saveGraph now mgr graph)) = map f (entities graph)
    /\ forall e, kept_as e (f e)
                 /\ last_access (f e) = last_access e
                 /\ (has_metadata e -> has_metadata (f e)).
Proof.
  destruct (saveGraph_cases now mgr graph) as [(_ & E & _)|(_ & E & _)].
  - exists (fun e => e). rewrite map_id. split; [exact E|].
    intro e. now repeat split.
  - exists (decay_entity now). split; [exact E|]. intro e.
    split; [apply decay_entity_kept|].
    split; [apply decay_entity_last_access | apply decay_entity_has_metadata].
Qed.

Lemma stamp_access_opened (now : Z) (e : Entity) :
  has_metadata e -> opened now e (stamp_access now e).
Proof.
  unfold opened, has_metadata, last_access, stamp_access, kept_as.
  destruct (emotionalMetadata e); [|contradiction].
  intros _. simpl. repeat split. discriminate.
Qed.

(** X10.  [openNodes]: the entities returned are the entities of the graph that
    bear one of the names, in the order of the graph, with their names,
    types and observations, each with metadata whose [lastAccessed] is the
    instant of the call; a name that no entity bears is passed over.  They
    are entities of the graph persisted.  The relations returned are the
    relations of the graph whose two ends are entities returned.  The call
    saves: every entity of the graph is persisted, an entity that is not
    named with the [lastAccessed] it had, and the relations are persisted
    as they were. *)
Theorem openNodes_returns_named
  (now : Z) (mgr : Manager) (disk : Disk) (names : list string) :
  let graph := loadGraph AI_BRAIN_LANGUAGE now disk in
  let result := fst (openNodes AI_BRAIN_LANGUAGE now mgr disk names) in
  let persisted :=
    saved_graph (snd (openNodes AI_BRAIN_LANGUAGE now mgr disk names)) in
  Forall2 (opened now) (named names (entities graph)) (entities result)
  /\ (forall n, In n (entity_names result)
                <-> In n (entity_names graph) /\ In n names)
  /\ incl (entities result) (entities persisted)
  /\ (forall r, In r (relations result)
                <-> In r (relations graph)
                    /\ In (from r) (entity_names result)
                    /\ In (to r) (entity_names result))
  /\ Forall2 (fun e0 e => kept_as e0 e
                          /\ (~ In (name e0) names ->
                              last_access e = last_access e0))
             (entities graph) (entities persisted)
  /\ relations persisted = relations graph.
Proof.
  intros graph result persisted.
  unfold result, persisted, openNodes. fold graph. simpl.
  set (selected := fun e : Entity => Str.mem (name e) names).
  set (stamp := fun e => if selected e then stamp_access now e else e).
  match goal with |- context [saveGraph now mgr ?g] => set (edited := g) end.
  destruct (saveGraph_pointwise now mgr edited) as (f & E & F).
  rewrite E. simpl entities. rewrite map_map.
  assert (forall e, name (f (stamp e)) = name e) as N.
  { intro e. destruct (F (stamp e)) as ((-> & _) & _).
    unfold stamp, stamp_access.
    destruct (selected e); [|reflexivity]. now destruct (emotionalMetadata e). }
  assert (filter selected (map (fun e => f (stamp e)) (entities graph))
          = map (fun e => f (stamp e)) (filter selected (entities graph))) as C.
  { apply filter_map_commute. intro e. unfold selected. now rewrite N. }
  assert (map name (map (fun e => f (stamp e)) (filter selected (entities graph)))
          = map name (filter selected (entities graph))) as Nm.
  { rewrite map_map. apply map_ext. exact N. }
  change (fun x : Entity =>
            f (if Str.mem (name x) names then stamp_access now x else x))
    with (fun e : Entity => f (stamp e)).
  rewrite C. unfold entity_names. simpl entities. rewrite Nm.
  pose proof (loadGraph_has_metadata AI_BRAIN_LANGUAGE now disk) as M.
  fold graph in M. rewrite Forall_forall in M.
  split; [|split; [|split; [|split; [|split]]]].
  - unfold named. fold selected.
    assert (forall e, In e (filter selected (entities graph)) ->
                      opened now e (f (stamp e))) as O.
    { intros e I. apply filter_In in I. destruct I as [I S].
      unfold stamp. rewrite S.
      destruct (stamp_access_opened now e (M e I)) as (K & H & L).
      destruct (F (stamp_access now e)) as (K' & L' & H').
      destruct K as (K1 & K2 & K3). destruct K' as (K1' & K2' & K3').
      unfold opened, kept_as. repeat split; try congruence. now apply H'. }
    revert O. generalize (filter selected (entities graph)).
    intro l. induction l as [|e es IH]; intro O; simpl; constructor.
    + apply O. now left.
    + apply IH. intros e' I. apply O. now right.
  - intro n. rewrite !in_map_iff. split.
    + intros (e & <- & I). apply filter_In in I. destruct I as [I S].
      split; [now exists e | now apply mem_iff].
    + intros [(e & <- & I) S]. exists e. split; [reflexivity|].
      apply filter_In. split; [exact I | now apply mem_iff].
  - intros e I. rewrite <- C in I. now apply filter_In in I.
  - intro r. simpl relations.
    rewrite filter_In, andb_true_iff, !mem_iff. reflexivity.
  - generalize (entities graph). intro l.
    induction l as [|e es IH]; simpl; [constructor|].
    constructor; [|exact IH].
    destruct (F (stamp e)) as (K & L & _). unfold stamp in *.
    destruct (selected e) eqn:S.
    + split.
      * destruct K as (K1 & K2 & K3). unfold kept_as, stamp_access in *.
        destruct (emotionalMetadata e); simpl in *; now repeat split.
      * intro X. exfalso. apply X. now apply mem_iff.
    + now split.
  - unfold edited. now rewrite saveGraph_relations.
Qed.

End Opening.

(** ** Links between entities *)

Lemma add_all_grown (now : Z) (batch : list ObservationRequest) :
  forall es es' rs,
    add_all now batch es = Returned (es', rs) -> grown es es'.
Proof.
  induction batch as [|o batch IH]; intros es es' rs E; simpl in E.
  - inversion E; subst. apply grown_refl.
  - destruct (add_to_first now o es) as [[es1 r]|] eqn:A; [|discriminate].
    destruct (add_to_first_Some now o es es1 r A) as [G _].
    destruct (add_all now batch es1) as [[es2 rs2]|] eqn:B; [|discriminate].
    inversion E; subst. apply grown_trans with es1; [exact G|].
    now apply (IH es1 es' rs2).
Qed.

Lemma grown_names (es es' : list Entity) :
  grown es es' -> map name es' = map name es.
Proof.
  induction 1 as [|e e' es es' (N & _) _ IH]; simpl; [reflexivity|].
  now rewrite N, IH.
Qed.

Lemma trimmed_names (deletions : list Deletion) (es es' : list Entity) :
  Forall2 (trimmed deletions) es es' -> map name es' = map name es.
Proof.
  induction 1 as [|e e' es es' (N & _) _ IH]; simpl; [reflexivity|].
  now rewrite N, IH.
Qed.

Section Links.

Context {host : Host}.
Variable AI_BRAIN_LANGUAGE : option string.

(** X11.  Relations that join entities of the graph still do after a mutation
    other than [createRelations]: if every relation of the graph loaded
    has both its ends among the entities, so has every relation of the
    graph persisted by [deleteEntities], [deleteObservations],
    [deleteRelations], [createEntities], [openNodes], and by an
    [addObservations] that returns. *)
Theorem mutations_keep_links (now : Z) (mgr : Manager) (disk : Disk) :
  well_linked (loadGraph AI_BRAIN_LANGUAGE now disk) ->
  (forall entityNames,
     well_linked
       (saved_graph
          (snd (deleteEntities AI_BRAIN_LANGUAGE now mgr disk entityNames))))
  /\ (forall deletions,
        well_linked
          (saved_graph
             (deleteObservations AI_BRAIN_LANGUAGE now mgr disk deletions)))
  /\ (forall batch,
        well_linked
          (saved_graph (deleteRelations AI_BRAIN_LANGUAGE now mgr disk batch)))
  /\ (forall batch,
        well_linked
          (saved_graph
             (snd (createEntities AI_BRAIN_LANGUAGE now mgr disk batch))))
  /\ (forall names,
        well_linked
          (saved_graph (snd (openNodes AI_BRAIN_LANGUAGE now mgr disk names))))
  /\ (forall batch results graph effect,
        addObservations AI_BRAIN_LANGUAGE now mgr disk batch
        = (Returned (results, graph), effect) ->
        well_linked graph).
Proof.
  intro W. unfold well_linked in W.
  split; [|split; [|split; [|split; [|split]]]].
  - intro entityNames. unfold deleteEntities. simpl.
    apply saveGraph_well_linked. intros r I. simpl in I.
    apply filter_In in I. destruct I as [I K].
    apply andb_true_iff in K. rewrite !negb_mem_iff in K.
    destruct (W r I) as [A B]. unfold entity_names in *. simpl.
    rewrite !in_map_iff in *.
    destruct A as (a & A1 & A2), B as (b & B1 & B2).
    split; [exists a | exists b]; (split; [assumption|]);
      apply filter_In; (split; [assumption|]); apply negb_mem_iff;
      [rewrite A1 | rewrite B1]; tauto.
  - intro deletions. unfold deleteObservations.
    apply saveGraph_well_linked. intros r I. simpl in I.
    unfold entity_names. simpl.
    rewrite (trimmed_names deletions _ _ (delete_all_trimmed now deletions _)).
    now apply W.
  - intro batch. unfold deleteRelations.
    apply saveGraph_well_linked. intros r I. simpl in I.
    apply filter_In in I. now apply W.
  - intro batch. unfold createEntities. simpl.
    apply saveGraph_well_linked. intros r I. simpl in I.
    unfold entity_names. simpl. rewrite map_app, !in_app_iff.
    destruct (W r I). split; now left.
  - intro names. unfold openNodes. simpl.
    apply saveGraph_well_linked. intros r I. simpl in I.
    unfold entity_names. simpl. rewrite map_map.
    rewrite (map_ext _ name); [now apply W|].
    intro e. destruct (Str.mem (name e) names); [|reflexivity].
    unfold stamp_access. now destruct (emotionalMetadata e).
  - intros batch results graph effect E. unfold addObservations in E.
    destruct (add_all now batch _) as [[es rs]|] eqn:A; [|discriminate].
    inversion E; subst. apply saveGraph_well_linked.
    intros r I. simpl in I. unfold entity_names. simpl.
    rewrite (grown_names _ _ (add_all_grown now batch _ _ _ A)).
    now apply W.
Qed.

End Links.

(** ** Profile inference *)

Lemma mentions_iff (e : Entity) (token : string) :
  Str.includes (profile_text e) token = true <-> mentions e token.
Proof. apply includes_iff. Qed.

Lemma mentions_false_iff (e : Entity) (token : string) :
  Str.includes (profile_text e) token = false <-> ~ mentions e token.
Proof. now rewrite <- mentions_iff, not_true_iff_false. Qed.

Ltac split_tests :=
  repeat match goal with
         | |- context [if ?b then _ else _] => destruct b
         end.

Lemma infer_profile_shell (p : UserProfile) (e : Entity) :
  preferredShell (infer_profile p e)
  = if Str.includes (profile_text e) "zsh" then "zsh"
    else if Str.includes (profile_text e) "bash" then "bash"
    else if Str.includes (profile_text e) "fish" then "fish"
    else if Str.includes (profile_text e) "powershell" then "powershell"
    else preferredShell p.
Proof. unfold infer_profile, profile_text. split_tests; reflexivity. Qed.

Lemma infer_profile_needs (p : UserProfile) (e : Entity) :
  accessibilityNeeds (infer_profile p e)
  = let needs :=
      if orb (Str.includes (profile_text e) "screen reader")
             (Str.includes (profile_text e) "vision impaired")
      then push_unique "screen-reader" (accessibilityNeeds p)
      else accessibilityNeeds p in
    if orb (Str.includes (profile_text e) "slow pace")
           (Str.includes (profile_text e) "patient")
    then push_unique "slow-pace" needs else needs.
Proof. unfold infer_profile, profile_text. split_tests; reflexivity. Qed.

Lemma infer_profile_prefs (p : UserProfile) (e : Entity) :
  communicationPrefs (infer_profile p e)
  = let prefs :=
      if orb (Str.includes (profile_text e) "detailed")
             (Str.includes (profile_text e) "thorough")
      then push_unique "detailed" (communicationPrefs p)
      else communicationPrefs p in
    if orb (Str.includes (profile_text e) "concise")
           (Str.includes (profile_text e) "brief")
    then push_unique "concise" prefs else prefs.
Proof. unfold infer_profile, profile_text. split_tests; reflexivity. Qed.

Lemma infer_profile_rest (p : UserProfile) (e : Entity) :
  up_trustLevel (infer_profile p e) = up_trustLevel p
  /\ workingStyle (infer_profile p e) = workingStyle p
  /\ panicTriggers (infer_profile p e) = panicTriggers p
  /\ successPatterns (infer_profile p e) = successPatterns p.
Proof. unfold infer_profile. split_tests; now repeat split. Qed.

Lemma gains_refl (tags : list string) : gains tags tags.
Proof.
  exists []. rewrite app_nil_r. split; [reflexivity|].
  split; [constructor | intros t []].
Qed.

Lemma gains_trans (a b c : list string) : gains a b -> gains b c -> gains a c.
Proof.
  intros (x & -> & Nx & Fx) (y & -> & Ny & Fy).
  exists (x ++ y)%list. rewrite app_assoc. split; [reflexivity|]. split.
  - apply NoDup_app; [exact Nx | exact Ny |].
    intros t Ix Iy. apply (Fy t Iy). apply in_or_app. now right.
  - intros t I Ia. apply in_app_or in I. destruct I as [I|I].
    + now apply (Fx t I).
    + apply (Fy t I). apply in_or_app. now left.
Qed.

Lemma push_unique_gains (tag : string) (tags : list string) :
  gains tags (push_unique tag tags).
Proof.
  unfold push_unique. destruct (Str.mem tag tags) eqn:M; [apply gains_refl|].
  exists [tag]. split; [reflexivity|]. split.
  - constructor; [intros [] | constructor].
  - intros t [<-|[]] I. apply mem_iff in I. congruence.
Qed.

Lemma push_unique_In (tag : string) (tags : list string) (t : string) :
  In t (push_unique tag tags) <-> In t tags \/ t = tag.
Proof.
  unfold push_unique. destruct (Str.mem tag tags) eqn:M.
  - apply mem_iff in M. split; [tauto|]. intros [I| ->]; assumption.
  - rewrite in_app_iff. simpl. intuition (subst; auto).
Qed.

Lemma infer_profile_needs_gains (p : UserProfile) (e : Entity) :
  gains (accessibilityNeeds p) (accessibilityNeeds (infer_profile p e))
  /\ forall t, In t (accessibilityNeeds (infer_profile p e))
               <-> In t (accessibilityNeeds p) \/ asks_for t e.
Proof.
  rewrite infer_profile_needs. unfold asks_for. cbv zeta.
  pose proof (orb_true_iff (Str.includes (profile_text e) "screen reader")
                           (Str.includes (profile_text e) "vision impaired")) as A.
  pose proof (orb_true_iff (Str.includes (profile_text e) "slow pace")
                           (Str.includes (profile_text e) "patient")) as B.
  rewrite !mentions_iff in A, B.
  destruct (orb (Str.includes (profile_text e) "screen reader") _),
           (orb (Str.includes (profile_text e) "slow pace") _);
    (split;
     [ repeat (first [ apply gains_refl
                     | eapply gains_trans; [|apply push_unique_gains] ])
     | intro t; rewrite ?push_unique_In; intuition congruence ]).
Qed.

Lemma infer_profile_prefs_gains (p : UserProfile) (e : Entity) :
  gains (communicationPrefs p) (communicationPrefs (infer_profile p e))
  /\ forall t, In t (communicationPrefs (infer_profile p e))
               <-> In t (communicationPrefs p) \/ prefers t e.
Proof.
  rewrite infer_profile_prefs. unfold prefers. cbv zeta.
  pose proof (orb_true_iff (Str.includes (profile_text e) "detailed")
                           (Str.includes (profile_text e) "thorough")) as A.
  pose proof (orb_true_iff (Str.includes (profile_text e) "concise")
                           (Str.includes (profile_text e) "brief")) as B.
  rewrite !mentions_iff in A, B.
  destruct (orb (Str.includes (profile_text e) "detailed") _),
           (orb (Str.includes (profile_text e) "concise") _);
    (split;
     [ repeat (first [ apply gains_refl
                     | eapply gains_trans; [|apply push_unique_gains] ])
     | intro t; rewrite ?push_unique_In; intuition congruence ]).
Qed.

Lemma fold_infer_profile (news : list Entity) :
  forall p,
    let p' := fold_left infer_profile news p in
    up_trustLevel p' = up_trustLevel p
    /\ workingStyle p' = workingStyle p
    /\ panicTriggers p' = panicTriggers p
    /\ successPatterns p' = successPatterns p
    /\ gains (accessibilityNeeds p) (accessibilityNeeds p')
    /\ (forall t, In t (accessibilityNeeds p')
                  <-> In t (accessibilityNeeds p)
                      \/ exists e, In e news /\ asks_for t e)
    /\ gains (communicationPrefs p) (communicationPrefs p')
    /\ (forall t, In t (communicationPrefs p')
                  <-> In t (communicationPrefs p)
                      \/ exists e, In e news /\ prefers t e).
Proof.
  induction news as [|e news IH]; intro p; simpl.
  - repeat split; try apply gains_refl; try tauto;
      intros [I|(e & [] & _)]; exact I.
  - destruct (IH (infer_profile p e)) as (T & W & P & S & GA & IA & GC & IC).
    destruct (infer_profile_rest p e) as (T1 & W1 & P1 & S1).
    destruct (infer_profile_needs_gains p e) as (GA1 & IA1).
    destruct (infer_profile_prefs_gains p e) as (GC1 & IC1).
    repeat split; try congruence.
    + now apply gains_trans with (accessibilityNeeds (infer_profile p e)).
    + rewrite IA, IA1. intros [[I|A]|(x & I & A)]; auto.
      * right. exists e. auto.
      * right. exists x. auto.
    + rewrite IA, IA1. intros [I|(x & [<-|I] & A)]; auto.
      right. now exists x.
    + now apply gains_trans with (communicationPrefs (infer_profile p e)).
    + rewrite IC, IC1. intros [[I|A]|(x & I & A)]; auto.
      * right. exists e. auto.
      * right. exists x. auto.
    + rewrite IC, IC1. intros [I|(x & [<-|I] & A)]; auto.
      right. now exists x.
Qed.

Lemma updated_profile (graph : KnowledgeGraph) (news : list Entity) :
  profile_of (updateUserProfileFromEntities graph news)
  = fold_left infer_profile news (profile_of graph).
Proof. reflexivity. Qed.

(** X12.  [updateUserProfileFromEntities] only adds to the profile: the trust
    level, the working style, the panic triggers and the success patterns
    are left as they were; the accessibility needs and the communication
    preferences keep their tags in place and gain new ones at the end,
    each once.  A tag is among the accessibility needs afterwards exactly
    when it was before or a new entity asks for it (screen-reader for
    "screen reader" or "vision impaired", slow-pace for "slow pace" or
    "patient"); likewise for the communication preferences (detailed for
    "detailed" or "thorough", concise for "concise" or "brief").  No tag is
    ever removed.  Entities and relations are not touched. *)
Theorem profile_only_gains_tags (graph : KnowledgeGraph) (news : list Entity) :
  let p := profile_of graph in
  let p' := profile_of (updateUserProfileFromEntities graph news) in
  up_trustLevel p' = up_trustLevel p
  /\ workingStyle p' = workingStyle p
  /\ panicTriggers p' = panicTriggers p
  /\ successPatterns p' = successPatterns p
  /\ gains (accessibilityNeeds p) (accessibilityNeeds p')
  /\ (forall t, In t (accessibilityNeeds p')
                <-> In t (accessibilityNeeds p)
                    \/ exists e, In e news /\ asks_for t e)
  /\ gains (communicationPrefs p) (communicationPrefs p')
  /\ (forall t, In t (communicationPrefs p')
                <-> In t (communicationPrefs p)
                    \/ exists e, In e news /\ prefers t e)
  /\ entities (updateUserProfileFromEntities graph news) = entities graph
  /\ relations (updateUserProfileFromEntities graph news) = relations graph.
Proof.
  intros p p'. unfold p'. rewrite updated_profile.
  destruct (fold_infer_profile news p) as (T & W & P & S & GA & IA & GC & IC).
  repeat split; try assumption; try apply IA; try apply IC.
Qed.

Lemma infer_profile_names_shell (p : UserProfile) (e : Entity) (s : string) :
  names_shell e s -> preferredShell (infer_profile p e) = s.
Proof.
  rewrite infer_profile_shell. unfold names_shell.
  rewrite <- !mentions_false_iff, <- !mentions_iff.
  intros [(-> & ->)|[(-> & -> & ->)|[(-> & -> & -> & ->)|(-> & -> & -> & -> & ->)]]];
    reflexivity.
Qed.

Lemma infer_profile_no_shell (p : UserProfile) (e : Entity) :
  names_no_shell e -> preferredShell (infer_profile p e) = preferredShell p.
Proof.
  rewrite infer_profile_shell. unfold names_no_shell.
  rewrite <- !mentions_false_iff. now intros (-> & -> & -> & ->).
Qed.

Lemma fold_no_shell (news : list Entity) :
  Forall names_no_shell news ->
  forall p, preferredShell (fold_left infer_profile news p) = preferredShell p.
Proof.
  induction 1 as [|e news N _ IH]; intro p; simpl; [reflexivity|].
  rewrite IH. now apply infer_profile_no_shell.
Qed.

Lemma updated_shell (graph : KnowledgeGraph) (before : list Entity) (e : Entity)
  (after : list Entity) (s : string) :
  names_shell e s ->
  Forall names_no_shell after ->
  preferredShell
    (profile_of (updateUserProfileFromEntities graph (before ++ e :: after)%list))
  = s.
Proof.
  intros S N. rewrite updated_profile.
  rewrite fold_left_app. simpl. rewrite fold_no_shell by exact N.
  now apply infer_profile_names_shell.
Qed.

Lemma names_shell_known (e : Entity) (s : string) :
  names_shell e s -> s <> "unknown".
Proof.
  intros [(-> & _)|[(-> & _)|[(-> & _)|(-> & _)]]]; discriminate.
Qed.

(** X13.  The shell of the profile after [updateUserProfileFromEntities]: the
    last new entity that names a shell decides, and within one entity zsh
    goes before bash, bash before fish and fish before powershell, whatever
    the order of the words in its text; when no new entity names a shell,
    the shell of the profile is left as it was. *)
Theorem shell_last_mention_wins (graph : KnowledgeGraph) :
  (forall news,
     Forall names_no_shell news ->
     preferredShell (profile_of (updateUserProfileFromEntities graph news))
     = preferredShell (profile_of graph))
  /\ (forall before e after s,
        names_shell e s ->
        Forall names_no_shell after ->
        preferredShell
          (profile_of (updateUserProfileFromEntities graph
                         (before ++ e :: after)%list))
        = s).
Proof.
  split.
  - intros news N. rewrite updated_profile. now apply fold_no_shell.
  - intros before e after s. apply updated_shell.
Qed.

Lemma profile_text_kept (e e' : Entity) :
  kept_as e e' -> profile_text e' = profile_text e.
Proof. intros (N & _ & O). unfold profile_text. now rewrite N, O. Qed.

Lemma infer_profile_kept (p : UserProfile) (e e' : Entity) :
  kept_as e e' -> infer_profile p e' = infer_profile p e.
Proof.
  intro K. pose proof (profile_text_kept e e' K) as T.
  unfold profile_text in T. unfold infer_profile. now rewrite T.
Qed.

Lemma fold_infer_profile_kept (es es' : list Entity) :
  Forall2 kept_as es es' ->
  forall p, fold_left infer_profile es' p = fold_left infer_profile es p.
Proof.
  induction 1 as [|e e' es es' K _ IH]; intro p; simpl; [reflexivity|].
  now rewrite IH, (infer_profile_kept p e e' K).
Qed.

Section ProfileUpdates.

Context {host : Host}.
Variable AI_BRAIN_LANGUAGE : option string.

Lemma createEntities_profile
  (now : Z) (mgr : Manager) (disk : Disk) (batch : list Entity) :
  gm_userProfile
    (metadata
       (saved_graph (snd (createEntities AI_BRAIN_LANGUAGE now mgr disk batch))))
  = Some (profile_of
            (updateUserProfileFromEntities
               (loadGraph AI_BRAIN_LANGUAGE now disk)
               (fst (createEntities AI_BRAIN_LANGUAGE now mgr disk batch)))).
Proof.
  rewrite updated_profile.
  destruct (createEntities_shape AI_BRAIN_LANGUAGE now mgr disk batch)
    as [(_ & R & _)|(_ & R & _)]; rewrite R; clear R;
    unfold createEntities; simpl; rewrite saveGraph_profile; simpl;
    [reflexivity|].
  f_equal. symmetry. apply fold_infer_profile_kept, kept_as_decay.
Qed.

(** X14.  [createEntities] infers the profile from the entities it creates and
    from nothing else: the profile persisted is the profile of the graph
    loaded, or the default profile when the envelope has none, updated by
    [updateUserProfileFromEntities] with the entities returned.  A
    candidate dropped because its name is taken does not reach the
    profile, whatever its text says, and a call that creates nothing
    leaves the profile of the graph as it was. *)
Theorem createEntities_infers_from_created
  (now : Z) (mgr : Manager) (disk : Disk) (batch : list Entity) :
  let graph := loadGraph AI_BRAIN_LANGUAGE now disk in
  let created := fst (createEntities AI_BRAIN_LANGUAGE now mgr disk batch) in
  let persisted :=
    saved_graph (snd (createEntities AI_BRAIN_LANGUAGE now mgr disk batch)) in
  gm_userProfile (metadata persisted)
  = Some (profile_of (updateUserProfileFromEntities graph created))
  /\ (created = [] -> profile_of persisted = profile_of graph).
Proof.
  intros graph created persisted.
  pose proof (createEntities_profile now mgr disk batch) as E.
  fold graph created persisted in E.
  split; [exact E|].
  intro N. unfold profile_of at 1. rewrite E, N. reflexivity.
Qed.

Lemma saveGraph_touched (now : Z) (mgr : Manager) (graph : KnowledgeGraph) :
  touched now (metadata graph) (metadata (saved_graph (saveGraph now mgr graph))).
Proof. rewrite saveGraph_metadata. unfold touched. now repeat split. Qed.

(** X15.  What a mutation does to the envelope.  [addObservations] when it
    returns, [deleteObservations], [deleteEntities], [createRelations],
    [deleteRelations] and [openNodes] persist the envelope they loaded
    with [lastUpdated] set to the instant of the call and the interaction
    counter raised by one, and nothing else changed.  In particular only
    [createEntities] writes the profile: it is not updated when an
    observation added names a shell or an accessibility need, and it is
    kept when what it was inferred from is deleted. *)
Theorem mutations_touch_envelope (now : Z) (mgr : Manager) (disk : Disk) :
  let envelope := metadata (loadGraph AI_BRAIN_LANGUAGE now disk) in
  (forall batch results graph effect,
     addObservations AI_BRAIN_LANGUAGE now mgr disk batch
     = (Returned (results, graph), effect) ->
     touched now envelope (metadata graph))
  /\ (forall deletions,
        touched now envelope
          (metadata
             (saved_graph
                (deleteObservations AI_BRAIN_LANGUAGE now mgr disk deletions))))
  /\ (forall entityNames,
        touched now envelope
          (metadata
             (saved_graph
                (snd (deleteEntities AI_BRAIN_LANGUAGE now mgr disk entityNames)))))
  /\ (forall batch,
        touched now envelope
          (metadata
             (saved_graph
                (snd (createRelations AI_BRAIN_LANGUAGE now mgr disk batch)))))
  /\ (forall batch,
        touched now envelope
          (metadata
             (saved_graph (deleteRelations AI_BRAIN_LANGUAGE now mgr disk batch))))
  /\ (forall names,
        touched now envelope
          (metadata
             (saved_graph (snd (openNodes AI_BRAIN_LANGUAGE now mgr disk names))))).
Proof.
  intro envelope. split; [|split; [|split; [|split; [|split]]]].
  - intros batch results graph effect E. unfold addObservations in E.
    destruct (add_all now batch _) as [[es rs]|]; [|discriminate].
    inversion E; subst.
    match goal with |- context [saveGraph now mgr ?g] =>
      apply (saveGraph_touched now mgr g) end.
  - intro deletions. unfold deleteObservations.
    match goal with |- context [saveGraph now mgr ?g] =>
      apply (saveGraph_touched now mgr g) end.
  - intro entityNames. unfold deleteEntities. simpl.
    match goal with |- context [saveGraph now mgr ?g] =>
      apply (saveGraph_touched now mgr g) end.
  - intro batch. unfold createRelations. simpl.
    match goal with |- context [saveGraph now mgr ?g] =>
      apply (saveGraph_touched now mgr g) end.
  - intro batch. unfold deleteRelations.
    match goal with |- context [saveGraph now mgr ?g] =>
      apply (saveGraph_touched now mgr g) end.
  - intro names. unfold openNodes. simpl.
    match goal with |- context [saveGraph now mgr ?g] =>
      apply (saveGraph_touched now mgr g) end.
Qed.

End ProfileUpdates.

(** ** Recommendations *)

Lemma num_or_zero (x : Q) : (num_or (Some x) 0 == x)%Q.
Proof.
  unfold num_or. destruct (Qeq_bool x 0) eqn:E; [|reflexivity].
  apply Qeq_bool_iff in E. now rewrite E.
Qed.

Lemma trust_recommended_iff (graph : KnowledgeGraph) :
  In trust_recommendation (generateRecommendations graph)
  <-> forall p, gm_userProfile (metadata graph) = Some p ->
                (up_trustLevel p < 0.7)%Q.
Proof.
  unfold generateRecommendations.
  destruct (gm_userProfile (metadata graph)) as [p|];
    cbv beta iota zeta delta [option_map].
  - destruct (Qlt_bool (num_or (Some (up_trustLevel p)) 0) 0.7) eqn:T.
    + apply Qlt_bool_iff in T. rewrite num_or_zero in T. split.
      * intros _ q E. now inversion E; subst.
      * intros _. apply in_or_app. right. now left.
    + apply Qlt_bool_false_iff in T. rewrite num_or_zero in T. split.
      * intro I. exfalso.
        destruct (preferredShell p =? "unknown"), (accessibilityNeeds p);
          simpl in I; intuition discriminate.
      * intro H. specialize (H p eq_refl). exfalso.
        apply (Qlt_not_le _ _ H T).
  - split; [discriminate|]. intros _. now left.
Qed.

Lemma shell_recommended_iff (graph : KnowledgeGraph) :
  In shell_recommendation (generateRecommendations graph)
  <-> exists p, gm_userProfile (metadata graph) = Some p
                /\ preferredShell p = "unknown".
Proof.
  unfold generateRecommendations.
  destruct (gm_userProfile (metadata graph)) as [p|]; simpl.
  - destruct (preferredShell p =? "unknown") eqn:S.
    + apply String.eqb_eq in S. split; [intros _; now exists p|].
      intros _.
      destruct (accessibilityNeeds p), (Qlt_bool _ 0.7); simpl; now left.
    + apply String.eqb_neq in S. split.
      * intro I. exfalso.
        destruct (accessibilityNeeds p), (Qlt_bool _ 0.7);
          simpl in I; intuition discriminate.
      * intros (q & E & U). inversion E; subst. contradiction.
  - split.
    + intros [I|[]]. discriminate.
    + intros (q & E & _). discriminate.
Qed.

Lemma accessibility_recommended_iff (graph : KnowledgeGraph) :
  In accessibility_recommendation (generateRecommendations graph)
  <-> exists p, gm_userProfile (metadata graph) = Some p
                /\ accessibilityNeeds p = [].
Proof.
  unfold generateRecommendations.
  destruct (gm_userProfile (metadata graph)) as [p|]; simpl.
  - destruct (accessibilityNeeds p) as [|t ts] eqn:A.
    + split; [intros _; now exists p|]. intros _.
      destruct (preferredShell p =? "unknown"), (Qlt_bool _ 0.7); simpl;
        intuition.
    + split.
      * intro I. exfalso.
        destruct (preferredShell p =? "unknown"), (Qlt_bool _ 0.7);
          simpl in I; intuition discriminate.
      * intros (q & E & U). inversion E; subst. congruence.
  - split.
    + intros [I|[]]. discriminate.
    + intros (q & E & _). discriminate.
Qed.

Lemma shell_not_asked (graph : KnowledgeGraph) (before : list Entity)
  (e : Entity) (after : list Entity) (s : string) :
  names_shell e s ->
  Forall names_no_shell after ->
  ~ In shell_recommendation
       (generateRecommendations
          (updateUserProfileFromEntities graph (before ++ e :: after)%list)).
Proof.
  intros S N I. apply shell_recommended_iff in I. destruct I as (p & E & U).
  pose proof (updated_shell graph before e after s S N) as W.
  unfold profile_of in W. rewrite E in W. rewrite W in U.
  now apply (names_shell_known e s S).
Qed.

(** X16.  [generateRecommendations] and what [updateUserProfileFromEntities]
    does to it.  The shell is asked for exactly when the profile has the
    shell "unknown", the accessibility check is proposed exactly when the
    profile has no accessibility need, and trust building is proposed
    exactly when the profile has a trust level below 0.7 or there is no
    profile, in which case it is the only recommendation; they come in this
    order, each at most once.  Since the update leaves the trust level
    alone, trust building stays recommended after it when the trust level
    is below 0.7; and the shell is no longer asked for once a new entity
    names one. *)
Theorem recommendations_follow_profile (graph : KnowledgeGraph) :
  (In shell_recommendation (generateRecommendations graph)
   <-> exists p, gm_userProfile (metadata graph) = Some p
                 /\ preferredShell p = "unknown")
  /\ (In accessibility_recommendation (generateRecommendations graph)
      <-> exists p, gm_userProfile (metadata graph) = Some p
                    /\ accessibilityNeeds p = [])
  /\ (In trust_recommendation (generateRecommendations graph)
      <-> forall p, gm_userProfile (metadata graph) = Some p ->
                    (up_trustLevel p < 0.7)%Q)
  /\ (exists keep,
        generateRecommendations graph
        = filter keep [shell_recommendation; accessibility_recommendation;
                       trust_recommendation])
  /\ (gm_userProfile (metadata graph) = None ->
      generateRecommendations graph = [trust_recommendation])
  /\ (forall news,
        (up_trustLevel (profile_of graph) < 0.7)%Q ->
        In trust_recommendation
           (generateRecommendations (updateUserProfileFromEntities graph news)))
  /\ (forall before e after s,
        names_shell e s ->
        Forall names_no_shell after ->
        ~ In shell_recommendation
             (generateRecommendations
                (updateUserProfileFromEntities graph (before ++ e :: after)%list))).
Proof.
  split; [apply shell_recommended_iff|].
  split; [apply accessibility_recommended_iff|].
  split; [apply trust_recommended_iff|].
  split; [|split; [|split]].
  - unfold generateRecommendations.
    destruct (gm_userProfile (metadata graph)) as [p|]; simpl.
    + exists (fun r =>
                if rec_type r =? "preference-detection"
                then preferredShell p =? "unknown"
                else if rec_type r =? "accessibility-check"
                     then match accessibilityNeeds p with
                          | [] => true
                          | _ :: _ => false
                          end
                     else Qlt_bool (num_or (Some (up_trustLevel p)) 0) 0.7).
      simpl.
      now destruct (preferredShell p =? "unknown"), (accessibilityNeeds p),
                   (Qlt_bool _ 0.7).
    + exists (fun r => rec_type r =? "trust-building"). reflexivity.
  - intro N. unfold generateRecommendations. now rewrite N.
  - intros news T. apply trust_recommended_iff. intros p E.
    destruct (fold_infer_profile news (profile_of graph)) as (U & _).
    unfold profile_of in U, T. simpl in E. inversion E; subst. now rewrite U.
  - intros before e after s S N. now apply (shell_not_asked graph before e after s).
Qed.

(** ** What [addObservations] persists *)

Lemma add_to_first_result (now : Z) (o : ObservationRequest) :
  forall es es' r,
    add_to_first now o es = Some (es', r) ->
    result_entityName r = entityName o.
Proof.
  intros es es' r E. now destruct (add_to_first_Some now o es es' r E) as [_ [N _]].
Qed.

Lemma add_to_entity_observations (now : Z) (o : ObservationRequest) (e : Entity) :
  observations (fst (add_to_entity now o e))
  = (observations e
       ++ filter (fun content => negb (Str.mem content (observations e)))
                 (contents o))%list
  /\ addedObservations (snd (add_to_entity now o e))
     = filter (fun content => negb (Str.mem content (observations e)))
              (contents o)
  /\ name (fst (add_to_entity now o e)) = name e.
Proof. unfold add_to_entity. simpl. now destruct (emotionalMetadata e). Qed.

Lemma add_to_first_cons (now : Z) (o : ObservationRequest) (e : Entity)
  (es : list Entity) :
  add_to_first now o (e :: es)
  = if name e =? entityName o
    then Some (fst (add_to_entity now o e) :: es, snd (add_to_entity now o e))
    else match add_to_first now o es with
         | Some (es', r) => Some (e :: es', r)
         | None => None
         end.
Proof. reflexivity. Qed.

Lemma add_to_first_target (now : Z) (o : ObservationRequest) (n : string) :
  forall es es' r e0,
    add_to_first now o es = Some (es', r) ->
    target n es = Some e0 ->
    exists e,
      target n es' = Some e
      /\ observations e
         = (observations e0
              ++ (if entityName o =? n then addedObservations r else []))%list
      /\ (entityName o = n ->
          addedObservations r
          = filter (fun content => negb (Str.mem content (observations e0)))
                   (contents o)).
Proof.
  unfold target. induction es as [|x es IH]; intros es' r e0 E T;
    [discriminate|].
  rewrite add_to_first_cons in E. simpl in T.
  destruct (add_to_entity_observations now o x) as (O & A & N).
  destruct (add_to_entity now o x) as [x1 r1]. cbn [fst snd] in *.
  destruct (name x =? entityName o) eqn:X.
  - inversion E; subst es' r. clear E. cbn [find]. rewrite N.
    apply String.eqb_eq in X.
    destruct (name x =? n) eqn:Y.
    + inversion T; subst e0. exists x1. split; [reflexivity|].
      apply String.eqb_eq in Y.
      assert ((entityName o =? n) = true) as -> by (apply String.eqb_eq; congruence).
      split; [now rewrite O, A | intros _; exact A].
    + exists e0. split; [exact T|].
      assert ((entityName o =? n) = false) as Z.
      { apply String.eqb_neq. apply String.eqb_neq in Y. congruence. }
      rewrite Z, app_nil_r. split; [reflexivity|].
      intro C. apply String.eqb_neq in Z. contradiction.
  - clear O A N.
    destruct (add_to_first now o es) as [[es1 r2]|] eqn:A; [|discriminate].
    inversion E; subst es' r. simpl.
    destruct (name x =? n) eqn:Y.
    + inversion T; subst e0. exists x. split; [reflexivity|].
      assert ((entityName o =? n) = false) as Z.
      { apply String.eqb_neq. apply String.eqb_eq in Y.
        apply String.eqb_neq in X. congruence. }
      rewrite Z, app_nil_r. split; [reflexivity|].
      intro C. apply String.eqb_neq in Z. contradiction.
    + now apply (IH es1 r2 e0).
Qed.

Lemma added_to_cons (n : string) (r : ObservationResult)
  (rs : list ObservationResult) :
  added_to n (r :: rs)
  = ((if result_entityName r =? n then addedObservations r else [])
       ++ added_to n rs)%list.
Proof.
  unfold added_to. simpl. now destruct (result_entityName r =? n).
Qed.

Lemma add_all_appends (now : Z) (batch : list ObservationRequest) (n : string) :
  forall es es' rs e0,
    add_all now batch es = Returned (es', rs) ->
    target n es = Some e0 ->
    exists e,
      target n es' = Some e
      /\ observations e = (observations e0 ++ added_to n rs)%list.
Proof.
  induction batch as [|o batch IH]; intros es es' rs e0 E T; simpl in E.
  - inversion E; subst. exists e0. split; [exact T|].
    unfold added_to. simpl. now rewrite app_nil_r.
  - destruct (add_to_first now o es) as [[es1 r]|] eqn:A; [|discriminate].
    destruct (add_all now batch es1) as [[es2 rs2]|] eqn:B; [|discriminate].
    inversion E; subst es' rs.
    destruct (add_to_first_target now o n es es1 r e0 A T) as (e1 & T1 & O1 & _).
    destruct (IH es1 es2 rs2 e1 B T1) as (e & Te & O).
    exists e. split; [exact Te|].
    rewrite O, O1, added_to_cons, (add_to_first_result now o es es1 r A).
    now rewrite app_assoc.
Qed.

Lemma add_all_complete (now : Z) (batch : list ObservationRequest) :
  forall es es' rs,
    add_all now batch es = Returned (es', rs) ->
    forall o, In o batch ->
      exists e, target (entityName o) es' = Some e
                /\ incl (contents o) (observations e).
Proof.
  induction batch as [|o batch IH]; intros es es' rs E o' I; simpl in E;
    [contradiction|].
  destruct (add_to_first now o es) as [[es1 r]|] eqn:A; [|discriminate].
  destruct (add_all now batch es1) as [[es2 rs2]|] eqn:B; [|discriminate].
  inversion E; subst es' rs.
  destruct I as [<-|I]; [|now apply (IH es1 es2 rs2 B)].
  destruct (target (entityName o) es) as [e0|] eqn:T.
  - destruct (add_to_first_target now o (entityName o) es es1 r e0 A T)
      as (e1 & T1 & O1 & F).
    rewrite String.eqb_refl in O1. specialize (F eq_refl).
    destruct (grown_target (entityName o) es1 es2
                (add_all_grown now batch es1 es2 rs2 B) e1 T1) as (e & Te & Inc).
    exists e. split; [exact Te|].
    intros c Ic. apply Inc. rewrite O1, F. apply in_or_app.
    destruct (Str.mem c (observations e0)) eqn:M.
    + left. now apply mem_iff.
    + right. apply filter_In. split; [exact Ic | now rewrite M].
  - apply (proj2 (add_to_first_None now o es)) in T. congruence.
Qed.

Lemma add_to_entity_distinct (now : Z) (o : ObservationRequest) (e : Entity) :
  NoDup (contents o) ->
  distinct_observations e ->
  distinct_observations (fst (add_to_entity now o e)).
Proof.
  intros C D. unfold distinct_observations in *.
  destruct (add_to_entity_observations now o e) as (-> & _).
  apply NoDup_app; [exact D | now apply NoDup_filter |].
  intros c I J. apply filter_In in J. destruct J as [_ J].
  apply negb_mem_iff in J. contradiction.
Qed.

Lemma add_to_first_distinct (now : Z) (o : ObservationRequest) :
  NoDup (contents o) ->
  forall es es' r,
    add_to_first now o es = Some (es', r) ->
    Forall distinct_observations es -> Forall distinct_observations es'.
Proof.
  intro C. induction es as [|e es IH]; intros es' r E H; [discriminate|].
  rewrite add_to_first_cons in E.
  inversion H as [|? ? He Hes]; subst.
  pose proof (add_to_entity_distinct now o e C He) as D.
  destruct (add_to_entity now o e) as [e1 r1]. cbn [fst snd] in *.
  destruct (name e =? entityName o).
  - inversion E; subst. now constructor.
  - destruct (add_to_first now o es) as [[es1 r2]|] eqn:A; [|discriminate].
    inversion E; subst. constructor; [exact He|]. now apply (IH es1 r).
Qed.

Lemma add_all_distinct (now : Z) (batch : list ObservationRequest) :
  Forall (fun o => NoDup (contents o)) batch ->
  forall es es' rs,
    add_all now batch es = Returned (es', rs) ->
    Forall distinct_observations es -> Forall distinct_observations es'.
Proof.
  induction 1 as [|o batch C _ IH]; intros es es' rs E H; simpl in E.
  - inversion E; subst. exact H.
  - destruct (add_to_first now o es) as [[es1 r1]|] eqn:A; [|discriminate].
    destruct (add_all now batch es1) as [[es2 rs2]|] eqn:B; [|discriminate].
    inversion E; subst. apply (IH es1 es' rs2 B).
    now apply (add_to_first_distinct now o C es es1 r1).
Qed.

Lemma kept_as_distinct (es es' : list Entity) :
  Forall2 kept_as es es' ->
  Forall distinct_observations es -> Forall distinct_observations es'.
Proof.
  induction 1 as [|e e' es es' (_ & _ & O) _ IH]; intro H; [constructor|].
  inversion H; subst. constructor; [|now apply IH].
  unfold distinct_observations. now rewrite O.
Qed.

Section Adding.

Context {host : Host}.
Variable AI_BRAIN_LANGUAGE : option string.

(** X17.  [addObservations] when it returns: no entity is added, removed or
    renamed, and the relations are kept.  For each name, the first entity
    of that name holds afterwards the observations it had, in their order,
    followed by what the results report as added for that name, in the
    order of the requests: nothing else is touched, and an entity that no
    request names keeps its observations.  Every string of every request is
    among the observations of the entity the request names. *)
Theorem addObservations_appends_reported
  (now : Z) (mgr : Manager) (disk : Disk) (batch : list ObservationRequest)
  (results : list ObservationResult) (graph : KnowledgeGraph) (effect : Effect) :
  addObservations AI_BRAIN_LANGUAGE now mgr disk batch
  = (Returned (results, graph), effect) ->
  grown (entities (loadGraph AI_BRAIN_LANGUAGE now disk)) (entities graph)
  /\ (forall n e0,
        target n (entities (loadGraph AI_BRAIN_LANGUAGE now disk)) = Some e0 ->
        exists e,
          target n (entities graph) = Some e
          /\ observations e = (observations e0 ++ added_to n results)%list)
  /\ (forall o, In o batch ->
        exists e, target (entityName o) (entities graph) = Some e
                  /\ incl (contents o) (observations e))
  /\ relations graph = relations (loadGraph AI_BRAIN_LANGUAGE now disk).
Proof.
  intro E. unfold addObservations in E.
  destruct (add_all now batch _) as [[es rs]|] eqn:A; [|discriminate].
  inversion E; subst results graph. clear E.
  match goal with |- context [saveGraph now mgr ?g] => set (edited := g) end.
  pose proof (saveGraph_kept now mgr edited) as K. simpl in K.
  split; [|split; [|split]].
  - apply grown_trans with es; [apply (add_all_grown now batch _ _ _ A)|].
    clear - K. induction K as [|x y a b (N & _ & O) _ IH]; constructor;
      [|exact IH].
    split; [exact N|]. rewrite O. apply incl_refl.
  - intros n e0 T.
    destruct (add_all_appends now batch n _ _ _ e0 A T) as (e1 & T1 & O1).
    destruct (target_related kept_as n _ _ (fun e e' H => proj1 H) K e1 T1)
      as (e & Te & _ & _ & O).
    exists e. split; [exact Te | congruence].
  - intros o I.
    destruct (add_all_complete now batch _ _ _ A o I) as (e1 & T1 & Inc).
    destruct (target_related kept_as (entityName o) _ _
                (fun e e' H => proj1 H) K e1 T1) as (e & Te & _ & _ & O).
    exists e. split; [exact Te|]. now rewrite O.
  - unfold edited. now rewrite saveGraph_relations.
Qed.

(** X18.  [addObservations] keeps the observations of an entity distinct when
    no request gives a string twice: if no entity of the graph holds an
    observation twice and no request of the batch lists a string twice, no
    entity persisted holds an observation twice. *)
Theorem addObservations_keeps_observations_distinct
  (now : Z) (mgr : Manager) (disk : Disk) (batch : list ObservationRequest)
  (results : list ObservationResult) (graph : KnowledgeGraph) (effect : Effect) :
  addObservations AI_BRAIN_LANGUAGE now mgr disk batch
  = (Returned (results, graph), effect) ->
  Forall distinct_observations (entities (loadGraph AI_BRAIN_LANGUAGE now disk)) ->
  Forall (fun o => NoDup (contents o)) batch ->
  Forall distinct_observations (entities graph).
Proof.
  intros E D C. unfold addObservations in E.
  destruct (add_all now batch _) as [[es rs]|] eqn:A; [|discriminate].
  inversion E; subst results graph. clear E.
  match goal with |- context [saveGraph now mgr ?g] => set (edited := g) end.
  apply (kept_as_distinct _ _ (saveGraph_kept now mgr edited)). simpl.
  now apply (add_all_distinct now batch C _ _ _ A).
Qed.

End Adding.

(** ** Calls repeated through the store *)

Lemma add_to_first_nothing (now : Z) (o : ObservationRequest) :
  forall es e0,
    target (entityName o) es = Some e0 ->
    incl (contents o) (observations e0) ->
    exists es' r,
      add_to_first now o es = Some (es', r)
      /\ addedObservations r = []
      /\ Forall2 kept_as es es'.
Proof.
  unfold target. induction es as [|x es IH]; intros e0 T Inc; [discriminate|].
  rewrite add_to_first_cons. simpl in T.
  destruct (add_to_entity_observations now o x) as (O & A & N).
  assert (entityType (fst (add_to_entity now o x)) = entityType x) as Ty.
  { unfold add_to_entity. simpl. now destruct (emotionalMetadata x). }
  destruct (add_to_entity now o x) as [x1 r1]. cbn [fst snd] in *.
  destruct (name x =? entityName o).
  - inversion T; subst e0. exists (x1 :: es), r1.
    assert (filter (fun content => negb (Str.mem content (observations x)))
                   (contents o) = []) as F.
    { apply filter_none. intros c I. apply negb_false_iff, mem_iff.
      now apply Inc. }
    rewrite F in *. split; [reflexivity|]. split; [exact A|].
    constructor; [|apply kept_as_refl].
    unfold kept_as. rewrite N, Ty, O. now rewrite app_nil_r.
  - destruct (IH e0 T Inc) as (es' & r & E & R & K). rewrite E.
    exists (x :: es'), r. split; [reflexivity|]. split; [exact R|].
    constructor; [now repeat split | exact K].
Qed.

Lemma kept_as_trans (a b c : list Entity) :
  Forall2 kept_as a b -> Forall2 kept_as b c -> Forall2 kept_as a c.
Proof.
  intro H. revert c. induction H as [|x y a b (N & T & O) _ IH]; intros c Hc.
  - inversion Hc. constructor.
  - inversion Hc as [|? z ? c' (N' & T' & O') Hc']; subst. constructor.
    + unfold kept_as. repeat split; congruence.
    + now apply IH.
Qed.

Lemma add_all_nothing (now : Z) (batch : list ObservationRequest) :
  forall es,
    (forall o, In o batch ->
       exists e, target (entityName o) es = Some e
                 /\ incl (contents o) (observations e)) ->
    exists es' rs,
      add_all now batch es = Returned (es', rs)
      /\ Forall (fun r => addedObservations r = []) rs
      /\ Forall2 kept_as es es'.
Proof.
  induction batch as [|o batch IH]; intros es H; simpl.
  - exists es, []. split; [reflexivity|]. split; [constructor | apply kept_as_refl].
  - destruct (H o (or_introl eq_refl)) as (e0 & T & Inc).
    destruct (add_to_first_nothing now o es e0 T Inc) as (es1 & r & E & R & K).
    rewrite E.
    destruct (IH es1) as (es2 & rs & E2 & R2 & K2).
    { intros o' I. destruct (H o' (or_intror I)) as (e & Te & Ie).
      destruct (target_related kept_as (entityName o') _ _
                  (fun e e' H => proj1 H) K e Te) as (e' & Te' & _ & _ & O).
      exists e'. split; [exact Te' | now rewrite O]. }
    rewrite E2. exists es2, (r :: rs). split; [reflexivity|].
    split; [now constructor | now apply kept_as_trans with es1].
Qed.

Section Repeating.

Context {host : Host}.
Variable AI_BRAIN_LANGUAGE : option string.

(** X19.  [addObservations] called again with the same batch, on the store the
    first call left: the second call returns, reports nothing as added for
    any request, and persists every entity with the name, type and
    observations the first call persisted.  The store is assumed to read
    back what the first call wrote. *)
Theorem addObservations_again_adds_nothing
  (t1 t2 : Z) (mgr : Manager) (disk : Disk) (batch : list ObservationRequest)
  (results : list ObservationResult) (graph : KnowledgeGraph) (effect : Effect) :
  addObservations AI_BRAIN_LANGUAGE t1 mgr disk batch
  = (Returned (results, graph), effect) ->
  Forall faithful_record (store_records graph) ->
  exists results' graph' effect',
    addObservations AI_BRAIN_LANGUAGE t2 (manager_after effect)
                    (disk_after effect) batch
    = (Returned (results', graph'), effect')
    /\ Forall (fun r => addedObservations r = []) results'
    /\ List.length results' = List.length batch
    /\ Forall2 kept_as (entities graph) (entities graph').
Proof.
  intros E F.
  unfold addObservations in E.
  destruct (add_all t1 batch _) as [[es rs]|] eqn:A; [|discriminate].
  inversion E; subst results graph effect. clear E. simpl.
  match goal with |- context [saveGraph t1 mgr ?g] => set (edited := g) in * end.
  assert (forall o, In o batch ->
            exists e,
              target (entityName o)
                     (entities (saved_graph (saveGraph t1 mgr edited))) = Some e
              /\ incl (contents o) (observations e)) as C.
  { intros o I.
    destruct (add_all_complete t1 batch _ _ _ A o I) as (e1 & T1 & Inc).
    destruct (target_related kept_as (entityName o) _ _
                (fun e e' H => proj1 H) (saveGraph_kept t1 mgr edited) e1 T1)
      as (e & Te & _ & _ & O).
    exists e. split; [exact Te | now rewrite O]. }
  assert (Forall has_metadata (entities edited)) as M.
  { apply (add_all_preserves has_metadata t1
             (fun o e => add_to_entity_has_metadata t1 o e) batch _ _ _ A).
    apply loadGraph_has_metadata. }
  destruct (load_after_save AI_BRAIN_LANGUAGE t1 t2 mgr edited M F) as [L _].
  unfold addObservations. rewrite L.
  destruct (add_all_nothing t2 batch
              (entities (saved_graph (saveGraph t1 mgr edited))) C)
    as (es2 & rs2 & E2 & R2 & K2).
  rewrite E2. eexists _, _, _. split; [reflexivity|].
  split; [exact R2|]. split.
  - clear - E2. revert E2.
    generalize (entities (saved_graph (saveGraph t1 mgr edited))).
    revert rs2 es2.
    induction batch as [|o batch IH]; intros rs2 es2 es0 E2; simpl in E2.
    + now inversion E2.
    + destruct (add_to_first t2 o es0) as [[es1 r]|]; [|discriminate].
      destruct (add_all t2 batch es1) as [[es3 rs3]|] eqn:B; [|discriminate].
      inversion E2; subst. simpl. f_equal. now apply (IH rs3 es2 es1).
  - match goal with |- context [saveGraph t2 ?m ?g] => set (again := g) end.
    apply kept_as_trans with es2; [exact K2|].
    apply (saveGraph_kept t2 _ again).
Qed.

Lemma createEntities_names_present
  (now : Z) (mgr : Manager) (disk : Disk) (batch : list Entity) (c : Entity) :
  In c batch ->
  In (name c)
     (entity_names
        (saved_graph (snd (createEntities AI_BRAIN_LANGUAGE now mgr disk batch)))).
Proof.
  intro I. unfold createEntities. simpl. rewrite saveGraph_names.
  unfold entity_names. simpl. rewrite map_app. apply in_or_app.
  destruct (has_entity (loadGraph AI_BRAIN_LANGUAGE now disk) (name c)) eqn:H.
  - left. unfold has_entity in H. apply existsb_exists in H.
    destruct H as (e & Ie & N). apply String.eqb_eq in N.
    apply in_map_iff. now exists e.
  - right. unfold new_entities. rewrite map_map. simpl.
    apply in_map_iff. exists c. split; [reflexivity|].
    apply filter_In. split; [exact I | now rewrite H].
Qed.

(** X20.  [createEntities] called again with the same batch, on the store the
    first call left: the second call creates nothing and returns the empty
    list, and the entities it persists are those the first call persisted,
    with their names, types and observations.  The store is assumed to
    read back what the first call wrote. *)
Theorem createEntities_again_creates_nothing
  (t1 t2 : Z) (mgr : Manager) (disk : Disk) (batch : list Entity) :
  let first := snd (createEntities AI_BRAIN_LANGUAGE t1 mgr disk batch) in
  let again :=
    createEntities AI_BRAIN_LANGUAGE t2 (saved_manager first)
                   (saved_disk first) batch in
  Forall faithful_record (store_records (saved_graph first)) ->
  fst again = []
  /\ Forall2 kept_as (entities (saved_graph first))
             (entities (saved_graph (snd again))).
Proof.
  intros first again F.
  assert (entities (loadGraph AI_BRAIN_LANGUAGE t2 (saved_disk first))
          = entities (saved_graph first)) as L.
  { unfold first, createEntities in *. simpl in *.
    match type of F with
    | context [saveGraph t1 mgr ?g] =>
        destruct (load_after_save AI_BRAIN_LANGUAGE t1 t2 mgr g) as [L _];
        [|exact F|exact L]
    end.
    simpl. apply Forall_app. split.
    - apply loadGraph_has_metadata.
    - apply new_entities_have_metadata. }
  assert (forall c, In c batch ->
            has_entity (loadGraph AI_BRAIN_LANGUAGE t2 (saved_disk first))
                       (name c) = true) as H.
  { intros c I. unfold has_entity. rewrite L.
    apply existsb_exists.
    pose proof (createEntities_names_present t1 mgr disk batch c I) as P.
    apply in_map_iff in P. destruct P as (e & N & Ie).
    exists e. split; [exact Ie | now apply String.eqb_eq]. }
  destruct (createEntities_shape AI_BRAIN_LANGUAGE t2 (saved_manager first)
              (saved_disk first) batch) as [(_ & R & E)|(_ & R & E)];
    fold again in R, E; rewrite R, E;
    rewrite (new_entities_none t2 _ batch H); simpl; rewrite app_nil_r, L.
  - split; [reflexivity | apply kept_as_refl].
  - split; [reflexivity | apply kept_as_decay].
Qed.

End Repeating.

(** ** Distinct names *)

Section DistinctNames.

Context {host : Host}.
Variable AI_BRAIN_LANGUAGE : option string.

Lemma has_entity_iff (graph : KnowledgeGraph) (n : string) :
  has_entity graph n = true <-> In n (entity_names graph).
Proof.
  unfold has_entity, entity_names. rewrite existsb_exists, in_map_iff.
  split; intros (e & A & B).
  - apply String.eqb_eq in B. now exists e.
  - exists e. split; [exact B | now apply String.eqb_eq].
Qed.

Lemma createEntities_names (now : Z) (mgr : Manager) (disk : Disk)
  (batch : list Entity) :
  entity_names
    (saved_graph (snd (createEntities AI_BRAIN_LANGUAGE now mgr disk batch)))
  = (entity_names (loadGraph AI_BRAIN_LANGUAGE now disk)
       ++ map name
            (filter (fun c => negb (has_entity
                                      (loadGraph AI_BRAIN_LANGUAGE now disk)
                                      (name c)))
                    batch))%list.
Proof.
  unfold createEntities. simpl. rewrite saveGraph_names.
  unfold entity_names. simpl. rewrite map_app. f_equal.
  unfold new_entities. now rewrite map_map.
Qed.

(** X21.  [createEntities] keeps the names of the graph distinct when the batch
    does not repeat a name: if no two entities of the graph share a name
    and no two candidates do, no two entities persisted do.  The batch is
    compared with the graph only, not with itself: a candidate given twice
    in one batch, under a name the graph does not have, is created twice. *)
Theorem createEntities_keeps_names_distinct
  (now : Z) (mgr : Manager) (disk : Disk) :
  (forall batch,
     NoDup (entity_names (loadGraph AI_BRAIN_LANGUAGE now disk)) ->
     NoDup (map name batch) ->
     NoDup (entity_names
              (saved_graph
                 (snd (createEntities AI_BRAIN_LANGUAGE now mgr disk batch)))))
  /\ (forall c,
        ~ In (name c) (entity_names (loadGraph AI_BRAIN_LANGUAGE now disk)) ->
        List.length (fst (createEntities AI_BRAIN_LANGUAGE now mgr disk [c; c]))
        = 2%nat
        /\ ~ NoDup
               (entity_names
                  (saved_graph
                     (snd (createEntities AI_BRAIN_LANGUAGE now mgr disk
                                          [c; c]))))).
Proof.
  split.
  - intros batch G B. rewrite createEntities_names.
    apply NoDup_app; [exact G | now apply filter_keeps_distinct |].
    intros n I J. apply in_map_iff in J. destruct J as (c & <- & J).
    apply filter_In in J. destruct J as [_ J].
    apply negb_true_iff in J. apply has_entity_iff in I. congruence.
  - intros c N.
    assert (has_entity (loadGraph AI_BRAIN_LANGUAGE now disk) (name c) = false)
      as H.
    { apply not_true_iff_false. now rewrite has_entity_iff. }
    split.
    + destruct (createEntities_shape AI_BRAIN_LANGUAGE now mgr disk [c; c])
        as [(_ & R & _)|(_ & R & _)]; rewrite R; unfold new_entities; simpl;
        rewrite H; reflexivity.
    + rewrite createEntities_names. simpl. rewrite H. simpl.
      intro D. apply NoDup_app_remove_l in D.
      inversion D as [|? ? X _]; subst. apply X. now left.
Qed.

End DistinctNames.

(** ** Trust is never lowered *)

Lemma trust_not_lowered_refl (e : Entity) : trust_not_lowered e e.
Proof. intro H. split; [exact H | apply Qle_refl]. Qed.

Lemma trust_not_lowered_trans (a b c : Entity) :
  trust_not_lowered a b -> trust_not_lowered b c -> trust_not_lowered a c.
Proof.
  intros H1 H2 Ha. destruct (H1 Ha) as [Hb L1]. destruct (H2 Hb) as [Hc L2].
  split; [exact Hc | now apply Qle_trans with (trust_of b)].
Qed.

Lemma trust_lists_refl (es : list Entity) : Forall2 trust_not_lowered es es.
Proof. induction es; constructor; [apply trust_not_lowered_refl | assumption]. Qed.

Lemma trust_lists_trans (a b c : list Entity) :
  Forall2 trust_not_lowered a b -> Forall2 trust_not_lowered b c ->
  Forall2 trust_not_lowered a c.
Proof.
  intro H. revert c. induction H as [|x y a b R _ IH]; intros c Hc.
  - inversion Hc. constructor.
  - inversion Hc as [|? z ? c' R' Hc']; subst. constructor.
    + now apply trust_not_lowered_trans with y.
    + now apply IH.
Qed.

Lemma same_trust_not_lowered (e e' : Entity) :
  option_map trustLevel (emotionalMetadata e')
  = option_map trustLevel (emotionalMetadata e) ->
  trust_not_lowered e e'.
Proof.
  intros E (m & M & U). unfold trust_in_range, trust_of.
  rewrite M in *. destruct (emotionalMetadata e') as [m'|]; [|discriminate].
  simpl in E. inversion E as [T]. rewrite T.
  split; [now exists m' ; rewrite T | apply Qle_refl].
Qed.

Section Trust.

Context {host : Host}.
Variable AI_BRAIN_LANGUAGE : option string.

Lemma decay_metadata_trust (now : Z) (m : EmotionalMetadata) :
  in_unit (trustLevel m) ->
  in_unit (trustLevel (decay_metadata now m))
  /\ (trustLevel m <= trustLevel (decay_metadata now m))%Q.
Proof.
  intros [T0 T1]. unfold decay_metadata, in_unit.
  destruct (importancePattern m =? "preference"); simpl;
    [repeat split; try assumption; apply Qle_refl|].
  destruct (importancePattern m =? "strengthen"); simpl.
  - repeat split.
    + apply Math_min_glb; nra.
    + apply Math_min_le_l.
    + apply Math_min_glb; nra.
  - destruct (importancePattern m =? "time-based"); simpl;
      [repeat split; try assumption; apply Qle_refl|].
    destruct (importancePattern m =? "self-managed"); simpl;
      repeat split; try assumption; apply Qle_refl.
Qed.

Lemma decay_entity_trust (now : Z) (e : Entity) :
  trust_not_lowered e (decay_entity now e).
Proof.
  intros (m & M & U). unfold trust_in_range, trust_of, decay_entity.
  rewrite M. simpl. destruct (decay_metadata_trust now m U) as [U' L].
  split; [now exists (decay_metadata now m) | exact L].
Qed.

Lemma saveGraph_trust (now : Z) (mgr : Manager) (graph : KnowledgeGraph) :
  Forall2 trust_not_lowered (entities graph)
          (entities (saved_graph (saveGraph now mgr graph))).
Proof.
  destruct (saveGraph_cases now mgr graph) as [(_ & E & _)|(_ & E & _)];
    rewrite E; [apply trust_lists_refl|].
  clear E. induction (entities graph); simpl; [constructor|].
  constructor; [apply decay_entity_trust | assumption].
Qed.

Lemma add_to_entity_trust (now : Z) (o : ObservationRequest) (e : Entity) :
  trust_not_lowered e (fst (add_to_entity now o e)).
Proof.
  intros (m & M & [T0 T1]).
  unfold trust_in_range, trust_of, add_to_entity, in_unit. simpl. rewrite M.
  destruct (filter _ (contents o)); simpl.
  - split; [eexists; split; [reflexivity|]; simpl; now split | apply Qle_refl].
  - split.
    + eexists. split; [reflexivity|]. simpl. split.
      * apply Math_min_glb; lra.
      * apply Math_min_le_l.
    + apply Math_min_glb; lra.
Qed.

Lemma add_to_first_trust (now : Z) (o : ObservationRequest) :
  forall es es' r,
    add_to_first now o es = Some (es', r) ->
    Forall2 trust_not_lowered es es'.
Proof.
  induction es as [|e es IH]; intros es' r E; [discriminate|].
  rewrite add_to_first_cons in E.
  pose proof (add_to_entity_trust now o e) as T.
  destruct (add_to_entity now o e) as [e1 r1]. cbn [fst snd] in *.
  destruct (name e =? entityName o).
  - inversion E; subst. constructor; [exact T | apply trust_lists_refl].
  - destruct (add_to_first now o es) as [[es1 r2]|] eqn:A; [|discriminate].
    inversion E; subst.
    constructor; [apply trust_not_lowered_refl | now apply (IH es1 r)].
Qed.

Lemma add_all_trust (now : Z) (batch : list ObservationRequest) :
  forall es es' rs,
    add_all now batch es = Returned (es', rs) ->
    Forall2 trust_not_lowered es es'.
Proof.
  induction batch as [|o batch IH]; intros es es' rs E; simpl in E.
  - inversion E; subst. apply trust_lists_refl.
  - destruct (add_to_first now o es) as [[es1 r]|] eqn:A; [|discriminate].
    destruct (add_all now batch es1) as [[es2 rs2]|] eqn:B; [|discriminate].
    inversion E; subst. apply trust_lists_trans with es1.
    + now apply (add_to_first_trust now o es es1 r).
    + now apply (IH es1 es' rs2).
Qed.

Lemma delete_from_first_trust (now : Z) (d : Deletion) (es : list Entity) :
  Forall2 trust_not_lowered es (delete_from_first now d es).
Proof.
  induction es as [|e es IH]; simpl; [constructor|].
  destruct (name e =? del_entityName d).
  - constructor; [|apply trust_lists_refl].
    apply same_trust_not_lowered. unfold delete_from_entity. simpl.
    destruct (emotionalMetadata e) eqn:M; simpl; [reflexivity|].
    now rewrite M.
  - constructor; [apply trust_not_lowered_refl | exact IH].
Qed.

Lemma delete_all_trust (now : Z) (deletions : list Deletion) :
  forall es,
    Forall2 trust_not_lowered es
            (fold_left (fun es d => delete_from_first now d es) deletions es).
Proof.
  induction deletions as [|d ds IH]; intro es; simpl; [apply trust_lists_refl|].
  eapply trust_lists_trans; [apply delete_from_first_trust | apply IH].
Qed.

(** X22.  No call lowers a trust level that lies in [0, 1].  Entity by
    entity, an entity whose trust is in [0, 1] is persisted with a trust
    in [0, 1] that is at least what it was: by the decay pass of
    [saveGraph] on any graph, and by [addObservations] when it returns,
    [deleteObservations] and [openNodes] on the graph loaded. *)
Theorem trust_is_never_lowered (now : Z) (mgr : Manager) (disk : Disk) :
  let loaded := entities (loadGraph AI_BRAIN_LANGUAGE now disk) in
  (forall graph,
     Forall2 trust_not_lowered (entities graph)
             (entities (saved_graph (saveGraph now mgr graph))))
  /\ (forall batch results graph effect,
        addObservations AI_BRAIN_LANGUAGE now mgr disk batch
        = (Returned (results, graph), effect) ->
        Forall2 trust_not_lowered loaded (entities graph))
  /\ (forall deletions,
        Forall2 trust_not_lowered loaded
          (entities
             (saved_graph
                (deleteObservations AI_BRAIN_LANGUAGE now mgr disk deletions))))
  /\ (forall names,
        Forall2 trust_not_lowered loaded
          (entities
             (saved_graph
                (snd (openNodes AI_BRAIN_LANGUAGE now mgr disk names))))).
Proof.
  intro loaded. split; [|split; [|split]].
  - intro graph. apply saveGraph_trust.
  - intros batch results graph effect E. unfold addObservations in E.
    destruct (add_all now batch _) as [[es rs]|] eqn:A; [|discriminate].
    inversion E; subst results graph. clear E.
    match goal with |- context [saveGraph now mgr ?g] => set (edited := g) end.
    apply trust_lists_trans with (entities edited);
      [apply (add_all_trust now batch _ _ _ A) | apply saveGraph_trust].
  - intro deletions. unfold deleteObservations.
    match goal with |- context [saveGraph now mgr ?g] => set (edited := g) end.
    apply trust_lists_trans with (entities edited);
      [apply delete_all_trust | apply saveGraph_trust].
  - intro names. unfold openNodes. simpl.
    match goal with |- context [saveGraph now mgr ?g] => set (edited := g) end.
    apply trust_lists_trans with (entities edited); [|apply saveGraph_trust].
    simpl. unfold loaded.
    induction (entities (loadGraph AI_BRAIN_LANGUAGE now disk)) as [|e es IH];
      simpl; [constructor|]. constructor; [|exact IH].
    destruct (Str.mem (name e) names); [|apply trust_not_lowered_refl].
    apply same_trust_not_lowered. unfold stamp_access.
    destruct (emotionalMetadata e) eqn:M; simpl; [reflexivity|].
    now rewrite M.
Qed.

Lemma decay_metadata_fades (now : Z) (m : EmotionalMetadata) :
  pow_contracts ->
  importancePattern m = "time-based" ->
  (lastUpdated m <= now)%Z ->
  (0 < num_or (decayRate m) 0.5 /\ num_or (decayRate m) 0.5 <= 1)%Q ->
  (0 <= emotionalResonance m)%Q ->
  (emotionalResonance (decay_metadata now m) <= Qmax 0.1 (emotionalResonance m))%Q
  /\ (0.1 <= emotionalResonance (decay_metadata now m))%Q
  /\ ((emotionalResonance m <= 0.1)%Q ->
      (emotionalResonance (decay_metadata now m) == 0.1)%Q)
  /\ trustLevel (decay_metadata now m) = trustLevel m.
Proof.
  intros Pow T U [R0 R1] P.
  destruct (decay_metadata_rule now m) as (_ & _ & Rt & _).
  destruct (Rt T) as [E Tr].
  destruct (Pow (num_or (decayRate m) 0.5%Q)
                (hours_between now (lastUpdated m) / 168)%Q R0 R1
                (hours_between_nonneg now (lastUpdated m) U)) as [F0 F1].
  set (f := Math_pow (num_or (decayRate m) 0.5%Q)
                     (hours_between now (lastUpdated m) / 168)%Q) in *.
  assert (emotionalResonance m * f <= emotionalResonance m)%Q as L by nra.
  rewrite E. split; [|split; [|split]].
  - apply Q.max_lub; [apply Q.le_max_l|].
    apply Qle_trans with (emotionalResonance m); [exact L | apply Q.le_max_r].
  - apply Q.le_max_l.
  - intro S. apply Q.max_l. lra.
  - exact Tr.
Qed.

(** X23.  A decay pass makes a time-based entity fade, never glow: when the
    pass of a save runs (an hour or more since the last one), a time-based
    entity with a resonance of at least 0, a decay rate in (0, 1] and a
    last update not after the pass is persisted with a resonance no higher
    than the larger of its resonance and 0.1, and at least 0.1; a resonance
    at or below 0.1 is set to 0.1, so the pass raises it; the trust level
    is kept.  [Math.pow] is assumed to map a base in (0, 1] and an exponent
    of at least 0 into [0, 1]. *)
Theorem time_based_resonance_fades
  (now : Z) (mgr : Manager) (graph : KnowledgeGraph) :
  pow_contracts ->
  (1 <= hours_between now (lastDecayCheck mgr))%Q ->
  Forall2 (fades now) (entities graph)
          (entities (saved_graph (saveGraph now mgr graph))).
Proof.
  intros Pow H.
  destruct (saveGraph_cases now mgr graph) as [(H' & _)|(_ & E & _)].
  { exfalso. apply (Qlt_not_le _ _ H' H). }
  rewrite E. clear E.
  induction (entities graph) as [|e es IH]; simpl; [constructor|].
  constructor; [|exact IH].
  intros m M T U R P. exists (decay_metadata now m). split.
  - unfold decay_entity. now rewrite M.
  - now apply decay_metadata_fades.
Qed.

End Trust.

(** * The tool handler of [index.js] *)

Lemma add_all_first_missing (now : Z) (before : list ObservationRequest)
  (o : ObservationRequest) (after : list ObservationRequest) :
  forall es,
    (forall o', In o' before -> target (entityName o') es <> None) ->
    target (entityName o) es = None ->
    add_all now (before ++ o :: after) es
    = Thrown (UserPreferenceError
                ("Entity with name " ++ entityName o ++ " not found")).
Proof.
  induction before as [|b before IH]; intros es K M; simpl.
  - apply (proj2 (add_to_first_None now o es)) in M. now rewrite M.
  - destruct (add_to_first now b es) as [[es1 r]|] eqn:A.
    + destruct (add_to_first_Some now b es es1 r A) as [G _].
      rewrite (IH es1); [reflexivity | |].
      * intros o' I T. apply (K o' (or_intror I)).
        destruct (target (entityName o') es) as [e0|] eqn:T0; [|reflexivity].
        destruct (grown_target (entityName o') es es1 G e0 T0) as (e & Te & _).
        congruence.
      * destruct (target (entityName o) es1) as [e1|] eqn:T1; [|reflexivity].
        exfalso. clear - G M T1. unfold target in *.
        induction G as [|x y a c [N _] _ IH]; simpl in *; [discriminate|].
        rewrite N in T1. destruct (name x =? entityName o); [discriminate|].
        now apply IH.
    + exfalso. apply add_to_first_None in A.
      now apply (K b (or_introl eq_refl)).
Qed.

Ltac compare_names :=
  repeat match goal with
         | |- context [String.eqb ?a ?b] =>
             let v := eval vm_compute in (String.eqb a b) in
             change (String.eqb a b) with v
         end;
  cbv beta iota.

Section Handler.

Context {host : Host}.
Variable AI_BRAIN_LANGUAGE : option string.
Variable JSON_pretty : Payload -> string.

Lemma callTool_unlisted (now : Z) (mgr : Manager) (disk : Disk)
  (tool : string) (args : ToolArguments) :
  ~ In tool listed_tools ->
  callTool AI_BRAIN_LANGUAGE JSON_pretty now mgr disk tool (Some args)
  = {| reply := text_reply ("Unexpected error: " ++ "Unknown tool: " ++ tool);
       handled_disk := disk; handled_manager := mgr |}.
Proof.
  intro N. unfold callTool.
  repeat match goal with
         | |- context [tool =? ?s] =>
             replace (tool =? s) with false
               by (symmetry; apply String.eqb_neq; intro; subst;
                   apply N; simpl; tauto)
         end.
  reflexivity.
Qed.

(** X24.  The handler throws only for a call without arguments, and then for
    every tool, also for [read_graph] and [get_user_profile] whose schemas
    have no property: the error says `No arguments provided for tool: '
    and the name, and the store and the manager are left as they were.
    With arguments the handler always answers with a text, whatever the
    tool and whatever the manager does; for a name that the server does not
    list, the text is `Unexpected error: Unknown tool: ' and the name, and
    the store and the manager are left as they were. *)
Theorem callTool_throws_only_without_arguments
  (now : Z) (mgr : Manager) (disk : Disk) (tool : string)
  (args : option ToolArguments) :
  let handled := callTool AI_BRAIN_LANGUAGE JSON_pretty now mgr disk tool args in
  ((exists message, reply handled = raised message) <-> args = None)
  /\ (args = None ->
      handled = {| reply := raised ("No arguments provided for tool: " ++ tool);
                   handled_disk := disk; handled_manager := mgr |})
  /\ (args <> None ->
      ~ In tool listed_tools ->
      handled
      = {| reply := text_reply ("Unexpected error: Unknown tool: " ++ tool);
           handled_disk := disk; handled_manager := mgr |}).
Proof.
  intro handled. unfold handled. destruct args as [args|].
  - split; [|split; [discriminate|]];
      [|intros _ N; now apply callTool_unlisted].
    split; [|discriminate]. intros [message R]. exfalso. revert R.
    unfold callTool.
    destruct (createEntities AI_BRAIN_LANGUAGE now mgr disk (arg_entities args)).
    destruct (createRelations AI_BRAIN_LANGUAGE now mgr disk (arg_relations args)).
    destruct (addObservations AI_BRAIN_LANGUAGE now mgr disk
                (arg_observations args)) as [[[? ?]|?] ?].
    all: destruct (deleteEntities AI_BRAIN_LANGUAGE now mgr disk
                     (arg_entityNames args)).
    all: destruct (openNodes AI_BRAIN_LANGUAGE now mgr disk (arg_names args)).
    all: destruct (getUserProfile AI_BRAIN_LANGUAGE now disk).
    all: repeat match goal with
                | |- context [String.eqb ?t ?s] => destruct (String.eqb t s)
                end; simpl; discriminate.
  - split; [|split; [reflexivity|]]; [|intro C; now contradiction C].
    split; [reflexivity|]. intros _. now eexists.
Qed.

(** X26.  [add_observations] on an existing store, with a batch holding a
    request for an entity that the graph does not have: the reply is a
    text, `User Preference Error: Entity with name N not found', where N
    is the name asked for by the first such request of the batch; the
    store and the manager are left as they were, so the requests before
    it, which named entities of the graph, have added nothing to the
    store. *)
Theorem callTool_add_observations_unknown_entity
  (now : Z) (mgr : Manager) (data : string) (args : ToolArguments)
  (before : list ObservationRequest) (o : ObservationRequest)
  (after : list ObservationRequest) :
  arg_observations args = (before ++ o :: after)%list ->
  (forall o', In o' before ->
     In (entityName o')
        (entity_names (loadGraph AI_BRAIN_LANGUAGE now (Some data)))) ->
  ~ In (entityName o)
       (entity_names (loadGraph AI_BRAIN_LANGUAGE now (Some data))) ->
  callTool AI_BRAIN_LANGUAGE JSON_pretty now mgr (Some data) "add_observations"
           (Some args)
  = {| reply := text_reply ("User Preference Error: Entity with name "
                            ++ entityName o ++ " not found");
       handled_disk := Some data; handled_manager := mgr |}.
Proof.
  intros A K M. unfold callTool. compare_names.
  unfold addObservations. rewrite A.
  rewrite (add_all_first_missing now before o after).
  - reflexivity.
  - intros o' I T. apply K in I. apply has_entity_iff in I.
    apply has_entity_false in T. congruence.
  - apply has_entity_false. apply not_true_iff_false.
    now rewrite has_entity_iff.
Qed.

End Handler.

(** * [types.js] *)

Lemma num_or_nonzero (x : option Q) (d : Q) :
  ~ (d == 0)%Q -> ~ (num_or x d == 0)%Q.
Proof.
  intro D. unfold num_or. destruct x as [v|]; [|exact D].
  destruct (Qeq_bool v 0) eqn:E; [exact D|].
  now apply Qeq_bool_neq in E.
Qed.

Lemma num_or_given (v d : Q) : ~ (v == 0)%Q -> num_or (Some v) d = v.
Proof.
  intro N. unfold num_or. destruct (Qeq_bool v 0) eqn:E; [|reflexivity].
  apply Qeq_bool_iff in E. contradiction.
Qed.

Lemma num_or_in_unit (x : option Q) :
  (forall v, x = Some v -> in_unit v) -> in_unit (num_or x 0.5).
Proof.
  intro H. unfold num_or, in_unit. destruct x as [v|]; [|lra].
  destruct (Qeq_bool v 0); [lra | now apply H].
Qed.

(** X27.  [createEmotionalMetadata] fills in with [||], which takes 0 and the
    empty string for absent: the metadata it builds never has a trust
    level or a resonance of 0 nor an empty pattern; a trust level or a
    resonance given as 0 comes out as 0.5, like one that is not given, and
    any other value given is kept; values given within [0, 1] give
    metadata within range; both time stamps are the instant of the
    call. *)
Theorem createEmotionalMetadata_fills_falsy (now : Z) (options : MetadataOptions) :
  let m := createEmotionalMetadata now options in
  ~ (trustLevel m == 0)%Q
  /\ ~ (emotionalResonance m == 0)%Q
  /\ importancePattern m <> ""
  /\ (forall t, opt_trustLevel options = Some t ->
        (~ (t == 0)%Q -> trustLevel m = t)
        /\ ((t == 0)%Q -> trustLevel m = 0.5%Q))
  /\ (forall r, opt_emotionalResonance options = Some r ->
        (~ (r == 0)%Q -> emotionalResonance m = r)
        /\ ((r == 0)%Q -> emotionalResonance m = 0.5%Q))
  /\ ((forall t, opt_trustLevel options = Some t -> in_unit t) ->
      (forall r, opt_emotionalResonance options = Some r -> in_unit r) ->
      scores_in_range m)
  /\ lastUpdated m = now
  /\ createdAt m = now.
Proof.
  intro m. unfold m, createEmotionalMetadata. simpl.
  split; [apply num_or_nonzero; lra|].
  split; [apply num_or_nonzero; lra|].
  split; [|split; [|split; [|split]]].
  - unfold str_or. destruct (opt_importancePattern options) as [s|];
      [|discriminate].
    destruct (s =? "") eqn:E; [discriminate | now apply String.eqb_neq].
  - intros t ->. split; [apply num_or_given|].
    intro Z. unfold num_or. apply Qeq_bool_iff in Z. now rewrite Z.
  - intros r ->. split; [apply num_or_given|].
    intro Z. unfold num_or. apply Qeq_bool_iff in Z. now rewrite Z.
  - intros T R. split; now apply num_or_in_unit.
  - now split.
Qed.

(** * Search without a query *)

Lemma includes_empty (s : string) : Str.includes s "" = true.
Proof. apply includes_iff. exists "", s. reflexivity. Qed.

Lemma score_of_empty_query (e : Entity) :
  (forall m, emotionalMetadata e = Some m ->
             (0 <= trustLevel m /\ 0 <= emotionalResonance m)%Q) ->
  (15 <= score_of "" e)%Q.
Proof.
  intro H. unfold score_of. simpl Str.toLowerCase. rewrite !includes_empty.
  destruct (emotionalMetadata e) as [m|].
  - destruct (H m eq_refl).
    destruct (existsb _ (observations e)),
             (isUserPreference m), (accessibilityFlag m); lra.
  - destruct (existsb _ (observations e)); lra.
Qed.

Section EmptyQuery.

Context {host : Host}.
Variable AI_BRAIN_LANGUAGE : option string.

(** X29.  [searchNodes] with the empty query: every name and every type
    contains the empty string, so every entity scores at least 15 and is
    returned, and then every relation that joins entities of the graph is
    returned too; the empty query lists the graph, ranked.  Trust and
    resonance are taken non-negative, as the data model has them. *)
Theorem search_empty_query_returns_all (now : Z) (disk : Disk) :
  nonnegative_scores (loadGraph AI_BRAIN_LANGUAGE now disk) ->
  Permutation (entities (loadGraph AI_BRAIN_LANGUAGE now disk))
              (entities (searchNodes AI_BRAIN_LANGUAGE now disk ""))
  /\ (forall e, In e (entities (loadGraph AI_BRAIN_LANGUAGE now disk)) ->
                (15 <= score_of "" e)%Q)
  /\ (well_linked (loadGraph AI_BRAIN_LANGUAGE now disk) ->
      relations (searchNodes AI_BRAIN_LANGUAGE now disk "")
      = relations (loadGraph AI_BRAIN_LANGUAGE now disk)).
Proof.
  intro N.
  assert (forall e, In e (entities (loadGraph AI_BRAIN_LANGUAGE now disk)) ->
                    (15 <= score_of "" e)%Q) as S.
  { intros e I. apply score_of_empty_query. intros m M. now apply (N e m). }
  assert (Permutation (entities (loadGraph AI_BRAIN_LANGUAGE now disk))
                      (entities (searchNodes AI_BRAIN_LANGUAGE now disk ""))) as P.
  { apply Permutation_sym.
    eapply Permutation_trans; [apply searchNodes_perm|].
    rewrite filter_all; [apply Permutation_refl|].
    intros e I. apply Qlt_bool_iff. specialize (S e I). lra. }
  split; [exact P|]. split; [exact S|].
  intro W. unfold searchNodes at 1. simpl relations.
  apply filter_all. intros r I. destruct (W r I) as [A B].
  apply andb_true_iff. rewrite !mem_iff.
  change (In (from r)
             (entity_names (searchNodes AI_BRAIN_LANGUAGE now disk ""))
          /\ In (to r)
                (entity_names (searchNodes AI_BRAIN_LANGUAGE now disk ""))).
  unfold entity_names in *.
  split; eapply Permutation_in;
    try (apply Permutation_map; exact P); assumption.
Qed.

End EmptyQuery.

(** * The profile through the store *)

Section ProfileThroughStore.

Context {host : Host}.
Variable AI_BRAIN_LANGUAGE : option string.

Lemma load_entities_metadata (now : Z) (es : list Entity) :
  forall graph,
    metadata (fold_left (load_item now) (map entity_item es) graph)
    = metadata graph.
Proof.
  induction es as [|e es IH]; intro graph; simpl; [reflexivity|].
  now rewrite IH.
Qed.

Lemma load_after_save_profile (now now' : Z) (mgr : Manager)
  (graph : KnowledgeGraph) :
  Forall faithful_record (store_records (saved_graph (saveGraph now mgr graph))) ->
  gm_userProfile (metadata graph) <> None ->
  gm_userProfile
    (metadata (loadGraph AI_BRAIN_LANGUAGE now'
                 (saved_disk (saveGraph now mgr graph))))
  = gm_userProfile (metadata graph).
Proof.
  intros F N. rewrite saveGraph_disk. unfold loadGraph.
  rewrite store_lines_of_records; [|discriminate | exact F].
  rewrite load_records by exact F.
  unfold store_records. simpl fold_left. rewrite fold_left_app.
  rewrite load_relations. simpl metadata.
  rewrite load_entities_metadata. simpl.
  rewrite saveGraph_profile.
  destruct (gm_userProfile (metadata graph)); [reflexivity | contradiction].
Qed.

(** X30.  [getUserProfile] after [createEntities], through the store: it
    returns the profile that [createEntities] inferred, that of the graph
    it loaded updated with the entities it created, and the
    recommendations for that profile; so once an entity created names a
    shell, the shell is the one of the last such entity and is no longer
    asked for.  The store is assumed to read back what [createEntities]
    wrote. *)
Theorem getUserProfile_after_createEntities
  (t1 t2 : Z) (mgr : Manager) (disk : Disk) (batch : list Entity) :
  let graph := loadGraph AI_BRAIN_LANGUAGE t1 disk in
  let created := fst (createEntities AI_BRAIN_LANGUAGE t1 mgr disk batch) in
  let first := snd (createEntities AI_BRAIN_LANGUAGE t1 mgr disk batch) in
  let inferred := updateUserProfileFromEntities graph created in
  Forall faithful_record (store_records (saved_graph first)) ->
  getUserProfile AI_BRAIN_LANGUAGE t2 (saved_disk first)
  = (Some (profile_of inferred), generateRecommendations inferred)
  /\ (forall before e after s,
        created = (before ++ e :: after)%list ->
        names_shell e s ->
        Forall names_no_shell after ->
        exists p,
          fst (getUserProfile AI_BRAIN_LANGUAGE t2 (saved_disk first)) = Some p
          /\ preferredShell p = s
          /\ ~ In shell_recommendation
                  (snd (getUserProfile AI_BRAIN_LANGUAGE t2 (saved_disk first)))).
Proof.
  intros graph created first inferred F.
  pose proof (createEntities_profile AI_BRAIN_LANGUAGE t1 mgr disk batch) as P.
  fold graph created first inferred in P.
  assert (gm_userProfile
            (metadata (loadGraph AI_BRAIN_LANGUAGE t2 (saved_disk first)))
          = Some (profile_of inferred)) as L.
  { rewrite <- P. unfold first, createEntities in *. simpl in *.
    match type of F with
    | context [saveGraph t1 mgr ?g] =>
        rewrite (load_after_save_profile t1 t2 mgr g F);
        [now rewrite saveGraph_profile | simpl; discriminate]
    end. }
  assert (getUserProfile AI_BRAIN_LANGUAGE t2 (saved_disk first)
          = (Some (profile_of inferred), generateRecommendations inferred)) as G.
  { unfold getUserProfile. rewrite L. f_equal.
    unfold generateRecommendations. rewrite L. reflexivity. }
  split; [exact G|].
  intros before e after s C S N. rewrite G. simpl.
  exists (profile_of inferred). split; [reflexivity|].
  unfold inferred. rewrite C.
  split; [now apply updated_shell | now apply (shell_not_asked _ _ e _ s)].
Qed.

End ProfileThroughStore.

(** * The theorems at work on example stores *)

Ltac faithful_records :=
  vm_compute store_records;
  repeat (apply Forall_cons; [repeat split; vm_compute; reflexivity|]);
  apply Forall_nil.

Ltac distinct_strings :=
  repeat (apply NoDup_cons; [simpl; intuition discriminate|]);
  apply NoDup_nil.

(** On the store of the tests: a relation between Dave's and Sarah's
    entities is created and then deleted, and the relations are those of
    the store again. *)
Lemma create_then_delete_relations_witness :
  relations
    (saved_graph
       (deleteRelations (host := reference_host) None (minutes 45)
          (saved_manager
             (snd (createRelations (host := reference_host) None (minutes 30)
                     fresh_manager test_store [working_relation])))
          (saved_disk
             (snd (createRelations (host := reference_host) None (minutes 30)
                     fresh_manager test_store [working_relation])))
          [working_relation]))
  = relations (loadGraph (host := reference_host) None (minutes 30) test_store).
Proof.
  refine (proj2 (create_then_delete_relations (host := reference_host) None
                   (minutes 30) (minutes 45) fresh_manager test_store
                   [working_relation] _) _).
  - faithful_records.
  - intros r I M. vm_compute in I. destruct I as [<-|[]].
    vm_compute in M. destruct M as [M|[]]. discriminate.
Defined.

(** On the store of the tests, whose one relation joins the two bootstrap
    entities: deleting the profile entity leaves no relation dangling. *)
Lemma mutations_keep_links_witness :
  well_linked
    (saved_graph
       (snd (deleteEntities (host := reference_host) None (minutes 30)
               fresh_manager test_store ["User_Profile"]))).
Proof.
  refine (proj1 (mutations_keep_links (host := reference_host) None (minutes 30)
                   fresh_manager test_store _) ["User_Profile"]).
  intros r I. vm_compute in I. destruct I as [<-|[]].
  vm_compute. auto.
Defined.

(** On a store of one entity: a request with one string that the entity
    holds and one that it does not. *)
Lemma addObservations_appends_reported_witness :
  grown (entities (loadGraph (host := reference_host) None (minutes 30)
                             trusted_store))
        (entities (returned_graph shell_added))
  /\ (forall n e0,
        target n (entities (loadGraph (host := reference_host) None (minutes 30)
                                      trusted_store)) = Some e0 ->
        exists e,
          target n (entities (returned_graph shell_added)) = Some e
          /\ observations e
             = (observations e0
                  ++ added_to n (returned_results shell_added))%list)
  /\ (forall o, In o [shell_request] ->
        exists e,
          target (entityName o) (entities (returned_graph shell_added)) = Some e
          /\ incl (contents o) (observations e))
  /\ relations (returned_graph shell_added)
     = relations (loadGraph (host := reference_host) None (minutes 30)
                            trusted_store).
Proof.
  apply (addObservations_appends_reported (host := reference_host) None
           (minutes 30) fresh_manager trusted_store [shell_request]
           (returned_results shell_added) (returned_graph shell_added)
           (snd shell_added)).
  vm_compute. reflexivity.
Defined.

Lemma addObservations_keeps_observations_distinct_witness :
  Forall distinct_observations (entities (returned_graph shell_added)).
Proof.
  apply (addObservations_keeps_observations_distinct (host := reference_host)
           None (minutes 30) fresh_manager trusted_store [shell_request]
           (returned_results shell_added) (returned_graph shell_added)
           (snd shell_added)).
  - vm_compute. reflexivity.
  - vm_compute entities. apply Forall_cons; [|apply Forall_nil].
    unfold distinct_observations. simpl. distinct_strings.
  - apply Forall_cons; [|apply Forall_nil]. simpl. distinct_strings.
Defined.

(** The same request a quarter of an hour later adds nothing. *)
Lemma addObservations_again_adds_nothing_witness :
  exists results' graph' effect',
    addObservations (host := reference_host) None (minutes 45)
                    (manager_after (snd shell_added))
                    (disk_after (snd shell_added)) [shell_request]
    = (Returned (results', graph'), effect')
    /\ Forall (fun r => addedObservations r = []) results'
    /\ List.length results' = List.length [shell_request]
    /\ Forall2 kept_as (entities (returned_graph shell_added)) (entities graph').
Proof.
  apply (addObservations_again_adds_nothing (host := reference_host) None
           (minutes 30) (minutes 45) fresh_manager trusted_store [shell_request]
           (returned_results shell_added) (returned_graph shell_added)
           (snd shell_added)).
  - vm_compute. reflexivity.
  - faithful_records.
Defined.

(** On the store of the tests: two candidates with metadata of their own
    are created, and the same batch a quarter of an hour later creates
    nothing. *)
Lemma createEntities_again_creates_nothing_witness :
  fst (createEntities (host := reference_host) None (minutes 45)
         (saved_manager
            (snd (createEntities (host := reference_host) None (minutes 30)
                    fresh_manager test_store [eve_shell; eve_editor])))
         (saved_disk
            (snd (createEntities (host := reference_host) None (minutes 30)
                    fresh_manager test_store [eve_shell; eve_editor])))
         [eve_shell; eve_editor])
  = [].
Proof.
  refine (proj1 (createEntities_again_creates_nothing (host := reference_host)
                   None (minutes 30) (minutes 45) fresh_manager test_store
                   [eve_shell; eve_editor] _)).
  faithful_records.
Defined.

(** One week after the last update, with the decay rate 0.5: the
    time-based entity of the four goes from 0.5 to 0.25. *)
Lemma time_based_resonance_fades_witness :
  Forall2 (fades (host := reference_host) one_week)
          (entities four_patterns)
          (entities (saved_graph (saveGraph (host := reference_host) one_week
                                            fresh_manager four_patterns))).
Proof.
  apply (time_based_resonance_fades (host := reference_host) one_week
           fresh_manager four_patterns).
  - apply pow_floor_contracts.
  - vm_compute. discriminate.
Defined.

(** Test 8 of [test/test-memory.js] through the handler: the second
    request names an entity that the store does not have. *)
Lemma callTool_add_observations_unknown_entity_witness :
  callTool (host := reference_host) None plain_pretty 0 fresh_manager
           (Some (text_of test_store)) "add_observations"
           (Some failing_arguments)
  = {| reply := text_reply
                  "User Preference Error: Entity with name NonExistentEntity not found";
       handled_disk := Some (text_of test_store);
       handled_manager := fresh_manager |}.
Proof.
  apply (callTool_add_observations_unknown_entity (host := reference_host) None
           plain_pretty 0 fresh_manager (text_of test_store) failing_arguments
           [known_request] unknown_request []).
  - reflexivity.
  - intros o' [<-|[]]. vm_compute. auto.
  - intro I. vm_compute in I. intuition discriminate.
Defined.

(** The empty query on the store of the tests lists its four entities. *)
Lemma search_empty_query_returns_all_witness :
  Permutation
    (entities (loadGraph (host := reference_host) None 0 test_store))
    (entities (searchNodes (host := reference_host) None 0 test_store "")).
Proof.
  refine (proj1 (search_empty_query_returns_all (host := reference_host) None 0
                   test_store _)).
  apply test_store_nonnegative.
Defined.

Lemma eve_shell_names_bash : names_shell eve_shell "bash".
Proof.
  right. left. split; [reflexivity|]. split.
  - apply mentions_iff. vm_compute. reflexivity.
  - apply mentions_false_iff. vm_compute. reflexivity.
Qed.

Lemma eve_editor_names_no_shell : Forall names_no_shell [eve_editor].
Proof.
  apply Forall_cons; [|apply Forall_nil].
  repeat split; apply mentions_false_iff; vm_compute; reflexivity.
Qed.

(** On the store of the tests, whose profile has the shell zsh: after the
    two candidates are created, the profile read back has the shell bash,
    and the shell is not asked for. *)
Lemma getUserProfile_after_createEntities_witness :
  exists p,
    fst (getUserProfile (host := reference_host) None (minutes 45)
           (saved_disk
              (snd (createEntities (host := reference_host) None (minutes 30)
                      fresh_manager test_store [eve_shell; eve_editor]))))
    = Some p
    /\ preferredShell p = "bash"
    /\ ~ In shell_recommendation
            (snd (getUserProfile (host := reference_host) None (minutes 45)
                    (saved_disk
                       (snd (createEntities (host := reference_host) None
                               (minutes 30) fresh_manager test_store
                               [eve_shell; eve_editor]))))).
Proof.
  refine (proj2 (getUserProfile_after_createEntities (host := reference_host)
                   None (minutes 30) (minutes 45) fresh_manager test_store
                   [eve_shell; eve_editor] _)
                [] eve_shell [eve_editor] "bash" _ _ _).
  - faithful_records.
  - vm_compute. reflexivity.
  - apply eve_shell_names_bash.
  - apply eve_editor_names_no_shell.
Defined.

(** The last entity that names a shell decides: bash, after the zsh of the
    store of the tests. *)
Lemma shell_last_mention_wins_witness :
  preferredShell
    (profile_of
       (updateUserProfileFromEntities
          (loadGraph (host := reference_host) None 0 test_store)
          [eve_shell; eve_editor]))
  = "bash".
Proof.
  refine (proj2 (shell_last_mention_wins
                   (loadGraph (host := reference_host) None 0 test_store))
                [] eve_shell [eve_editor] "bash" _ _).
  - apply eve_shell_names_bash.
  - apply eve_editor_names_no_shell.
Defined.

Lemma createRelations_keeps_triples_distinct_witness :
  distinct_triples
    (relations
       (saved_graph
          (snd (createRelations (host := reference_host) None (minutes 30)
                  fresh_manager test_store [working_relation])))).
Proof.
  refine (proj1 (createRelations_keeps_triples_distinct
                   (host := reference_host) None (minutes 30) fresh_manager
                   test_store)
                [working_relation] _ _).
  - unfold distinct_triples. vm_compute map. distinct_strings.
  - unfold distinct_triples. vm_compute map. distinct_strings.
Defined.

Lemma createEntities_keeps_names_distinct_witness :
  NoDup
    (entity_names
       (saved_graph
          (snd (createEntities (host := reference_host) None (minutes 30)
                  fresh_manager test_store [eve_shell; eve_editor])))).
Proof.
  refine (proj1 (createEntities_keeps_names_distinct
                   (host := reference_host) None (minutes 30) fresh_manager
                   test_store)
                [eve_shell; eve_editor] _ _).
  - vm_compute entity_names. distinct_strings.
  - simpl. distinct_strings.
Defined.

(** * The search as the engine computes it *)

Lemma adds_if_bool {engine : Engine} (b : bool) (P : Prop) (points s : Q) :
  (b = true <-> P) ->
  adds_if P points s (if b then to_double (s + points) else s).
Proof.
  intro H. destruct b; [left | right]; (split; [|reflexivity]).
  - now apply H.
  - intro p. apply H in p. discriminate.
Qed.

Lemma includes_folded_iff {engine : Engine} (s q : string) :
  Str.includes (toLowerCase s) (toLowerCase q) = true <-> contains_folded s q.
Proof. apply includes_iff. Qed.

Lemma some_observation_folded {engine : Engine} (query : string) (e : Entity) :
  existsb (fun o => Str.includes (toLowerCase o) (toLowerCase query))
          (observations e) = true
  <-> exists o, In o (observations e) /\ contains_folded o query.
Proof.
  rewrite existsb_exists.
  split; intros (o & I & H); exists o; (split; [exact I|]);
    now apply includes_folded_iff.
Qed.

(** The score is the chain of rounded additions of the source. *)
Lemma score_as_computed_chain {engine : Engine} (query : string) (e : Entity)
  (m : EmotionalMetadata) :
  emotionalMetadata e = Some m ->
  is_computed_score query e m (score_as_computed query e).
Proof.
  intro M. unfold score_as_computed. rewrite M. cbv zeta.
  eexists _, _, _, _, _.
  split; [apply adds_if_bool, includes_folded_iff|].
  split; [apply adds_if_bool, includes_folded_iff|].
  split; [apply adds_if_bool, some_observation_folded|].
  split; [apply adds_if_bool; reflexivity|].
  split; [apply adds_if_bool; reflexivity|].
  reflexivity.
Qed.

(** Without rounding the chain is the sum of its terms. *)
Lemma score_as_computed_plain {engine : Engine} (query : string) (e : Entity)
  (m : EmotionalMetadata) :
  (forall x : Q, to_double x = x) ->
  emotionalMetadata e = Some m ->
  is_plain_sum query e m (score_as_computed query e).
Proof.
  intros X M. unfold score_as_computed. rewrite M, !X. cbv zeta.
  exists (if Str.includes (toLowerCase (name e)) (toLowerCase query)
          then 10 else 0)%Q,
         (if Str.includes (toLowerCase (entityType e)) (toLowerCase query)
          then 5 else 0)%Q,
         (if existsb (fun o => Str.includes (toLowerCase o) (toLowerCase query))
                     (observations e)
          then 3 else 0)%Q.
  split; [apply points_if_bool, includes_folded_iff|].
  split; [apply points_if_bool, includes_folded_iff|].
  split; [apply points_if_bool, some_observation_folded|].
  unfold flag_points.
  destruct (Str.includes (toLowerCase (name e)) _),
           (Str.includes (toLowerCase (entityType e)) _),
           (existsb _ (observations e)),
           (isUserPreference m), (accessibilityFlag m); lra.
Qed.

(** With data in range and a rounding that keeps the sign, no score is
    negative. *)
Lemma score_as_computed_nonneg {engine : Engine} (query : string) (e : Entity) :
  keeps_sign ->
  (forall m, emotionalMetadata e = Some m ->
             (0 <= trustLevel m /\ 0 <= emotionalResonance m)%Q) ->
  (0 <= score_as_computed query e)%Q.
Proof.
  intros K H. unfold score_as_computed. cbv zeta.
  assert (forall s p : Q, (0 <= s)%Q -> (0 <= p)%Q -> (0 <= to_double (s + p))%Q)
    as A by (intros s p S P; apply K; lra).
  assert (forall (b : bool) (s p : Q), (0 <= s)%Q -> (0 <= p)%Q ->
            (0 <= (if b then to_double (s + p) else s))%Q)
    as B by (intros [|] s p S P; [now apply A | exact S]).
  assert (forall x : Q, (0 <= x)%Q -> (0 <= to_double (x * 2))%Q)
    as C by (intros x X; apply K; lra).
  destruct (emotionalMetadata e) as [m|].
  - destruct (H m eq_refl) as [T R].
    apply A; [|now apply C].
    apply B; [|lra]. apply B; [|lra].
    apply A; [|now apply C].
    apply B; [|lra]. apply B; [|lra]. apply B; lra.
  - apply B; [|lra]. apply B; [|lra]. apply B; lra.
Qed.

(** *** Scored entities, for any scoring *)

Lemma carries_all (score : Entity -> Q) (es : list Entity) :
  Forall (carries score) (map (fun e => (e, score e)) es).
Proof. apply Forall_map, Forall_forall. now intros e _. Qed.

Lemma carries_kept (score : Entity -> Q) (keep : Entity * Q -> bool)
  (es : list Entity) :
  Forall (carries score)
         (sort_scored (filter keep (map (fun e => (e, score e)) es))).
Proof.
  apply (Permutation_Forall (sort_scored_perm _)).
  apply incl_Forall with (l1 := map (fun e => (e, score e)) es);
    [apply incl_filter | apply carries_all].
Qed.

Lemma entities_of_kept (score : Entity -> Q) (f : Q -> bool)
  (l : list (Entity * Q)) :
  Forall (carries score) l ->
  map fst (filter (fun p => f (snd p)) l)
  = filter (fun e => f (score e)) (map fst l).
Proof.
  induction 1 as [|p l Hp _ IH]; [reflexivity|].
  simpl. rewrite <- Hp. destruct (f (snd p)); simpl; now rewrite IH.
Qed.

Lemma entities_of_scored (score : Entity -> Q) (es : list Entity) :
  map fst (map (fun e => (e, score e)) es) = es.
Proof. rewrite map_map. simpl. apply map_id. Qed.

Lemma entities_of_sorted (score : Entity -> Q) (l : list (Entity * Q)) :
  Forall (carries score) l ->
  StronglySorted scored_desc l ->
  StronglySorted (fun a b => (score b <= score a)%Q) (map fst l).
Proof.
  intros C S. induction S as [|p l S IH F]; simpl; [constructor|].
  inversion C as [|? ? Cp Cl]; subst.
  constructor; [now apply IH|].
  apply Forall_map. rewrite Forall_forall in *.
  intros q I. unfold carries in *.
  rewrite <- Cp, <- (Cl q I). now apply F.
Qed.

Section SearchAsComputedProperties.

Context {host : Host} {engine : Engine}.
Variable AI_BRAIN_LANGUAGE : option string.

Lemma searchNodes_as_computed_entities (now : Z) (disk : Disk) (query : string) :
  entities (searchNodes_as_computed AI_BRAIN_LANGUAGE now disk query)
  = map fst
      (sort_scored
         (filter (fun p => Qlt_bool 0 (snd p))
                 (map (fun e => (e, score_as_computed query e))
                      (entities (loadGraph AI_BRAIN_LANGUAGE now disk))))).
Proof. reflexivity. Qed.

Lemma searchNodes_as_computed_perm (now : Z) (disk : Disk) (query : string) :
  Permutation
    (entities (searchNodes_as_computed AI_BRAIN_LANGUAGE now disk query))
    (filter (positive_score query)
            (entities (loadGraph AI_BRAIN_LANGUAGE now disk))).
Proof.
  rewrite searchNodes_as_computed_entities.
  rewrite <- sort_scored_perm.
  rewrite (entities_of_kept (score_as_computed query) (Qlt_bool 0))
    by apply carries_all.
  now rewrite entities_of_scored.
Qed.

Lemma searchNodes_as_computed_In (now : Z) (disk : Disk) (query : string)
  (e : Entity) :
  In e (entities (searchNodes_as_computed AI_BRAIN_LANGUAGE now disk query))
  <-> In e (entities (loadGraph AI_BRAIN_LANGUAGE now disk))
      /\ (0 < score_as_computed query e)%Q.
Proof.
  split.
  - intro I.
    apply (Permutation_in _ (searchNodes_as_computed_perm now disk query)) in I.
    apply filter_In in I. unfold positive_score in I.
    now rewrite Qlt_bool_iff in I.
  - intros [I P].
    apply (Permutation_in _
             (Permutation_sym (searchNodes_as_computed_perm now disk query))).
    apply filter_In. unfold positive_score. now rewrite Qlt_bool_iff.
Qed.


(** Without rounding, and folding the ASCII letters, the search is
    [searchNodes]. *)
Lemma searchNodes_exact (now : Z) (disk : Disk) (query : string) :
  searchNodes_as_computed (engine := exact_engine) AI_BRAIN_LANGUAGE now disk query
  = searchNodes AI_BRAIN_LANGUAGE now disk query.
Proof. reflexivity. Qed.

End SearchAsComputedProperties.

(** The two entities of [tie_store] score 0.6 and 0.6000000000000001 in
    doubles: the second is returned first.  In exact arithmetic both score
    3/5 and keep the order of the store. *)
Example search_tie_in_doubles :
  map (score_as_computed (engine := ieee_engine) "zsh")
      (entities (loadGraph (host := reference_host) None 0 tie_store))
  = [ (5404319552844595 # 9007199254740992)%Q;
      (1351079888211149 # 2251799813685248)%Q ]
  /\ map name (entities (searchNodes_as_computed (host := reference_host)
                           (engine := ieee_engine) None 0 tie_store "zsh"))
     = [ "second"; "first" ]
  /\ map name (entities (searchNodes_as_computed (host := reference_host)
                           (engine := exact_engine) None 0 tie_store "zsh"))
     = [ "first"; "second" ].
Proof. vm_compute. repeat split. Qed.
Lemma round_half_even_nonneg (n d : Z) :
  (0 <= n)%Z -> (0 < d)%Z -> (0 <= round_half_even n d)%Z.
Proof.
  intros N D. unfold round_half_even.
  pose proof (Z.div_pos n d N D) as P.
  destruct (2 * (n mod d) ?= d)%Z; [destruct (Z.even (n / d))| |]; lia.
Qed.

Lemma power_of_two_positive (p : Z) : (0 < Qpower 2 p)%Q.
Proof. apply Qpower_0_lt. reflexivity. Qed.

Lemma nearest_double_nonneg (a : Q) : (0 <= a)%Q -> (0 <= nearest_double a)%Q.
Proof.
  intro A. unfold nearest_double. cbv zeta.
  rewrite Qred_correct.
  apply Qmult_le_0_compat; [|apply Qlt_le_weak, power_of_two_positive].
  set (scaled := Qred _).
  assert (0 <= scaled)%Q as S.
  { unfold scaled. rewrite Qred_correct.
    apply Qmult_le_0_compat; [exact A|apply Qlt_le_weak, power_of_two_positive]. }
  change 0%Q with (inject_Z 0). rewrite <- Zle_Qle.
  apply round_half_even_nonneg; [|reflexivity].
  unfold Qle in S. simpl in S. lia.
Qed.

Lemma ieee_keeps_sign : keeps_sign (engine := ieee_engine).
Proof.
  intros x X. simpl. unfold binary64.
  destruct (Qcompare x 0) eqn:E.
  - lra.
  - rewrite <- Qlt_alt in E. lra.
  - now apply nearest_double_nonneg.
Qed.

Lemma tie_store_nonnegative :
  nonnegative_scores (loadGraph (host := reference_host) None 0 tie_store).
Proof.
  intros e m I M. vm_compute in I.
  repeat (destruct I as [<-|I]; [inversion M; subst; split; vm_compute; discriminate|]).
  contradiction.
Qed.


(** * The bootstrap content as the module shares it *)

Lemma bootstrap_graph_initial (now : Z) (language : string) :
  bootstrap_graph now language (served language initial_content)
  = createBootstrapGraph now language.
Proof.
  unfold createBootstrapGraph, served, initial_content, language_content,
    BOOTSTRAP_CONTENT.
  destruct (language =? "en") eqn:En.
  - apply String.eqb_eq in En. subst. reflexivity.
  - destruct (language =? "de"); reflexivity.
Qed.

Lemma add_progress_Returned (now : Z) (batch : list ObservationRequest) :
  forall (es es' : list Entity) (rs : list ObservationResult),
    add_all now batch es = Returned (es', rs) ->
    add_progress now batch es = es'.
Proof.
  induction batch as [|o batch IH]; intros es es' rs E; simpl in *.
  - now inversion E.
  - destruct (add_to_first now o es) as [[es1 r]|]; [|discriminate].
    destruct (add_all now batch es1) as [[es2 rs2]|] eqn:A; [|discriminate].
    inversion E; subst. now apply (IH es1 es' rs2).
Qed.

Section SharedContentProperties.

Context {host : Host}.
Variable AI_BRAIN_LANGUAGE : option string.

(** On the content of a fresh process, the load is [loadGraph]. *)
Lemma loadGraph_shared_initial (now : Z) (disk : Disk) :
  loadGraph_shared AI_BRAIN_LANGUAGE now disk initial_content
  = loadGraph AI_BRAIN_LANGUAGE now disk.
Proof.
  unfold loadGraph_shared, loadGraph. destruct disk; [reflexivity|].
  apply bootstrap_graph_initial.
Qed.

(** With a store file the call is [addObservations], and the content is
    not touched. *)
Lemma addObservations_shared_stored (now : Z) (mgr : Manager) (data : string)
  (content : Content) (batch : list ObservationRequest) :
  addObservations_shared AI_BRAIN_LANGUAGE now mgr (Some data) content batch
  = (addObservations AI_BRAIN_LANGUAGE now mgr (Some data) batch, content).
Proof.
  unfold addObservations_shared, addObservations, loadGraph_shared.
  destruct (add_all now batch _) as [[es rs]|err]; reflexivity.
Qed.

(** On the content of a fresh process, outcome and effect are those of
    [addObservations]. *)
Lemma addObservations_shared_initial (now : Z) (mgr : Manager) (disk : Disk)
  (batch : list ObservationRequest) :
  fst (addObservations_shared AI_BRAIN_LANGUAGE now mgr disk initial_content batch)
  = addObservations AI_BRAIN_LANGUAGE now mgr disk batch.
Proof.
  unfold addObservations_shared, addObservations.
  rewrite loadGraph_shared_initial.
  destruct (add_all now batch _) as [[es rs]|err]; reflexivity.
Qed.

(** X31.  With a store file, [addObservations] is all or nothing.  If some
    request names an entity that the graph does not have, the call throws
    a UserPreferenceError naming a missing entity, and the file, the
    manager and the bootstrap content are left as they were, so nothing
    done for earlier requests of the batch is kept; if every request names
    an entity of the graph, the call returns one result per request, the
    strings already present on the entity of a request are left out of
    what it adds, without any error, and the bootstrap content is left as
    it was. *)
Theorem addObservations_stored_all_or_nothing
  (now : Z) (mgr : Manager) (data : string) (content : Content)
  (batch : list ObservationRequest) :
  ((exists o, In o batch
              /\ has_entity (loadGraph_shared AI_BRAIN_LANGUAGE now (Some data)
                                              content)
                            (entityName o) = false) ->
   exists o,
     In o batch
     /\ has_entity (loadGraph_shared AI_BRAIN_LANGUAGE now (Some data) content)
                   (entityName o) = false
     /\ addObservations_shared AI_BRAIN_LANGUAGE now mgr (Some data) content batch
        = (Thrown (UserPreferenceError
                     ("Entity with name " ++ entityName o ++ " not found")),
           {| disk_after := Some data; manager_after := mgr |},
           content))
  /\ ((forall o, In o batch ->
         has_entity (loadGraph_shared AI_BRAIN_LANGUAGE now (Some data) content)
                    (entityName o) = true) ->
      exists results graph effect,
        addObservations_shared AI_BRAIN_LANGUAGE now mgr (Some data) content batch
        = (Returned (results, graph), effect, content)
        /\ Forall2 (reports (entities (loadGraph_shared AI_BRAIN_LANGUAGE now
                                                        (Some data) content)))
                   batch results).
Proof.
  rewrite addObservations_shared_stored.
  change (loadGraph_shared AI_BRAIN_LANGUAGE now (Some data) content)
    with (loadGraph AI_BRAIN_LANGUAGE now (Some data)).
  split.
  - intros (o & I & H). apply has_entity_false in H.
    destruct (add_all_Thrown now batch
                (entities (loadGraph AI_BRAIN_LANGUAGE now (Some data))))
      as (o' & I' & T' & E); [now exists o|].
    exists o'. split; [exact I'|]. split; [now apply has_entity_false|].
    unfold addObservations. now rewrite E.
  - intro H.
    destruct (add_all_Returned now batch
                (entities (loadGraph AI_BRAIN_LANGUAGE now (Some data))))
      as (es & rs & E & _ & F).
    { intros o I T. specialize (H o I). apply has_entity_false in T. congruence. }
    unfold addObservations. rewrite E. eexists _, _, _. split; [reflexivity|].
    exact F.
Qed.

End SharedContentProperties.

(** C3, the code at a failing input.  A process with no store file
    receives [addObservations] with a request that adds `Prefers dark
    mode' to the profile entity of the bootstrap graph, followed by a
    request on an entity that no graph has.  The call throws the
    UserPreferenceError and writes nothing: the file is still absent and
    the manager is as it was.  But the string has been pushed onto the
    array of [BOOTSTRAP_CONTENT] that the profile entity shares.  The next
    call, with the first request alone, loads a bootstrap graph that
    already holds the string: it reports nothing added, and saves a store
    whose profile entity holds the string of the aborted batch. *)
Theorem addObservations_abort_reaches_store :
  call_outcome aborted_call
  = Thrown (UserPreferenceError "Entity with name NonExistentEntity not found")
  /\ call_effect aborted_call
     = {| disk_after := None; manager_after := fresh_manager |}
  /\ user_profile (content_en (call_content aborted_call))
     = (user_profile (content_en initial_content) ++ ["Prefers dark mode"])%list
  /\ (exists graph,
        call_outcome retried_call
        = Returned ([ {| result_entityName := "User_Profile";
                         addedObservations := [] |} ], graph))
  /\ Str.includes (text_of (disk_after (call_effect retried_call)))
                  "Prefers dark mode" = true
  /\ observations_at
       (loadGraph (host := reference_host) None 0
                  (disk_after (call_effect retried_call))) 1
     = Some (user_profile (content_en initial_content)
             ++ ["Prefers dark mode"])%list.
Proof.
  vm_compute. repeat split. eexists. reflexivity.
Qed.

(** On the store of the tests, a batch whose second request names an
    unknown entity throws and leaves store, manager and content as they
    were; a batch for a known entity returns. *)
Lemma addObservations_stored_all_or_nothing_witness :
  (exists o,
     In o [known_request; unknown_request]
     /\ has_entity (loadGraph_shared (host := reference_host) None 0
                      (Some (text_of test_store)) initial_content)
                   (entityName o) = false
     /\ addObservations_shared (host := reference_host) None 0 fresh_manager
          (Some (text_of test_store)) initial_content
          [known_request; unknown_request]
        = (Thrown (UserPreferenceError
                     ("Entity with name " ++ entityName o ++ " not found")),
           {| disk_after := Some (text_of test_store);
              manager_after := fresh_manager |},
           initial_content))
  /\ (exists results graph effect,
        addObservations_shared (host := reference_host) None 0 fresh_manager
          (Some (text_of test_store)) initial_content [known_request]
        = (Returned (results, graph), effect, initial_content)
        /\ Forall2 (reports (entities (loadGraph_shared (host := reference_host)
                                         None 0 (Some (text_of test_store))
                                         initial_content)))
                   [known_request] results).
Proof.
  split.
  - apply (proj1 (addObservations_stored_all_or_nothing (host := reference_host)
                    None 0 fresh_manager (text_of test_store) initial_content
                    [known_request; unknown_request])).
    exists unknown_request. split; [right; left; reflexivity|].
    vm_compute. reflexivity.
  - apply (proj2 (addObservations_stored_all_or_nothing (host := reference_host)
                    None 0 fresh_manager (text_of test_store) initial_content
                    [known_request])).
    intros o [<-|[]]. vm_compute. reflexivity.
Defined.

(** * The handler on the arguments as received *)

Section RawHandler.

Context {host : Host}.
Variable AI_BRAIN_LANGUAGE : option string.
Variable JSON_pretty : Payload -> string.
Variable cannot_read : string -> string.

Lemma callTool_saves (now : Z) (mgr : Manager) (disk : Disk) (tool : string)
  (args : ToolArguments) :
  In tool ["create_entities"; "create_relations"; "delete_entities";
           "delete_observations"; "delete_relations"; "open_nodes"] ->
  saved_once now mgr
    (callTool AI_BRAIN_LANGUAGE JSON_pretty now mgr disk tool (Some args)).
Proof.
  unfold saved_once.
  simpl. intros [<-|[<-|[<-|[<-|[<-|[<-|[]]]]]]]; unfold callTool;
    compare_names.
  - unfold createEntities. simpl. eexists. split; [reflexivity|].
    split; [reflexivity|]. rewrite saveGraph_disk. discriminate.
  - unfold createRelations. simpl. eexists. split; [reflexivity|].
    split; [reflexivity|]. rewrite saveGraph_disk. discriminate.
  - unfold deleteEntities. simpl. eexists. split; [reflexivity|].
    split; [reflexivity|]. rewrite saveGraph_disk. discriminate.
  - unfold deleteObservations. simpl. eexists. split; [reflexivity|].
    split; [reflexivity|]. rewrite saveGraph_disk. discriminate.
  - unfold deleteRelations. simpl. eexists. split; [reflexivity|].
    split; [reflexivity|]. rewrite saveGraph_disk. discriminate.
  - unfold openNodes. simpl. eexists. split; [reflexivity|].
    split; [reflexivity|]. rewrite saveGraph_disk. discriminate.
Qed.

Lemma callTool_reads (now : Z) (mgr : Manager) (disk : Disk) (tool : string)
  (args : ToolArguments) :
  In tool ["read_graph"; "search_nodes"; "get_user_profile"] ->
  untouched disk mgr
    (callTool AI_BRAIN_LANGUAGE JSON_pretty now mgr disk tool (Some args)).
Proof.
  unfold untouched.
  simpl. intros [<-|[<-|[<-|[]]]]; unfold callTool; compare_names;
    try (destruct (getUserProfile _ _ _)); now split.
Qed.


End RawHandler.

